(** * pystructurizr: the build / dev / upload pipeline of the command line

    A shallow embedding of [pystructurizr/cli.py] and
    [pystructurizr/cli_helper.py].  The commands are sequences of effects on
    the file system, the terminal and a handful of external collaborators
    (the generator child process, the rendering service, the cloud uploader,
    the module watcher).  They are embedded in a state-and-exception monad
    over an explicit [World]; the collaborators that live outside the two
    source files are parameters of the development. *)

From Stdlib Require Import ZArith Ascii String List.
From stdpp Require Import gmap strings list fin_maps pretty.

Set Warnings "-register-all".

Open Scope string_scope.
Open Scope list_scope.
Open Scope stdpp_scope.

(* ===================================================================== *)
(** ** Strings *)
(* ===================================================================== *)

Definition slash : ascii := "/"%char.

(** [s.split(sep)] for a one-character separator: never empty. *)
Fixpoint split_on (sep : ascii) (s : string) : list string :=
  match s with
  | EmptyString => [EmptyString]
  | String c s' =>
      if Ascii.eqb c sep then EmptyString :: split_on sep s'
      else match split_on sep s' with
           | [] => [String c EmptyString]
           | h :: t => String c h :: t
           end
  end.

(** [sep.join(l)]. *)
Fixpoint join (sep : string) (l : list string) : string :=
  match l with
  | [] => EmptyString
  | [x] => x
  | x :: t => x +:+ sep +:+ join sep t
  end.

(** [s.replace(a, b)] for one-character [a] and [b]. *)
Fixpoint replace_char (a b : ascii) (s : string) : string :=
  match s with
  | EmptyString => EmptyString
  | String c s' => String (if Ascii.eqb c a then b else c) (replace_char a b s')
  end.

(** [c in s]. *)
Fixpoint contains_char (c : ascii) (s : string) : bool :=
  match s with
  | EmptyString => false
  | String d s' => Ascii.eqb d c || contains_char c s'
  end.

(** [s.lstrip("/")], together with the number of characters removed. *)
Fixpoint lstrip_slash (s : string) : nat * string :=
  match s with
  | String c s' =>
      if Ascii.eqb c slash then
        let '(n, r) := lstrip_slash s' in (S n, r)
      else (0, s)
  | EmptyString => (0, s)
  end.

(* ===================================================================== *)
(** ** pathlib (POSIX flavour) *)
(* ===================================================================== *)

(** A [pathlib.Path]: its root (the empty string, one slash or two slashes)
    and its name components.  [Path(...)] drops empty and ["."] components
    and keeps [".."]. *)
Record Path := mkPath { path_root : string; path_names : list string }.

#[global] Instance Path_eq_dec : EqDecision Path.
Proof. solve_decision. Defined.

Definition is_component (x : string) : bool :=
  negb (String.eqb x "") && negb (String.eqb x ".").

(** [_PosixFlavour.splitroot]: exactly two leading slashes are kept, any
    other positive number collapses to one. *)
Definition splitroot (s : string) : string * string :=
  let '(n, rel) := lstrip_slash s in
  match n with
  | 0 => ("", rel)
  | 2 => ("//", rel)
  | _ => ("/", rel)
  end.

(** [Path(s)]. *)
Definition Path_of (s : string) : Path :=
  let '(r, rel) := splitroot s in
  mkPath r (List.filter is_component (split_on slash rel)).

(** [p / s]: an absolute right operand replaces the left one. *)
Definition truediv (p : Path) (s : string) : Path :=
  let q := Path_of s in
  if String.eqb (path_root q) "" then
    mkPath (path_root p) (path_names p ++ path_names q)
  else q.

(** [p.parent]: the parent of a path without names is the path itself. *)
Definition parent (p : Path) : Path :=
  match path_names p with
  | [] => p
  | _ => mkPath (path_root p) (removelast (path_names p))
  end.

(** [p.name]. *)
Definition name (p : Path) : string := List.last (path_names p) "".

(** [str(p)]. *)
Definition str (p : Path) : string :=
  match path_root p, path_names p with
  | EmptyString, [] => "."
  | r, l => r +:+ join "/" l
  end.

(** [os.path.basename(s.rstrip("/"))], as [shutil.move] computes the name
    under which a source lands inside a destination directory. *)
Fixpoint rstrip_slash (s : string) : string :=
  match s with
  | EmptyString => EmptyString
  | String c s' =>
      let r := rstrip_slash s' in
      if Ascii.eqb c slash && String.eqb r "" then EmptyString else String c r
  end.

Definition basename (s : string) : string :=
  List.last (split_on slash (rstrip_slash s)) "".

(* ===================================================================== *)
(** ** Values, exceptions, the world *)
(* ===================================================================== *)

(** What [json.loads] returns.  An object keeps its members in document
    order; Python builds the [dict] from them, so that the last member
    with a given key wins. *)
Inductive JSON :=
  | JNull
  | JBool (b : bool)
  | JInt (n : Z)
  | JFloat (lexeme : string)
  | JStr (s : string)
  | JArr (items : list JSON)
  | JObj (members : list (string * JSON)).

Fixpoint dict_get (members : list (string * JSON)) (k : string) : option JSON :=
  match members with
  | [] => None
  | (k', v) :: rest =>
      match dict_get rest k with
      | Some x => Some x
      | None => if String.eqb k' k then Some v else None
      end
  end.

(** The Python exceptions that the two modules can meet. *)
Inductive exn :=
  | CalledProcessError (returncode : Z)
  | UnicodeDecodeError
  | JSONDecodeError
  | KeyError (key : string)
  | TypeError
  | ClickException (message : string)
  | FileNotFoundError
  | FileExistsError
  | NotADirectoryError
  | IsADirectoryError
  | ShutilError (message : string)
  | ExternalError (message : string).

Inductive result (A : Type) :=
  | Ok (a : A)
  | Raise (e : exn).
Arguments Ok {A} a.
Arguments Raise {A} e.

Definition is_Ok {A} (r : result A) : bool :=
  match r with Ok _ => true | Raise _ => false end.

(** A node of the file system: a regular file with its text, or a
    directory. *)
Inductive Node :=
  | File (content : string)
  | Dir.

#[global] Instance Node_eq_dec : EqDecision Node.
Proof. solve_decision. Defined.

(** The file system maps the component list of an absolute path to its
    node.  There are no symbolic links, and [".."] is not interpreted. *)
Abbreviation FS := (gmap (list string) Node).

(** One call of the cloud uploader: credentials, file, bucket, object. *)
Record UploadCall := mkUploadCall {
  up_credentials : string;
  up_file : Path;
  up_bucket : string;
  up_object : string
}.

Record World := mkWorld {
  fs : FS;
  cwd : list string;                      (* the working directory        *)
  stdout : list string;                   (* what was echoed, in order    *)
  spawned : list string;                  (* shell commands given to Popen *)
  uploaded : list UploadCall;             (* calls of the cloud uploader  *)
  ctx_obj : option (gmap string Path)     (* [ctx.obj] of the build group *)
}.

Definition set_fs (f : FS -> FS) (w : World) : World :=
  mkWorld (f (fs w)) (cwd w) (stdout w) (spawned w) (uploaded w) (ctx_obj w).
Definition set_stdout (f : list string -> list string) (w : World) : World :=
  mkWorld (fs w) (cwd w) (f (stdout w)) (spawned w) (uploaded w) (ctx_obj w).
Definition set_spawned (f : list string -> list string) (w : World) : World :=
  mkWorld (fs w) (cwd w) (stdout w) (f (spawned w)) (uploaded w) (ctx_obj w).
Definition set_uploaded (f : list UploadCall -> list UploadCall) (w : World) : World :=
  mkWorld (fs w) (cwd w) (stdout w) (spawned w) (f (uploaded w)) (ctx_obj w).
Definition set_ctx_obj (o : option (gmap string Path)) (w : World) : World :=
  mkWorld (fs w) (cwd w) (stdout w) (spawned w) (uploaded w) o.

(* ===================================================================== *)
(** ** The monad of commands *)
(* ===================================================================== *)

Definition M (A : Type) : Type := World -> result A * World.

Definition ret {A} (a : A) : M A := fun w => (Ok a, w).
Definition raise {A} (e : exn) : M A := fun w => (Raise e, w).
Definition bind {A B} (m : M A) (k : A -> M B) : M B :=
  fun w => match m w with
           | (Ok a, w') => k a w'
           | (Raise e, w') => (Raise e, w')
           end.
Definition gets {A} (f : World -> A) : M A := fun w => (Ok (f w), w).
Definition modify (f : World -> World) : M unit := fun w => (Ok tt, f w).
Definition lift {A} (r : result A) : M A := fun w => (r, w).

Declare Scope cmd_scope.
Delimit Scope cmd_scope with cmd.
Notation "x <- c1 ;; c2" := (bind c1 (fun x => c2))
  (at level 100, c1 at next level, right associativity) : cmd_scope.
Notation "c1 ;; c2" := (bind c1 (fun _ => c2))
  (at level 100, right associativity) : cmd_scope.
Open Scope cmd_scope.

(** [click.echo] and [print] write one line to the terminal. *)
Definition echo (line : string) : M unit :=
  modify (set_stdout (fun out => out ++ [line])).

(** [subprocess.Popen(cmd, shell=True)]: the command is started and not
    waited for. *)
Definition Popen (cmd : string) : M unit :=
  modify (set_spawned (fun l => l ++ [cmd])).

(** [try: body except Exception as e: handler(e)]. *)
Definition try_except {A} (body : M A) (handler : exn -> M A) : M A :=
  fun w => match body w with
           | (Ok a, w') => (Ok a, w')
           | (Raise e, w') => handler e w'
           end.

(** Subclasses of [OSError] ([shutil.Error] is one). *)
Definition is_OSError (e : exn) : bool :=
  match e with
  | FileNotFoundError | FileExistsError | NotADirectoryError
  | IsADirectoryError | ShutilError _ => true
  | _ => false
  end.

(* ===================================================================== *)
(** ** The file system *)
(* ===================================================================== *)

(** The key of a path: a relative path is taken from the working
    directory. *)
Definition locate (w : World) (p : Path) : list string :=
  if String.eqb (path_root p) "" then cwd w ++ path_names p else path_names p.

(** Path resolution of the kernel along [rest], starting from [cur]: every
    directory on the way must exist ([ENOENT]) and be a directory
    ([ENOTDIR]). *)
Fixpoint check_dirs (m : FS) (cur rest : list string) : option exn :=
  match m !! cur with
  | Some Dir =>
      match rest with
      | [] => None
      | x :: rest' => check_dirs m (cur ++ [x]) rest'
      end
  | Some (File _) => Some NotADirectoryError
  | None => Some FileNotFoundError
  end.

(** The directory that is to contain [k] can be reached. *)
Definition check_parent (m : FS) (k : list string) : option exn :=
  check_dirs m [] (removelast k).

(** [os.mkdir]. *)
Definition fs_mkdir (m : FS) (k : list string) : result FS :=
  match k with
  | [] => Raise FileExistsError
  | _ =>
      match check_parent m k with
      | Some e => Raise e
      | None =>
          match m !! k with
          | Some _ => Raise FileExistsError
          | None => Ok (<[k := Dir]> m)
          end
      end
  end.

(** [open(k, "w")], [write(text)], [close()]: the file is created or
    truncated. *)
Definition fs_write (m : FS) (k : list string) (text : string) : result FS :=
  match k with
  | [] => Raise IsADirectoryError
  | _ =>
      match check_parent m k with
      | Some e => Raise e
      | None =>
          match m !! k with
          | Some Dir => Raise IsADirectoryError
          | _ => Ok (<[k := File text]> m)
          end
      end
  end.

(** [open(k).read()]. *)
Definition fs_read (m : FS) (k : list string) : result string :=
  match check_parent m k with
  | Some e => Raise e
  | None =>
      match m !! k with
      | Some (File c) => Ok c
      | Some Dir => Raise IsADirectoryError
      | None => Raise FileNotFoundError
      end
  end.

(** [os.unlink]. *)
Definition fs_unlink (m : FS) (k : list string) : result FS :=
  match check_parent m k with
  | Some e => Raise e
  | None =>
      match m !! k with
      | Some (File _) => Ok (delete k m)
      | Some Dir => Raise IsADirectoryError
      | None => Raise FileNotFoundError
      end
  end.

(** [os.rename] of a regular file: an existing regular file at the
    destination is replaced, and renaming a file to itself changes
    nothing.  The only source the commands ever rename is the artifact
    that [generate_svg] has just written; the renaming of a directory is
    outside the model and stops with [ExternalError]. *)
Definition fs_rename (m : FS) (ks kd : list string) : result FS :=
  match check_parent m ks with
  | Some e => Raise e
  | None =>
      match m !! ks with
      | None => Raise FileNotFoundError
      | Some Dir => Raise (ExternalError "rename of a directory")
      | Some (File c) =>
          match kd with
          | [] => Raise IsADirectoryError
          | _ =>
              match check_parent m kd with
              | Some e => Raise e
              | None =>
                  match m !! kd with
                  | Some Dir => Raise IsADirectoryError
                  | _ => Ok (<[kd := File c]> (delete ks m))
                  end
              end
          end
      end
  end.

(** [shutil.rmtree]: the directory goes with everything below it. *)
Definition fs_rmtree (m : FS) (k : list string) : FS :=
  filter (fun kv => ¬ k `prefix_of` kv.1) m.

(** The world with [m] for its file system. *)
Definition with_fs (w : World) (m : FS) : World := set_fs (fun _ => m) w.

(** An operation of the file system as a command. *)
Definition fs_op (f : World -> result FS) : M unit :=
  fun w => match f w with
           | Ok m' => (Ok tt, with_fs w m')
           | Raise e => (Raise e, w)
           end.

Definition os_mkdir (p : Path) : M unit :=
  fs_op (fun w => fs_mkdir (fs w) (locate w p)).
Definition os_rename (src : string) (dst : Path) : M unit :=
  fs_op (fun w => fs_rename (fs w) (locate w (Path_of src)) (locate w dst)).
Definition os_unlink (src : string) : M unit :=
  fs_op (fun w => fs_unlink (fs w) (locate w (Path_of src))).
Definition write_text (p : Path) (text : string) : M unit :=
  fs_op (fun w => fs_write (fs w) (locate w p) text).
Definition read_text (p : Path) : M string :=
  fun w => (fs_read (fs w) (locate w p), w).

(** [p.is_file()], [p.is_dir()], [p.exists()]. *)
Definition isfile (w : World) (p : Path) : bool :=
  match fs w !! locate w p with Some (File _) => true | _ => false end.
Definition isdir (w : World) (p : Path) : bool :=
  match fs w !! locate w p with Some Dir => true | _ => false end.
Definition lexists (w : World) (p : Path) : bool :=
  match fs w !! locate w p with Some _ => true | None => false end.

Definition is_file (p : Path) : M bool := gets (fun w => isfile w p).
Definition is_dir (p : Path) : M bool := gets (fun w => isdir w p).
Definition exists_ (p : Path) : M bool := gets (fun w => lexists w p).

(** The tail of [Path.mkdir]: [except OSError: if not exist_ok or not
    self.is_dir(): raise]. *)
Definition mkdir_except_OSError (self : Path) (exist_ok : bool) (e : exn) : M unit :=
  if is_OSError e then
    d <- is_dir self ;;
    if negb exist_ok || negb d then raise e else ret tt
  else raise e.

(** [self.mkdir(parents=False, exist_ok=exist_ok)]. *)
Definition Path_mkdir_single (self : Path) (exist_ok : bool) : M unit :=
  try_except (os_mkdir self) (fun e =>
    match e with
    | FileNotFoundError => raise e
    | _ => mkdir_except_OSError self exist_ok e
    end).

(** [Path.mkdir(parents, exist_ok)], by recursion on the names of the path
    from the last one upwards: a missing parent ([FileNotFoundError]) is
    created with [parents=True, exist_ok=True], then the directory itself
    is created. *)
Fixpoint Path_mkdir_rec (root : string) (rev_names : list string)
    (parents exist_ok : bool) {struct rev_names} : M unit :=
  let self := mkPath root (rev rev_names) in
  try_except (os_mkdir self) (fun e =>
    match e with
    | FileNotFoundError =>
        match rev_names with
        | [] => raise e                           (* self.parent == self *)
        | _ :: up =>
            if negb parents then raise e
            else (Path_mkdir_rec root up true true ;;
                  Path_mkdir_single self exist_ok)
        end
    | _ => mkdir_except_OSError self exist_ok e
    end).

Definition Path_mkdir (p : Path) (parents exist_ok : bool) : M unit :=
  Path_mkdir_rec (path_root p) (rev (path_names p)) parents exist_ok.

(** [shutil.copy2] of a regular file onto a path that is not a
    directory. *)
Definition copy2 (src : string) (dst : Path) : M unit :=
  content <- read_text (Path_of src) ;;
  write_text dst content.

(** [shutil.move(src, dst)]: into [dst] when [dst] is a directory, under
    the base name of [src]; by [os.rename], and by copy and unlink when
    the renaming fails. *)
Definition shutil_move (src : string) (dst : Path) : M Path :=
  d <- is_dir dst ;;
  real_dst <-
    (if d : bool then
       let inside := truediv dst (basename src) in
       e <- exists_ inside ;;
       if e : bool then
         raise (ShutilError ("Destination path '" +:+ str inside +:+ "' already exists"))
       else ret inside
     else ret dst) ;;
  try_except (os_rename src real_dst) (fun e =>
    if is_OSError e then (copy2 src real_dst ;; os_unlink src) else raise e) ;;
  ret real_dst.

(** [shutil.copy(src, dst)] for the static page of the preview. *)
Definition shutil_copy (src : Path) (dst : string) : M unit :=
  d <- is_dir (Path_of dst) ;;
  let target := if d : bool then truediv (Path_of dst) (name src) else Path_of dst in
  content <- read_text src ;;
  write_text target content.

(** [Path.absolute()]. *)
Definition absolute (p : Path) : M Path :=
  gets (fun w => if String.eqb (path_root p) "" then mkPath "/" (cwd w ++ path_names p) else p).

(* ===================================================================== *)
(** ** External collaborators *)
(* ===================================================================== *)

(** An [httpx.Response]: [content] is the body as received, [text] the
    body as decoded by the client. *)
Record Response := mkResponse {
  status_code : Z;
  reason_phrase : string;
  content : string;
  text : string
}.

(** [repr(resp)]. *)
Definition Response_repr (r : Response) : string :=
  "<Response [" +:+ pretty (status_code r) +:+ " " +:+ reason_phrase r +:+ "]>".

(** What lies outside [cli.py] and [cli_helper.py]: the interpreter and
    the location of the package, the generator child process, the text
    functions of the Python library, the rendering service, the name that
    [tempfile] picks, the cloud storage module and the module watcher. *)
Record Env := mkEnv {
  sys_executable : string;
  module_file : string;                              (* [__file__] of cli.py *)
  run_child : list string -> World -> Z * string;    (* exit status, stdout  *)
  bytes_decode : string -> option string;            (* [bytes.decode()]     *)
  str_strip : string -> string;                      (* [str.strip()]        *)
  json_loads : string -> option JSON;                (* [json.loads]         *)
  client_post : string -> JSON -> World -> result Response;
  mkdtemp : World -> string;
  create_cloud_storage : string -> string -> World -> result unit;
  cloud_upload_file : UploadCall -> World -> result string;
  observe_modules : JSON -> M JSON -> M unit
}.

Section Pipeline.

Context (E : Env).

(** [subprocess.check_output(args)]: the standard output of the child, or
    [CalledProcessError] when it exits with a status other than zero. *)
Definition check_output (args : list string) : M string :=
  fun w => let '(rc, out) := run_child E args w in
           if (rc =? 0)%Z then (Ok out, w) else (Raise (CalledProcessError rc), w).

Definition decode (b : string) : M string :=
  lift (match bytes_decode E b with Some s => Ok s | None => Raise UnicodeDecodeError end).

Definition loads (s : string) : M JSON :=
  lift (match json_loads E s with Some j => Ok j | None => Raise JSONDecodeError end).

(** [value[key]] for a string key: only a [dict] can be indexed so. *)
Definition getitem (value : JSON) (key : string) : M JSON :=
  match value with
  | JObj members =>
      match dict_get members key with
      | Some v => ret v
      | None => raise (KeyError key)
      end
  | _ => raise TypeError
  end.

(** [with tempfile.TemporaryDirectory() as tmp_folder: body]: the
    directory is made, the body runs, and the directory is removed with
    all it contains whether the body returned or raised. *)
Definition TemporaryDirectory {A} (body : string -> M A) : M A :=
  fun w =>
    let tmp_folder := mkdtemp E w in
    match os_mkdir (Path_of tmp_folder) w with
    | (Raise e, w') => (Raise e, w')
    | (Ok _, w1) =>
        let '(r, w2) := body tmp_folder w1 in
        (r, with_fs w2 (fs_rmtree (fs w2) (locate w2 (Path_of tmp_folder))))
    end.

(* ===================================================================== *)
(** ** cli_helper.py *)
(* ===================================================================== *)

Definition generate_diagram_code_in_child_process (view : string) : M (JSON * JSON) :=
  let run_child_process :=
    output <- check_output [sys_executable E; "-m"; "pystructurizr.generator";
                            "dump"; "--view"; view] ;;
    decoded <- decode output ;;
    ret (str_strip E decoded) in
  child_output <- run_child_process ;;
  result <- loads child_output ;;
  code <- getitem result "code" ;;
  imported_modules <- getitem result "imported_modules" ;;
  ret (code, imported_modules).

Definition generate_svg (diagram_code : JSON) (tmp_folder : string) : M string :=
  let url := "https://kroki.io/structurizr/svg" in
  resp <- (fun w => (client_post E url diagram_code w, w)) ;;
  if negb (status_code resp =? 200)%Z then
    echo (Response_repr resp) ;;
    (if negb (String.eqb (content resp) "") then
       body <- decode (content resp) ;;
       echo body
     else ret tt) ;;
    raise (ClickException "Failed to create diagram")
  else
    let svg_file_path := tmp_folder +:+ "/diagram.svg" in
    write_text (Path_of svg_file_path) (text resp) ;;
    ret svg_file_path.

(* ===================================================================== *)
(** ** cli.py *)
(* ===================================================================== *)

(** Lines 76 to 84 of [build]: the directory to create and the path of the
    output file. *)
Definition resolve_destination (view file_path : string) : M (Path * Path) :=
  let svg_file_path := Path_of file_path in
  f <- is_file svg_file_path ;;
  if f : bool then
    let base_dir := parent svg_file_path in
    ret (base_dir, svg_file_path)
  else
    let base_dir := svg_file_path in
    let diagram_name := replace_char "." "_" view in
    ret (base_dir, truediv svg_file_path (diagram_name +:+ ".svg")).

(** Lines 76 to 90 of [build]: resolve, ensure that the directory exists,
    move the artifact. *)
Definition place (view file_path temp_svg_file_path : string) : M Path :=
  r <- resolve_destination view file_path ;;
  let '(base_dir, svg_file_path) := r in
  Path_mkdir base_dir true true ;;
  shutil_move temp_svg_file_path svg_file_path ;;
  ret svg_file_path.

(** [ctx.ensure_object(dict)]. *)
Definition ensure_object_dict : M unit :=
  modify (fun w => match ctx_obj w with
                   | None => set_ctx_obj (Some ∅) w
                   | Some _ => w
                   end).

(** [ctx.obj[key] = value]. *)
Definition ctx_obj_setitem (key : string) (value : Path) : M unit :=
  fun w => match ctx_obj w with
           | None => (Raise TypeError, w)
           | Some d => (Ok tt, set_ctx_obj (Some (<[key := value]> d)) w)
           end.

(** [ctx.obj[key]]. *)
Definition ctx_obj_getitem (key : string) : M Path :=
  fun w => match ctx_obj w with
           | None => (Raise TypeError, w)
           | Some d =>
               match d !! key with
               | Some v => (Ok v, w)
               | None => (Raise (KeyError key), w)
               end
           end.

(** The body of the [with] block of [build]. *)
Definition build_async_behavior (view file_path tmp_folder : string) : M unit :=
  r <- generate_diagram_code_in_child_process view ;;
  let '(diagram_code, _) := r in
  temp_svg_file_path <- generate_svg diagram_code tmp_folder ;;
  svg_file_path <- place view file_path temp_svg_file_path ;;
  ensure_object_dict ;;
  ctx_obj_setitem "svg_file_path" svg_file_path ;;
  echo (str svg_file_path).

Definition build (view file_path : string) : M unit :=
  TemporaryDirectory (build_async_behavior view file_path).

(** [cloud_storage.upload_file(...)]: the call is recorded in the world
    and answered by the collaborator. *)
Definition upload_file (call : UploadCall) : M string :=
  modify (set_uploaded (fun l => l ++ [call])) ;;
  (fun w => (cloud_upload_file E call w, w)).

Definition upload (gcs_credentials bucket_name object_name : string) : M unit :=
  svg_file_path <- ctx_obj_getitem "svg_file_path" ;;
  echo ("Uploading " +:+ str svg_file_path) ;;
  (fun w => (create_cloud_storage E "GCS" gcs_credentials w, w)) ;;
  svg_file_url <-
    upload_file (mkUploadCall gcs_credentials svg_file_path bucket_name object_name) ;;
  echo svg_file_url.

(** [build VIEW FILE_PATH upload ...]: the group is declared with
    [chain=True], so click runs the callback of the group and then the
    subcommands in order, each with a context that inherits [ctx.obj];
    an exception ends the chain. *)
Fixpoint invoke_chain (subcommands : list (string * string * string)) : M unit :=
  match subcommands with
  | [] => ret tt
  | (gcs_credentials, bucket_name, object_name) :: rest =>
      upload gcs_credentials bucket_name object_name ;;
      invoke_chain rest
  end.


(** The coroutine [async_behavior] of [dev]. *)
Definition dev_async_behavior (view tmp_folder : string) : M JSON :=
  echo "Generating diagram..." ;;
  r <- generate_diagram_code_in_child_process view ;;
  let '(diagram_code, imported_modules) := r in
  generate_svg diagram_code tmp_folder ;;
  ret imported_modules.

Definition observe_loop (view tmp_folder : string) : M unit :=
  modules_to_watch <- dev_async_behavior view tmp_folder ;;
  echo "Launching webserver..." ;;
  Popen ("httpwatcher --root " +:+ tmp_folder +:+ " --watch " +:+ tmp_folder) ;;
  observe_modules E modules_to_watch (dev_async_behavior view tmp_folder).

Definition dev (view : string) : M unit :=
  echo ("Setting up live preview of view " +:+ view +:+ "...") ;;
  TemporaryDirectory (fun tmp_folder =>
    current_script_path <- absolute (Path_of (module_file E)) ;;
    let index_html := truediv (parent current_script_path) "index.html" in
    shutil_copy index_html (tmp_folder +:+ "/index.html") ;;
    observe_loop view tmp_folder).

End Pipeline.

(* ===================================================================== *)
(** ** A reference instance of the text functions *)
(* ===================================================================== *)

(** The theorems below hold for every [Env].  To run the commands on
    concrete inputs, this module gives the text functions for ASCII text
    and for the part of JSON without floats and unicode escapes. *)
Module Text.

Definition dquote : ascii := ascii_of_nat 34.
Definition backslash : ascii := ascii_of_nat 92.

Definition quoted (s : string) : string :=
  String dquote (s +:+ String dquote EmptyString).

Definition is_space (c : ascii) : bool :=
  match nat_of_ascii c with
  | 9 | 10 | 11 | 12 | 13 | 28 | 29 | 30 | 31 | 32 => true
  | _ => false
  end.

Fixpoint lstrip (s : string) : string :=
  match s with
  | String c s' => if is_space c then lstrip s' else s
  | EmptyString => s
  end.

Fixpoint rstrip (s : string) : string :=
  match s with
  | EmptyString => EmptyString
  | String c s' =>
      let r := rstrip s' in
      if is_space c && String.eqb r "" then EmptyString else String c r
  end.

(** [str.strip()] on ASCII text. *)
Definition strip (s : string) : string := rstrip (lstrip s).

(** [bytes.decode()] on ASCII bytes. *)
Fixpoint all_ascii (s : string) : bool :=
  match s with
  | EmptyString => true
  | String c s' => Nat.ltb (nat_of_ascii c) 128 && all_ascii s'
  end.

Definition decode_ascii (b : string) : option string :=
  if all_ascii b then Some b else None.

(** [json.dumps] on strings without control characters. *)
Fixpoint escape (s : string) : string :=
  match s with
  | EmptyString => EmptyString
  | String c s' =>
      if Ascii.eqb c dquote || Ascii.eqb c backslash
      then String backslash (String c (escape s'))
      else String c (escape s')
  end.

Fixpoint dumps (j : JSON) : string :=
  match j with
  | JNull => "null"
  | JBool true => "true"
  | JBool false => "false"
  | JInt n => pretty n
  | JFloat lexeme => lexeme
  | JStr s => quoted (escape s)
  | JArr items => "[" +:+ join ", " (List.map dumps items) +:+ "]"
  | JObj members =>
      "{" +:+ join ", " (List.map (fun kv => quoted (escape kv.1) +:+ ": " +:+ dumps kv.2)
                                 members) +:+ "}"
  end.

(** [json.loads]: a recursive descent with fuel. *)
Definition is_json_space (c : ascii) : bool :=
  match nat_of_ascii c with 9 | 10 | 13 | 32 => true | _ => false end.

Fixpoint skip_ws (s : string) : string :=
  match s with
  | String c s' => if is_json_space c then skip_ws s' else s
  | EmptyString => s
  end.

Fixpoint strip_prefix (p s : string) : option string :=
  match p, s with
  | EmptyString, _ => Some s
  | String a p', String b s' => if Ascii.eqb a b then strip_prefix p' s' else None
  | String _ _, EmptyString => None
  end.

Definition digit_value (c : ascii) : option Z :=
  let n := nat_of_ascii c in
  if Nat.leb 48 n && Nat.leb n 57 then Some (Z.of_nat (n - 48)) else None.

Fixpoint read_digits (acc : Z) (s : string) : Z * string :=
  match s with
  | String c s' =>
      match digit_value c with
      | Some d => read_digits (10 * acc + d)%Z s'
      | None => (acc, s)
      end
  | EmptyString => (acc, s)
  end.

(** An optional minus sign, then a single zero or digits that do not
    start with a zero. *)
Definition read_int (s : string) : option (Z * string) :=
  let '(neg, body) :=
    match s with
    | String "-"%char s' => (true, s')
    | _ => (false, s)
    end in
  match body with
  | String c rest =>
      match digit_value c with
      | None => None
      | Some d =>
          let '(n, rest') := if (d =? 0)%Z then (0%Z, rest) else read_digits d rest in
          Some (if neg : bool then (- n)%Z else n, rest')
      end
  | EmptyString => None
  end.

(** The characters of a string literal, after its opening quote. *)
Fixpoint read_string (s : string) : option (string * string) :=
  match s with
  | EmptyString => None
  | String c s' =>
      if Ascii.eqb c dquote then Some (EmptyString, s')
      else if Ascii.eqb c backslash then
        match s' with
        | String e s'' =>
            let unescaped :=
              if Ascii.eqb e dquote then Some dquote
              else if Ascii.eqb e backslash then Some backslash
              else if Ascii.eqb e "/"%char then Some "/"%char
              else if Ascii.eqb e "n"%char then Some (ascii_of_nat 10)
              else if Ascii.eqb e "t"%char then Some (ascii_of_nat 9)
              else if Ascii.eqb e "r"%char then Some (ascii_of_nat 13)
              else None in
            match unescaped, read_string s'' with
            | Some u, Some (body, rest) => Some (String u body, rest)
            | _, _ => None
            end
        | EmptyString => None
        end
      else if Nat.ltb (nat_of_ascii c) 32 then None
      else match read_string s' with
           | Some (body, rest) => Some (String c body, rest)
           | None => None
           end
  end.

Fixpoint parse_value (fuel : nat) (s : string) : option (JSON * string) :=
  match fuel with
  | 0 => None
  | S fuel' =>
      match skip_ws s with
      | EmptyString => None
      | String c rest as s0 =>
          if Ascii.eqb c dquote then
            match read_string rest with
            | Some (body, rest') => Some (JStr body, rest')
            | None => None
            end
          else if Ascii.eqb c "["%char then
            match skip_ws rest with
            | String "]"%char rest' => Some (JArr [], rest')
            | _ => match parse_items fuel' rest with
                   | Some (items, rest') => Some (JArr items, rest')
                   | None => None
                   end
            end
          else if Ascii.eqb c "{"%char then
            match skip_ws rest with
            | String "}"%char rest' => Some (JObj [], rest')
            | _ => match parse_members fuel' rest with
                   | Some (members, rest') => Some (JObj members, rest')
                   | None => None
                   end
            end
          else
            match strip_prefix "null" s0, strip_prefix "true" s0, strip_prefix "false" s0 with
            | Some rest', _, _ => Some (JNull, rest')
            | _, Some rest', _ => Some (JBool true, rest')
            | _, _, Some rest' => Some (JBool false, rest')
            | _, _, _ =>
                match read_int s0 with
                | Some (n, rest') => Some (JInt n, rest')
                | None => None
                end
            end
      end
  end
with parse_items (fuel : nat) (s : string) : option (list JSON * string) :=
  match fuel with
  | 0 => None
  | S fuel' =>
      match parse_value fuel' s with
      | None => None
      | Some (v, rest) =>
          match skip_ws rest with
          | String "]"%char rest' => Some ([v], rest')
          | String ","%char rest' =>
              match parse_items fuel' rest' with
              | Some (vs, rest'') => Some (v :: vs, rest'')
              | None => None
              end
          | _ => None
          end
      end
  end
with parse_members (fuel : nat) (s : string) : option (list (string * JSON) * string) :=
  match fuel with
  | 0 => None
  | S fuel' =>
      match skip_ws s with
      | String c rest =>
          if Ascii.eqb c dquote then
            match read_string rest with
            | None => None
            | Some (key, rest1) =>
                match skip_ws rest1 with
                | String ":"%char rest2 =>
                    match parse_value fuel' rest2 with
                    | None => None
                    | Some (v, rest3) =>
                        match skip_ws rest3 with
                        | String "}"%char rest' => Some ([(key, v)], rest')
                        | String ","%char rest' =>
                            match parse_members fuel' rest' with
                            | Some (kvs, rest'') => Some ((key, v) :: kvs, rest'')
                            | None => None
                            end
                        | _ => None
                        end
                    end
                | _ => None
                end
            end
          else None
      | EmptyString => None
      end
  end.

Definition loads (s : string) : option JSON :=
  match parse_value (2 * String.length s + 2) s with
  | Some (v, rest) => if String.eqb (skip_ws rest) "" then Some v else None
  | None => None
  end.

End Text.

(* ===================================================================== *)
(** ** A sample environment *)
(* ===================================================================== *)

Module Sample.

(** The record that a generator prints for a view. *)
Definition record (code : JSON) (imported_modules : JSON) : JSON :=
  JObj [("code", code); ("imported_modules", imported_modules)].

(** A child that exits with [rc] after printing [out]. *)
Definition child (rc : Z) (out : string) : list string -> World -> Z * string :=
  fun _ _ => (rc, out).

(** A rendering service that always answers [resp]. *)
Definition service (resp : Response) : string -> JSON -> World -> result Response :=
  fun _ _ _ => Ok resp.

Definition svg : string := "<svg></svg>".
Definition ok_response : Response := mkResponse 200 "OK" svg svg.
Definition bad_response : Response :=
  mkResponse 500 "Internal Server Error" "bad syntax" "bad syntax".

(** The watcher of this sample rebuilds once and is then cancelled. *)
Definition watcher (modules : JSON) (rebuild : M JSON) : M unit :=
  rebuild ;; raise (ExternalError "cancelled").

Definition env (run : list string -> World -> Z * string)
    (post : string -> JSON -> World -> result Response) : Env :=
  mkEnv "/usr/bin/python3" "/site/pystructurizr/cli.py"
        run Text.decode_ascii Text.strip Text.loads post
        (fun _ => "/tmp/tmpdiagram")
        (fun _ _ _ => Ok tt)
        (fun call _ => Ok ("https://storage.googleapis.com/" +:+ up_bucket call
                           +:+ "/" +:+ up_object call))
        watcher.

Definition view : string := "examples.single_file_example".

Definition good_output : string :=
  Text.dumps (record (JStr "workspace { }") (JArr [JStr view; JStr "examples"]))
  +:+ String (ascii_of_nat 10) EmptyString.

Definition good_env : Env := env (child 0 good_output) (service ok_response).

(** A machine with [/tmp], the package and a home directory, in which the
    command runs. *)
Definition disk : FS :=
  list_to_map [([], Dir); (["tmp"], Dir); (["site"], Dir);
               (["site"; "pystructurizr"], Dir);
               (["site"; "pystructurizr"; "index.html"], File "<html></html>");
               (["home"], Dir); (["home"; "user"], Dir)].

Definition world (m : FS) : World := mkWorld m ["home"; "user"] [] [] [] None.

End Sample.

(* ===================================================================== *)
(** ** Predicates used in the statements *)
(* ===================================================================== *)

(** A name: a string that [Path] keeps as one component. *)
Definition plain_name (s : string) : Prop :=
  contains_char slash s = false /\ is_component s = true.

(** The command line of the generator child process. *)
Definition generator_argv (E : Env) (view : string) : list string :=
  [sys_executable E; "-m"; "pystructurizr.generator"; "dump"; "--view"; view].

(** The output [out] of the child reads as a record with a member [code]
    and a member [imported_modules], of values [code] and [modules]. *)
Definition record_of (E : Env) (out : string) (code modules : JSON) : Prop :=
  exists s members,
    bytes_decode E out = Some s /\
    json_loads E (str_strip E s) = Some (JObj members) /\
    dict_get members "code" = Some code /\
    dict_get members "imported_modules" = Some modules.

(** The words of the specification for the two members: the code is a
    blob of text, the modules are a list of module identifiers. *)
Definition is_code_blob (j : JSON) : bool :=
  match j with JStr _ => true | _ => false end.

Definition is_module_list (j : JSON) : bool :=
  match j with
  | JArr items => forallb is_code_blob items
  | _ => false
  end.

(** The words of the specification for a well-formed output of the child:
    structured data containing both a code blob and a list of module
    identifiers. *)
Definition spec_well_formed (E : Env) (out : string) : Prop :=
  exists code modules,
    record_of E out code modules /\
    is_code_blob code = true /\ is_module_list modules = true.

Module SampleRecords.
Import Sample.

(** A record whose [imported_modules] is a number. *)
Definition ill_typed_output : string :=
  Text.dumps (record (JStr "workspace { }") (JInt 7)).

(** A record with members of other types and with further members. *)
Definition extended_output : string :=
  Text.dumps (JObj [("version", JInt 3); ("code", JArr [JNull]);
                    ("imported_modules", JObj [("a", JBool true)]);
                    ("comment", JStr "ignored")]).

(** Text that is no JSON. *)
Definition broken_output : string := "Traceback (most recent call last):".

End SampleRecords.

(** A file system is well formed when its root is a directory and every
    node lies in a directory. *)
Definition wf (m : FS) : Prop :=
  m !! [] = Some Dir /\
  forall k x n, m !! (k ++ [x]) = Some n -> m !! k = Some Dir.

(** The same, as a check that runs. *)
Definition wfb (m : FS) : bool :=
  bool_decide (m !! [] = Some Dir) &&
  forallb (fun kv => match kv.1 with
                     | [] => true
                     | _ => bool_decide (m !! removelast kv.1 = Some Dir)
                     end) (map_to_list m).

(** The working directory of the process is a directory of a well-formed
    file system. *)
Definition wf_world (w : World) : Prop :=
  wf (fs w) /\ fs w !! cwd w = Some Dir.

(** No regular file stands on the way to [k]: every prefix of [k] is a
    directory or is absent. *)
Definition clear_way (m : FS) (k : list string) : Prop :=
  forall p c, p `prefix_of` k -> m !! p <> Some (File c).

Definition clear_wayb (m : FS) (k : list string) : bool :=
  forallb (fun n => match m !! take n k with Some (File _) => false | _ => true end)
          (seq 0 (S (length k))).

(** The file system after the directories from [base] down to
    [base ++ rev rev_names] have been made. *)
Fixpoint ensure_dirs (m : FS) (base rev_names : list string) : FS :=
  match rev_names with
  | [] => m
  | _ :: up => <[base ++ rev rev_names := Dir]> (ensure_dirs m base up)
  end.

(** Where a path without names lies: the working directory or the root. *)
Definition base_key (w : World) (root : string) : list string :=
  locate w (mkPath root []).

(** What [resolve_destination] computes in the world [w]: the directory
    to create and the path of the output file. *)
Definition destination (view file_path : string) (w : World) : Path * Path :=
  if isfile w (Path_of file_path) then
    (parent (Path_of file_path), Path_of file_path)
  else
    (Path_of file_path,
     truediv (Path_of file_path) (replace_char "." "_" view +:+ ".svg")).

(** The address of the rendering service. *)
Definition kroki_url : string := "https://kroki.io/structurizr/svg".

(** The name of the artifact in the working directory. *)
Definition artifact_path (tmp_folder : string) : string :=
  tmp_folder +:+ "/diagram.svg".

(** A command that touches nothing but the file system. *)
Definition fs_only {A} (c : M A) : Prop :=
  forall w r w', c w = (r, w') -> w' = with_fs w (fs w').

(** The world after [lines] have been written to the terminal. *)
Definition echoed (w : World) (lines : list string) : World :=
  set_stdout (fun out => out ++ lines) w.

Module SampleRender.
Import Sample.

(** A working directory [/tmp/work] that already holds an older
    artifact. *)
Definition work : string := "/tmp/work".

Definition work_disk : FS :=
  <[["tmp"; "work"; "diagram.svg"] := File "<svg>old</svg>"]>
    (<[["tmp"; "work"] := Dir]> disk).

Definition failing_env : Env := env (child 0 good_output) (service bad_response).

End SampleRender.

Module SamplePlace.
Import Sample.

(** The destination [out] already holds a directory with the name of the
    output file. *)
Definition occupied_disk : FS :=
  <[["home"; "user"; "out"; "examples_single_file_example.svg"] := Dir]>
    (<[["home"; "user"; "out"] := Dir]> disk).

(** The destination [out/diagram.svg] is a regular file, and the artifact
    waits in [/tmp/work]. *)
Definition file_disk : FS :=
  <[["home"; "user"; "out"; "diagram.svg"] := File "<svg>first</svg>"]>
    (<[["home"; "user"; "out"] := Dir]> SampleRender.work_disk).

End SamplePlace.

(** The line that [dev] prints before it makes its directory. *)
Definition dev_banner (view : string) : string :=
  "Setting up live preview of view " +:+ view +:+ "...".

(** The body of the [with] block of [dev]. *)
Definition dev_body (E : Env) (view tmp_folder : string) : M unit :=
  current_script_path <- absolute (Path_of (module_file E)) ;;
  let index_html := truediv (parent current_script_path) "index.html" in
  shutil_copy index_html (tmp_folder +:+ "/index.html") ;;
  observe_loop E view tmp_folder.

(** Modelled from the spec: the generation subprocess
    [pystructurizr.generator], which the bridge starts and which is not
    among the sources.  The specification has it take the view identifier
    as an argument and emit on its standard output one record with the
    fields [code] (a string, the diagram description) and
    [imported_modules] (a sequence of strings: the module identifiers that
    the generation touched, the view module among them); an invalid view
    makes it exit with a status other than zero.  [workspace_of] gives the
    diagram description of a valid view, [touched] the further modules
    that its generation touches, [json_dumps] the serialisation. *)
Record Generator := mkGenerator {
  workspace_of : string -> option string;
  touched : string -> list string;
  json_dumps : JSON -> string
}.

Definition generator_record (G : Generator) (view code : string) : JSON :=
  JObj [("code", JStr code);
        ("imported_modules", JArr (List.map JStr (view :: touched G view)))].

Definition newline : string := String (ascii_of_nat 10) EmptyString.

Definition generator_child (G : Generator) (view : string) : Z * string :=
  match workspace_of G view with
  | None => (1%Z, "")
  | Some code => (0%Z, json_dumps G (generator_record G view code) +:+ newline)
  end.

(** The text functions of the environment read [j] back from [text]. *)
Definition reads_back (E : Env) (text : string) (j : JSON) : Prop :=
  exists s, bytes_decode E text = Some s /\ json_loads E (str_strip E s) = Some j.

Module SampleGenerator.
Import Sample.

(** One valid view, whose generation also touches the package it lies
    in. *)
Definition generator : Generator :=
  mkGenerator
    (fun v => if String.eqb v view then Some "workspace { }" else None)
    (fun _ => ["examples"])
    Text.dumps.

Definition generator_env : Env :=
  env (fun argv _ => generator_child generator (List.last argv ""))
      (service ok_response).

End SampleGenerator.

(** What [upload] does once it has found the path [p] in the context. *)
Definition upload_from (E : Env) (p : Path)
    (gcs_credentials bucket_name object_name : string)
    (w : World) : result unit * World :=
  let w2 := echoed w ["Uploading " +:+ str p] in
  match create_cloud_storage E "GCS" gcs_credentials w2 with
  | Raise e => (Raise e, w2)
  | Ok _ =>
      let call := mkUploadCall gcs_credentials p bucket_name object_name in
      let w3 := set_uploaded (fun l => l ++ [call]) w2 in
      match cloud_upload_file E call w3 with
      | Ok url => (Ok tt, echoed w3 [url])
      | Raise e => (Raise e, w3)
      end
  end.

(* ===================================================================== *)
(** ** The [dump] command *)
(* ===================================================================== *)

(** What [dump] takes from the Python library: [json.dumps], [str()] of a
    value that is not a string, and the characters of a [str]. *)
Record PyText := mkPyText {
  json_dumps_of : JSON -> string;
  str_of : JSON -> string;
  chars_of : string -> list string
}.

(** The keys of the [dict] that Python builds from [members]: every key
    once, at the place of its first appearance. *)
Fixpoint dict_keys (members : list (string * JSON)) (seen : list string)
    : list string :=
  match members with
  | [] => []
  | (k, _) :: rest =>
      if bool_decide (k ∈ seen) then dict_keys rest seen
      else k :: dict_keys rest (k :: seen)
  end.

(** [list(value)]: the items of a list, the keys of a [dict], the
    characters of a [str]; a number, a boolean and [None] are not
    iterable. *)
Definition py_list (T : PyText) (value : JSON) : M (list JSON) :=
  match value with
  | JArr items => ret items
  | JObj members => ret (List.map JStr (dict_keys members []))
  | JStr s => ret (List.map JStr (chars_of T s))
  | _ => raise TypeError
  end.

(** [click.echo(value)]: a string is written as it is, [None] as an empty
    line, any other value through [str()]. *)
Definition echo_value (T : PyText) (value : JSON) : M unit :=
  echo (match value with
        | JStr s => s
        | JNull => ""
        | _ => str_of T value
        end).

(** The record that [dump --as-json] serialises. *)
Definition dumped_record (diagram_code : JSON) (modules : list JSON) : JSON :=
  JObj [("code", diagram_code); ("imported_modules", JArr modules)].

Definition dump (E : Env) (T : PyText) (view : string) (as_json : bool) : M unit :=
  r <- generate_diagram_code_in_child_process E view ;;
  let '(diagram_code, imported_modules) := r in
  if as_json then
    modules <- py_list T imported_modules ;;
    echo (json_dumps_of T (dumped_record diagram_code modules))
  else
    echo_value T diagram_code.

Module SampleDump.
Import Sample.

(** The text functions for ASCII text; [str()] of a value that is not a
    string is rendered like its JSON text in this sample. *)
Definition pytext : PyText :=
  mkPyText Text.dumps Text.dumps
           (fix chars (s : string) : list string :=
              match s with
              | EmptyString => []
              | String c s' => String c EmptyString :: chars s'
              end).

(** A child whose [imported_modules] is a number. *)
Definition number_env : Env :=
  env (child 0 SampleRecords.ill_typed_output) (service ok_response).

(** A child that prints an empty object. *)
Definition empty_env : Env := env (child 0 "{}") (service ok_response).

End SampleDump.

(** The values that [list()] accepts. *)
Definition iterable (value : JSON) : bool :=
  match value with
  | JArr _ | JObj _ | JStr _ => true
  | _ => false
  end.

(* ===================================================================== *)
(** ** The stages of a build *)
(* ===================================================================== *)

(** The key of the temporary directory of a command started in [w], and
    of the artifact in it. *)
Definition tmp_key (E : Env) (w : World) : list string :=
  locate w (Path_of (mkdtemp E w)).

Definition artifact_key_of (E : Env) (w : World) : list string :=
  locate w (Path_of (artifact_path (mkdtemp E w))).

(** The world in which the body of the [with] block starts. *)
Definition started_world (E : Env) (w : World) : World :=
  with_fs w (<[tmp_key E w := Dir]> (fs w)).

(** The world once the artifact with the text [text] has been written. *)
Definition rendered_world (E : Env) (w : World) (text : string) : World :=
  with_fs w (<[artifact_key_of E w := File text]> (<[tmp_key E w := Dir]> (fs w))).

(** The world at the end of a build that has placed its artifact, leaving
    the file system [placed] and the path [p]. *)
Definition finished_world (E : Env) (w : World) (placed : FS) (p : Path) : World :=
  mkWorld (fs_rmtree placed (tmp_key E w)) (cwd w) (stdout w ++ [str p])
          (spawned w) (uploaded w)
          (Some (<["svg_file_path" := p]> (default ∅ (ctx_obj w)))).

Module SampleBuild.
Import Sample.

(** A regular file [notes] in the home directory. *)
Definition notes_disk : FS := <[["home"; "user"; "notes"] := File "to do"]> disk.

(** The destination [out/diagram.svg] is a regular file. *)
Definition target_disk : FS :=
  <[["home"; "user"; "out"; "diagram.svg"] := File "<svg>first</svg>"]>
    (<[["home"; "user"; "out"] := Dir]> disk).

(** A child that fails. *)
Definition crashing_env : Env := env (child 1 "") (service ok_response).

End SampleBuild.

(* ===================================================================== *)
(** ** The start of the live preview *)
(* ===================================================================== *)

(** [Path(__file__).absolute().parent / 'index.html']. *)
Definition index_html_path (E : Env) (w : World) : Path :=
  truediv
    (parent (if String.eqb (path_root (Path_of (module_file E))) ""
             then mkPath "/" (cwd w ++ path_names (Path_of (module_file E)))
             else Path_of (module_file E)))
    "index.html".

(** The name and the key of the temporary directory of [dev], which is
    made after the banner has been printed, and the key of the page in
    it. *)
Definition dev_tmp (E : Env) (view : string) (w : World) : string :=
  mkdtemp E (echoed w [dev_banner view]).

Definition dev_tmp_key (E : Env) (view : string) (w : World) : list string :=
  locate w (Path_of (dev_tmp E view w)).

(** The world in which the first cycle of [dev] starts: the banner is
    printed, the directory made and the page copied. *)
Definition served_world (E : Env) (view : string) (w : World) (page : string) : World :=
  with_fs (echoed w [dev_banner view])
          (<[dev_tmp_key E view w ++ ["index.html"] := File page]>
             (<[dev_tmp_key E view w := Dir]> (fs w))).

(** The world in which the watcher of [dev] starts. *)
Definition watched_world (E : Env) (view : string) (w : World)
    (page text : string) : World :=
  mkWorld (<[dev_tmp_key E view w ++ ["diagram.svg"] := File text]>
             (<[dev_tmp_key E view w ++ ["index.html"] := File page]>
                (<[dev_tmp_key E view w := Dir]> (fs w))))
          (cwd w)
          (stdout w ++ [dev_banner view; "Generating diagram..."; "Launching webserver..."])
          (spawned w ++ ["httpwatcher --root " +:+ dev_tmp E view w
                         +:+ " --watch " +:+ dev_tmp E view w])
          (uploaded w) (ctx_obj w).

Module SampleDev.
Import Sample.

(** A watcher that looks at the world it is started in and returns. *)
Definition idle_env : Env :=
  mkEnv "/usr/bin/python3" "/site/pystructurizr/cli.py"
        (child 0 good_output) Text.decode_ascii Text.strip Text.loads
        (service ok_response)
        (fun _ => "/tmp/tmpdiagram")
        (fun _ _ _ => Ok tt)
        (fun call _ => Ok "")
        (fun _ _ => ret tt).

(** The same machine without the page of the preview. *)
Definition bare_disk : FS := delete ["site"; "pystructurizr"; "index.html"] disk.

End SampleDev.

(** The call of the uploader that the subcommand [sub] makes for the
    path [p]. *)
Definition upload_call (p : Path) (sub : string * string * string) : UploadCall :=
  let '(gcs_credentials, bucket_name, object_name) := sub in
  mkUploadCall gcs_credentials p bucket_name object_name.

(* ===================================================================== *)
(** * Properties *)
(* ===================================================================== *)

(** ** Sanity checks of the path functions *)

Example Path_of_out : Path_of "out/" = mkPath "" ["out"].
Proof. reflexivity. Qed.

Example Path_of_abs : Path_of "/tmp//x/./y" = mkPath "/" ["tmp"; "x"; "y"].
Proof. reflexivity. Qed.

Example Path_of_two_slashes : Path_of "//a" = mkPath "//" ["a"].
Proof. reflexivity. Qed.

Example truediv_out :
  str (truediv (Path_of "out/") "examples_single_file_example.svg")
  = "out/examples_single_file_example.svg".
Proof. reflexivity. Qed.

Example truediv_abs : truediv (Path_of "out") "/a.svg" = mkPath "/" ["a.svg"].
Proof. reflexivity. Qed.

Example str_dot : str (Path_of "") = ".".
Proof. reflexivity. Qed.

Example basename_artifact : basename "/tmp/tmpab12/diagram.svg" = "diagram.svg".
Proof. reflexivity. Qed.

(** ** Commands *)

Lemma bind_Ok {A B} (m : M A) (k : A -> M B) w a w1 :
  m w = (Ok a, w1) -> bind m k w = k a w1.
Proof. intros H. unfold bind. now rewrite H. Qed.

Lemma bind_Raise {A B} (m : M A) (k : A -> M B) w e w1 :
  m w = (Raise e, w1) -> bind m k w = (Raise e, w1).
Proof. intros H. unfold bind. now rewrite H. Qed.

(** A sequence that returns has run both of its parts. *)
Lemma bind_Ok_inv {A B} (m : M A) (k : A -> M B) w b w2 :
  bind m k w = (Ok b, w2) ->
  exists a w1, m w = (Ok a, w1) /\ k a w1 = (Ok b, w2).
Proof.
  unfold bind. destruct (m w) as [[a|e] w1]; intros H.
  - now exists a, w1.
  - discriminate.
Qed.

(** A sequence that raises stopped in its first part or in its second. *)
Lemma bind_Raise_inv {A B} (m : M A) (k : A -> M B) w e w2 :
  bind m k w = (Raise e, w2) ->
  m w = (Raise e, w2) \/ exists a w1, m w = (Ok a, w1) /\ k a w1 = (Raise e, w2).
Proof.
  unfold bind. destruct (m w) as [[a|e'] w1]; intros H.
  - right. now exists a, w1.
  - left. now inversion H.
Qed.

(** ** Strings and paths *)

Lemma split_on_nonempty sep s : split_on sep s <> [].
Proof.
  destruct s as [|c s]; simpl; [discriminate|].
  destruct (Ascii.eqb c sep); [discriminate|].
  destruct (split_on sep s); discriminate.
Qed.

Lemma split_on_app sep s t :
  split_on sep (s +:+ String sep t) = split_on sep s ++ split_on sep t.
Proof.
  induction s as [|c s IH]; simpl.
  - now rewrite Ascii.eqb_refl.
  - destruct (Ascii.eqb c sep); [now rewrite IH|].
    rewrite IH. pose proof (split_on_nonempty sep s) as Hne.
    destruct (split_on sep s); [congruence | reflexivity].
Qed.

Lemma split_on_plain sep s :
  contains_char sep s = false -> split_on sep s = [s].
Proof.
  induction s as [|c s IH]; simpl; [reflexivity|].
  intros H. apply orb_false_iff in H as [Hc Hs].
  rewrite Hc, (IH Hs). reflexivity.
Qed.

Lemma lstrip_slash_plain s :
  contains_char slash s = false -> lstrip_slash s = (0, s).
Proof.
  destruct s as [|c s]; simpl; [reflexivity|].
  intros H. apply orb_false_iff in H as [Hc _]. now rewrite Hc.
Qed.

Lemma Path_of_plain s : plain_name s -> Path_of s = mkPath "" [s].
Proof.
  intros [Hs Hc]. unfold Path_of, splitroot.
  rewrite (lstrip_slash_plain s Hs), (split_on_plain _ s Hs). simpl.
  now rewrite Hc.
Qed.

Lemma truediv_plain p s :
  plain_name s -> truediv p s = mkPath (path_root p) (path_names p ++ [s]).
Proof. intros H. unfold truediv. now rewrite (Path_of_plain s H). Qed.

Lemma parent_truediv_plain p s : plain_name s -> parent (truediv p s) = p.
Proof.
  intros H. rewrite (truediv_plain p s H). unfold parent. simpl.
  destruct (path_names p ++ [s]) eqn:Heq.
  - now destruct (path_names p).
  - rewrite <- Heq, removelast_last. now destruct p.
Qed.

Lemma name_truediv_plain p s : plain_name s -> name (truediv p s) = s.
Proof.
  intros H. rewrite (truediv_plain p s H). unfold name. simpl.
  apply last_last.
Qed.

Lemma contains_char_app c s t :
  contains_char c (s +:+ t) = contains_char c s || contains_char c t.
Proof.
  induction s as [|d s IH]; simpl; [reflexivity|].
  now rewrite IH, orb_assoc.
Qed.

Lemma contains_char_replace c a b s :
  contains_char c s = false -> b <> c ->
  contains_char c (replace_char a b s) = false.
Proof.
  intros Hs Hb. induction s as [|d s IH]; simpl in *; [reflexivity|].
  apply orb_false_iff in Hs as [Hd Hs]. rewrite (IH Hs), orb_false_r.
  destruct (Ascii.eqb d a); [|exact Hd].
  now apply Ascii.eqb_neq.
Qed.

(** The file name that [build] derives from a view is a name. *)
Lemma diagram_file_name_plain view :
  contains_char slash view = false ->
  plain_name (replace_char "." "_" view +:+ ".svg").
Proof.
  intros Hv. split.
  - rewrite contains_char_app, contains_char_replace; [reflexivity|exact Hv|discriminate].
  - destruct (replace_char "." "_" view) as [|c r]; [reflexivity|].
    unfold is_component.
    change (String c r +:+ ".svg") with (String c (r +:+ ".svg")).
    cbn. destruct (Ascii.eqb c "."); [|reflexivity].
    destruct r; reflexivity.
Qed.

(** ** The code generator bridge *)

Section Generate.

Context (E : Env).

(** The bridge leaves the world as it found it. *)
Lemma generate_world view w r w' :
  generate_diagram_code_in_child_process E view w = (r, w') -> w' = w.
Proof.
  unfold generate_diagram_code_in_child_process, bind, check_output, decode,
    loads, lift, ret, getitem.
  destruct (run_child E _ w) as [rc out].
  destruct (rc =? 0)%Z; [|now inversion 1].
  destruct (bytes_decode E out) as [s|]; [|now inversion 1].
  destruct (json_loads E (str_strip E s)) as [j|]; [|now inversion 1].
  destruct j; try (now inversion 1).
  destruct (dict_get members "code"); [|now inversion 1].
  destruct (dict_get members "imported_modules"); now inversion 1.
Qed.

(** A non-zero exit status is a [CalledProcessError]. *)
Lemma generate_nonzero_exit view w rc out :
  run_child E (generator_argv E view) w = (rc, out) -> rc <> 0%Z ->
  generate_diagram_code_in_child_process E view w = (Raise (CalledProcessError rc), w).
Proof.
  intros Hrun Hrc.
  unfold generate_diagram_code_in_child_process, bind, check_output.
  unfold generator_argv in Hrun. rewrite Hrun.
  destruct (Z.eqb_spec rc 0); [contradiction | reflexivity].
Qed.

(** With exit status zero, the bridge returns exactly when the output
    reads as a record with both members. *)
Lemma generate_zero_exit view w out :
  run_child E (generator_argv E view) w = (0%Z, out) ->
  forall r, generate_diagram_code_in_child_process E view w = (r, w) ->
  match r with
  | Ok (code, modules) => record_of E out code modules
  | Raise _ => ~ exists code modules, record_of E out code modules
  end.
Proof.
  intros Hrun r.
  unfold generate_diagram_code_in_child_process, bind, check_output, decode,
    loads, lift, ret, getitem, raise.
  unfold generator_argv in Hrun. rewrite Hrun. simpl.
  unfold record_of.
  destruct (bytes_decode E out) as [s|] eqn:Hd.
  2:{ intros Heq; inversion Heq; subst. intros (c & m & s' & ms & Ea & _). discriminate. }
  destruct (json_loads E (str_strip E s)) as [j|] eqn:Hj.
  2:{ intros Heq; inversion Heq; subst. intros (c & m & s' & ms & Ea & Eb & _). congruence. }
  destruct j;
    try (intros Heq; inversion Heq; subst;
         intros (c & m & s' & ms & Ea & Eb & _); congruence).
  destruct (dict_get members "code") as [c|] eqn:Hc.
  2:{ intros Heq; inversion Heq; subst.
      intros (c & m & s' & ms & Ea & Eb & Ec & _). congruence. }
  destruct (dict_get members "imported_modules") as [m|] eqn:Hm.
  2:{ intros Heq; inversion Heq; subst.
      intros (c' & m & s' & ms & Ea & Eb & Ec & Ed). congruence. }
  intros Heq; inversion Heq; subst. now exists s, members.
Qed.

Lemma generate_record view w out code modules :
  run_child E (generator_argv E view) w = (0%Z, out) ->
  record_of E out code modules ->
  generate_diagram_code_in_child_process E view w = (Ok (code, modules), w).
Proof.
  intros Hrun (s & members & Hd & Hj & Hc & Hm).
  unfold generate_diagram_code_in_child_process, bind, check_output, decode,
    loads, lift, ret, getitem.
  unfold generator_argv in Hrun. rewrite Hrun. simpl.
  now rewrite Hd, Hj, Hc, Hm.
Qed.

End Generate.

Lemma dict_get_extra members k k' v :
  k' <> k -> dict_get (members ++ [(k', v)]) k = dict_get members k.
Proof.
  intros Hk. induction members as [|[k0 v0] ms IH]; simpl.
  - destruct (String.eqb_spec k' k); [contradiction | reflexivity].
  - now rewrite IH.
Qed.

(** C10.  [generate_diagram_code_in_child_process] validates nothing but
    the presence of the two keys: whenever the child exits with status
    zero and its output parses as an object in which [code] and
    [imported_modules] are present, the call returns the two values as
    they are, of whatever type, and leaves the world unchanged; [fields]
    is any member list, so further members are ignored. *)
Theorem generate_checks_key_presence_only
    (E : Env) (view : string) (w : World) (out s : string)
    (fields : list (string * JSON)) (code modules : JSON) :
  run_child E (generator_argv E view) w = (0%Z, out) ->
  bytes_decode E out = Some s ->
  json_loads E (str_strip E s) = Some (JObj fields) ->
  dict_get fields "code" = Some code ->
  dict_get fields "imported_modules" = Some modules ->
  generate_diagram_code_in_child_process E view w = (Ok (code, modules), w).
Proof.
  intros Hrun Hd Hj Hc Hm. apply (generate_record E view w out); [exact Hrun|].
  now exists s, fields.
Qed.

Lemma generate_checks_key_presence_only_witness :
  let E := Sample.env (Sample.child 0 SampleRecords.extended_output)
                      (Sample.service Sample.ok_response) in
  let w := Sample.world Sample.disk in
  generate_diagram_code_in_child_process E Sample.view w
  = (Ok (JArr [JNull], JObj [("a", JBool true)]), w).
Proof.
  intros E w.
  apply (generate_checks_key_presence_only E Sample.view w
           SampleRecords.extended_output SampleRecords.extended_output
           [("version", JInt 3); ("code", JArr [JNull]);
            ("imported_modules", JObj [("a", JBool true)]);
            ("comment", JStr "ignored")]);
    vm_compute; reflexivity.
Defined.

(** C3, as the code has it.  The call raises exactly when the child exits
    with a status other than zero or its output does not read as a record
    with a member [code] and a member [imported_modules]; otherwise it
    returns the values of the two members.  The values themselves are not
    inspected. *)
Theorem generate_raises_iff_exit_or_member_missing
    (E : Env) (view : string) (w : World) (rc : Z) (out : string) :
  run_child E (generator_argv E view) w = (rc, out) ->
  ((rc <> 0%Z \/ ~ (exists code modules, record_of E out code modules)) <->
   exists e, generate_diagram_code_in_child_process E view w = (Raise e, w))
  /\
  (forall code modules, rc = 0%Z -> record_of E out code modules ->
   generate_diagram_code_in_child_process E view w = (Ok (code, modules), w)).
Proof.
  intros Hrun. split; [split|].
  - intros [Hrc | Hrec].
    + exists (CalledProcessError rc). now apply (generate_nonzero_exit E view w rc out).
    + destruct (Z.eq_dec rc 0%Z) as [-> | Hrc].
      * destruct (generate_diagram_code_in_child_process E view w) as [r w'] eqn:Hg.
        pose proof (generate_world E view w r w' Hg) as ->.
        pose proof (generate_zero_exit E view w out Hrun r Hg) as Hr.
        destruct r as [[c m] | e]; [|now exists e].
        exfalso. apply Hrec. now exists c, m.
      * exists (CalledProcessError rc). now apply (generate_nonzero_exit E view w rc out).
  - intros [e He]. destruct (Z.eq_dec rc 0%Z) as [-> | Hrc]; [right | now left].
    exact (generate_zero_exit E view w out Hrun (Raise e) He).
  - intros c m -> Hrec. now apply (generate_record E view w out).
Qed.

Lemma generate_raises_iff_exit_or_member_missing_witness :
  let E := Sample.env (Sample.child 0 SampleRecords.broken_output)
                      (Sample.service Sample.ok_response) in
  let w := Sample.world Sample.disk in
  exists e, generate_diagram_code_in_child_process E Sample.view w = (Raise e, w).
Proof.
  intros E w.
  apply (generate_raises_iff_exit_or_member_missing E Sample.view w 0%Z
           SampleRecords.broken_output); [reflexivity|].
  right. intros (c & m & s & ms & Hd & Hj & _).
  vm_compute in Hd. injection Hd as <-. vm_compute in Hj. discriminate.
Defined.

(** C3, as the specification words it, fails: a record whose
    [imported_modules] is the number 7 is not a list of module
    identifiers, and yet the call returns it. *)
Lemma generate_returns_ill_typed_record :
  let E := Sample.env (Sample.child 0 SampleRecords.ill_typed_output)
                      (Sample.service Sample.ok_response) in
  let w := Sample.world Sample.disk in
  run_child E (generator_argv E Sample.view) w = (0%Z, SampleRecords.ill_typed_output)
  /\ ~ spec_well_formed E SampleRecords.ill_typed_output
  /\ generate_diagram_code_in_child_process E Sample.view w
     = (Ok (JStr "workspace { }", JInt 7), w).
Proof.
  intros E w. split; [reflexivity|]. split; [|vm_compute; reflexivity].
  intros (c & m & (s & ms & Hd & Hj & Hc & Hm) & _ & Hlist).
  vm_compute in Hd. injection Hd as <-.
  vm_compute in Hj. injection Hj as <-.
  vm_compute in Hm. injection Hm as <-.
  discriminate.
Qed.

(** ** The file system *)

Lemma with_fs_id w : with_fs w (fs w) = w.
Proof. now destruct w. Qed.

Lemma prefix_snoc_inv {A} (p l : list A) x :
  p `prefix_of` l ++ [x] -> p = l ++ [x] \/ p `prefix_of` l.
Proof.
  intros [k Hk]. induction k as [|y k _] using rev_ind.
  - left. now rewrite app_nil_r in Hk.
  - right. rewrite app_assoc in Hk. apply app_inj_tail in Hk as [Hk _].
    now exists k.
Qed.

Lemma prefix_app_cases {A} (q b l : list A) :
  q `prefix_of` b ++ l ->
  q `prefix_of` b \/ exists p, q = b ++ p /\ p `prefix_of` l.
Proof.
  revert q. induction b as [|y b IH]; intros q Hq.
  - right. now exists q.
  - destruct q as [|z q]; [left; apply prefix_nil|].
    simpl in Hq. pose proof (prefix_cons_inv_1 _ _ _ _ Hq) as ->.
    apply prefix_cons_inv_2 in Hq.
    destruct (IH q Hq) as [H | (p & -> & Hp)].
    + left. now apply prefix_cons.
    + right. now exists p.
Qed.

(** In a well-formed file system every node lies below directories. *)
Lemma wf_prefix m k n p :
  wf m -> m !! k = Some n -> p `prefix_of` k -> p <> k -> m !! p = Some Dir.
Proof.
  intros [_ Hwf]. revert n.
  induction k as [|x k IH] using rev_ind; intros n Hk Hp Hne.
  - apply prefix_nil_inv in Hp. congruence.
  - apply prefix_snoc_inv in Hp as [-> | Hp]; [congruence|].
    pose proof (Hwf k x n Hk) as Hd.
    destruct (decide (p = k)) as [-> | Hpk]; [exact Hd|].
    now apply (IH Dir).
Qed.

Lemma wf_parent m k n :
  wf m -> k <> [] -> m !! k = Some n -> m !! removelast k = Some Dir.
Proof.
  intros [_ H] Hne Hk. rewrite (app_removelast_last "" Hne) in Hk.
  now apply H in Hk.
Qed.

Lemma wf_below_absent m t k :
  wf m -> m !! t = None -> t `prefix_of` k -> m !! k = None.
Proof.
  intros Hwf Ht Hp. destruct (m !! k) as [n|] eqn:Hk; [|reflexivity].
  destruct (decide (t = k)) as [-> | Hne]; [congruence|].
  rewrite (wf_prefix m k n t Hwf Hk Hp Hne) in Ht. discriminate.
Qed.

Lemma check_dirs_None m cur rest :
  check_dirs m cur rest = None <->
  forall p, p `prefix_of` rest -> m !! (cur ++ p) = Some Dir.
Proof.
  revert cur. induction rest as [|x rest IH]; intros cur; simpl.
  - split.
    + intros H p Hp. apply prefix_nil_inv in Hp as ->. rewrite app_nil_r.
      destruct (m !! cur) as [[c|]|]; congruence.
    + intros H. specialize (H [] (prefix_nil _)). rewrite app_nil_r in H.
      now rewrite H.
  - split.
    + intros H p Hp. destruct (m !! cur) as [[c|]|] eqn:Hc; try discriminate.
      destruct p as [|y p]; [now rewrite app_nil_r|].
      pose proof (prefix_cons_inv_1 _ _ _ _ Hp) as ->.
      apply prefix_cons_inv_2 in Hp.
      pose proof (proj1 (IH (cur ++ [x])) H p Hp) as Hd.
      now rewrite <- app_assoc in Hd.
    + intros H. pose proof (H [] (prefix_nil _)) as H0.
      rewrite app_nil_r in H0. rewrite H0. apply IH. intros p Hp.
      rewrite <- app_assoc. apply H. now apply prefix_cons.
Qed.

Lemma check_dirs_clear m cur rest :
  (forall p c, p `prefix_of` rest -> m !! (cur ++ p) <> Some (File c)) ->
  check_dirs m cur rest = None \/ check_dirs m cur rest = Some FileNotFoundError.
Proof.
  revert cur. induction rest as [|x rest IH]; intros cur H; simpl.
  - destruct (m !! cur) as [[c|]|] eqn:Hc; auto.
    exfalso. apply (H [] c (prefix_nil _)). now rewrite app_nil_r.
  - destruct (m !! cur) as [[c|]|] eqn:Hc; auto.
    + exfalso. apply (H [] c (prefix_nil _)). now rewrite app_nil_r.
    + apply IH. intros p c Hp. rewrite <- app_assoc. apply H.
      now apply prefix_cons.
Qed.

Lemma check_dirs_wf m k : wf m -> m !! k = Some Dir -> check_dirs m [] k = None.
Proof.
  intros Hwf Hk. apply check_dirs_None. intros p Hp. simpl.
  destruct (decide (p = k)) as [-> | Hne]; [exact Hk|].
  now apply (wf_prefix m k Dir).
Qed.

Lemma check_parent_wf m k :
  wf m -> m !! removelast k = Some Dir -> check_parent m k = None.
Proof. intros. now apply check_dirs_wf. Qed.

Lemma fs_mkdir_new m k :
  wf m -> k <> [] -> m !! removelast k = Some Dir -> m !! k = None ->
  fs_mkdir m k = Ok (<[k := Dir]> m).
Proof.
  intros Hwf Hne Hp Hk. unfold fs_mkdir. destruct k; [congruence|].
  rewrite (check_parent_wf _ _ Hwf Hp). now rewrite Hk.
Qed.

Lemma fs_mkdir_exists m k n :
  wf m -> m !! k = Some n -> fs_mkdir m k = Raise FileExistsError.
Proof.
  intros Hwf Hk. unfold fs_mkdir. destruct k as [|x k]; [reflexivity|].
  rewrite check_parent_wf; [now rewrite Hk | exact Hwf |].
  now apply (wf_parent m _ n).
Qed.

Lemma fs_mkdir_missing m k :
  clear_way m (removelast k) -> k <> [] -> m !! removelast k = None ->
  fs_mkdir m k = Raise FileNotFoundError.
Proof.
  intros Hclear Hne Hp. unfold fs_mkdir. destruct k as [|x k]; [congruence|].
  unfold check_parent.
  destruct (check_dirs_clear m [] (removelast (x :: k))) as [H | H].
  - intros p c Hpre. simpl. now apply Hclear.
  - pose proof (proj1 (check_dirs_None _ _ _) H _ (reflexivity _)) as Hd.
    change (m !! removelast (x :: k) = Some Dir) in Hd. congruence.
  - now rewrite H.
Qed.

Lemma wf_insert_dir m k :
  wf m -> k <> [] -> m !! removelast k = Some Dir -> wf (<[k := Dir]> m).
Proof.
  intros [Hr Hwf] Hne Hp. split.
  - rewrite lookup_insert_ne; [exact Hr | exact Hne].
  - intros k' x n Hk'.
    destruct (decide (k = k')) as [-> | Hkk']; [now rewrite lookup_insert_eq|].
    rewrite lookup_insert_ne by exact Hkk'.
    destruct (decide (k = k' ++ [x])) as [-> | Hn].
    + now rewrite removelast_last in Hp.
    + rewrite lookup_insert_ne in Hk' by exact Hn. now apply (Hwf k' x n).
Qed.

Lemma wf_insert_file m k c :
  wf m -> k <> [] -> m !! removelast k = Some Dir -> m !! k <> Some Dir ->
  wf (<[k := File c]> m).
Proof.
  intros [Hr Hwf] Hne Hp Hk. split.
  - rewrite lookup_insert_ne; [exact Hr | exact Hne].
  - intros k' x n Hk'.
    destruct (decide (k = k' ++ [x])) as [-> | Hn].
    + rewrite removelast_last in Hp. rewrite lookup_insert_ne; [exact Hp|].
      intros Heq. apply (f_equal length) in Heq. rewrite length_app in Heq.
      simpl in Heq. lia.
    + rewrite lookup_insert_ne in Hk' by exact Hn. apply Hwf in Hk'.
      destruct (decide (k = k')) as [-> | Hkk']; [contradiction|].
      now rewrite lookup_insert_ne.
Qed.

Lemma wf_delete_file m k c : wf m -> m !! k = Some (File c) -> wf (delete k m).
Proof.
  intros [Hr Hwf] Hk. split.
  - rewrite lookup_delete_ne; [exact Hr|]. intros ->. congruence.
  - intros k' x n Hk'. apply lookup_delete_Some in Hk' as [Hne Hk'].
    apply Hwf in Hk'. rewrite lookup_delete_ne; [exact Hk'|].
    intros ->. congruence.
Qed.

Lemma wfb_sound m : wfb m = true -> wf m.
Proof.
  unfold wfb. intros H. apply andb_true_iff in H as [Hr Hall].
  apply bool_decide_eq_true in Hr. split; [exact Hr|].
  intros k x n Hk. rewrite forallb_forall in Hall.
  assert (Hin : In (k ++ [x], n) (map_to_list m)).
  { apply list_elem_of_In. now apply elem_of_map_to_list. }
  specialize (Hall _ Hin). simpl in Hall.
  destruct (k ++ [x]) eqn:Heq; [now destruct k|].
  rewrite <- Heq, removelast_last in Hall.
  now apply bool_decide_eq_true in Hall.
Qed.

Lemma clear_wayb_sound m k : clear_wayb m k = true -> clear_way m k.
Proof.
  unfold clear_wayb. rewrite forallb_forall. intros H p c [q ->] Hp.
  specialize (H (length p)). rewrite take_app_length in H.
  rewrite Hp in H. enough (false = true) by discriminate. apply H.
  apply in_seq. rewrite length_app. lia.
Qed.

(** ** Making directories *)

Lemma locate_base w root l : locate w (mkPath root l) = base_key w root ++ l.
Proof.
  unfold base_key, locate. simpl. destruct (String.eqb root ""); simpl.
  - now rewrite app_nil_r.
  - reflexivity.
Qed.

Lemma os_mkdir_Ok p w m' :
  fs_mkdir (fs w) (locate w p) = Ok m' -> os_mkdir p w = (Ok tt, with_fs w m').
Proof. intros H. unfold os_mkdir, fs_op. now rewrite H. Qed.

Lemma os_mkdir_Raise p w e :
  fs_mkdir (fs w) (locate w p) = Raise e -> os_mkdir p w = (Raise e, w).
Proof. intros H. unfold os_mkdir, fs_op. now rewrite H. Qed.

Lemma ensure_dirs_chain m base rn p :
  m !! base = Some Dir -> p `prefix_of` rev rn ->
  ensure_dirs m base rn !! (base ++ p) = Some Dir.
Proof.
  intros Hb. revert p. induction rn as [|x up IH]; intros p Hp; simpl in *.
  - apply prefix_nil_inv in Hp as ->. now rewrite app_nil_r.
  - rewrite lookup_insert. case_decide; [reflexivity|].
    apply prefix_snoc_inv in Hp as [-> | Hp]; [congruence|]. now apply IH.
Qed.

Lemma ensure_dirs_lookup m base rn k :
  ensure_dirs m base rn !! k = Some Dir \/ ensure_dirs m base rn !! k = m !! k.
Proof.
  induction rn as [|x up IH]; simpl; [now right|].
  rewrite lookup_insert. case_decide; [now left | exact IH].
Qed.

Lemma ensure_dirs_other m base rn k :
  (forall p, p `prefix_of` rev rn -> k <> base ++ p) ->
  ensure_dirs m base rn !! k = m !! k.
Proof.
  induction rn as [|x up IH]; intros H; simpl in *; [reflexivity|].
  rewrite lookup_insert_ne.
  - apply IH. intros p Hp. apply H. now apply prefix_app_r.
  - intros Heq. now apply (H (rev up ++ [x])).
Qed.

Lemma clear_way_prefix m k p : clear_way m k -> p `prefix_of` k -> clear_way m p.
Proof. intros H Hp q c Hq. apply H. now transitivity p. Qed.

Lemma ensure_dirs_preserved m base rn k n :
  clear_way m (base ++ rev rn) -> m !! k = Some n ->
  ensure_dirs m base rn !! k = Some n.
Proof.
  induction rn as [|x up IH]; intros Hc Hk; simpl in *; [exact Hk|].
  rewrite lookup_insert. case_decide as Heq.
  - subst k. destruct n as [c|]; [|reflexivity].
    now destruct (Hc _ c (reflexivity _)).
  - apply IH; [|exact Hk]. apply (clear_way_prefix _ _ _ Hc).
    apply prefix_app, prefix_app_r. reflexivity.
Qed.

Lemma ensure_dirs_id m base rn :
  wf m -> m !! (base ++ rev rn) = Some Dir -> ensure_dirs m base rn = m.
Proof.
  intros Hwf. induction rn as [|x up IH]; intros Hk; simpl in *; [reflexivity|].
  rewrite IH.
  - now apply insert_id.
  - rewrite app_assoc in Hk. now apply (proj2 Hwf) in Hk.
Qed.

Lemma wf_ensure_dirs m base rn :
  wf m -> m !! base = Some Dir -> wf (ensure_dirs m base rn).
Proof.
  intros Hwf Hb. induction rn as [|x up IH]; simpl; [exact Hwf|].
  apply wf_insert_dir; [exact IH | now destruct base, (rev up) |].
  rewrite app_assoc, removelast_last.
  apply ensure_dirs_chain; [exact Hb | reflexivity].
Qed.

(** [mkdir(parents=True, exist_ok=True)] succeeds whenever no regular file
    stands on the way, and makes exactly the missing directories. *)
Lemma Path_mkdir_rec_ensure root rn w :
  wf (fs w) -> fs w !! base_key w root = Some Dir ->
  clear_way (fs w) (base_key w root ++ rev rn) ->
  Path_mkdir_rec root rn true true w
  = (Ok tt, with_fs w (ensure_dirs (fs w) (base_key w root) rn)).
Proof.
  intros Hwf Hb.
  induction rn as [|x up IH]; intros Hc.
  - simpl. unfold try_except.
    rewrite (os_mkdir_Raise _ w FileExistsError).
    + unfold mkdir_except_OSError, bind, is_dir, gets. simpl. unfold isdir.
      rewrite locate_base, app_nil_r, Hb. simpl.
      unfold ret. now rewrite with_fs_id.
    + rewrite locate_base, app_nil_r. now apply (fs_mkdir_exists _ _ Dir).
  - simpl rev in *.
    assert (Hcup : clear_way (fs w) (base_key w root ++ rev up)).
    { apply (clear_way_prefix _ _ _ Hc). apply prefix_app, prefix_app_r. reflexivity. }
    specialize (IH Hcup).
    remember (base_key w root ++ rev up ++ [x]) as k eqn:Ek.
    assert (Hkne : k <> []) by (subst k; now destruct (base_key w root), (rev up)).
    assert (Hkp : removelast k = base_key w root ++ rev up).
    { subst k. now rewrite app_assoc, removelast_last. }
    assert (Hloc : locate w (mkPath root (rev up ++ [x])) = k).
    { subst k. apply locate_base. }
    cbn [Path_mkdir_rec ensure_dirs rev]. rewrite <- Ek. unfold try_except.
    destruct (fs w !! (base_key w root ++ rev up)) as [[c|]|] eqn:Hp.
    + now destruct (Hcup _ c (reflexivity _)).
    + (* the parent is there *)
      rewrite (ensure_dirs_id (fs w) _ up Hwf Hp) in *.
      destruct (fs w !! k) as [[c|]|] eqn:Hk.
      * now destruct (Hc _ c (reflexivity _)).
      * rewrite (os_mkdir_Raise _ w FileExistsError).
        2:{ rewrite Hloc. now apply (fs_mkdir_exists _ _ Dir). }
        unfold mkdir_except_OSError, bind, is_dir, gets, isdir.
        cbn [is_OSError]. rewrite Hloc, Hk. cbn [negb orb].
        unfold ret. rewrite (insert_id (fs w) k Dir Hk). now rewrite with_fs_id.
      * rewrite (os_mkdir_Ok _ w (<[k := Dir]> (fs w))); [reflexivity|].
        rewrite Hloc. apply fs_mkdir_new; auto. now rewrite Hkp.
    + (* the parent is missing *)
      rewrite (os_mkdir_Raise _ w FileNotFoundError).
      2:{ rewrite Hloc. apply fs_mkdir_missing; auto.
          - now rewrite Hkp.
          - now rewrite Hkp. }
      cbn [negb]. rewrite (bind_Ok _ _ _ _ _ IH).
      unfold Path_mkdir_single, try_except.
      remember (ensure_dirs (fs w) (base_key w root) up) as m1 eqn:Em1.
      assert (Hk1 : m1 !! k = None).
      { subst m1. rewrite ensure_dirs_other.
        - destruct (fs w !! k) as [n|] eqn:Hk; [|reflexivity].
          pose proof (wf_parent _ k n Hwf Hkne Hk) as Hd. rewrite Hkp in Hd.
          congruence.
        - intros p Hpre Heq. subst k. apply app_inv_head in Heq.
          apply prefix_length in Hpre. rewrite <- Heq in Hpre.
          rewrite length_app in Hpre. simpl in Hpre. lia. }
      rewrite (os_mkdir_Ok _ _ (<[k := Dir]> m1)); [reflexivity|].
      change (locate (with_fs w m1) ?p) with (locate w p). rewrite Hloc.
      change (fs (with_fs w m1)) with m1.
      apply fs_mkdir_new; auto.
      * subst m1. now apply wf_ensure_dirs.
      * rewrite Hkp. subst m1. apply ensure_dirs_chain; [exact Hb | reflexivity].
Qed.

Lemma base_key_dir w root : wf_world w -> fs w !! base_key w root = Some Dir.
Proof.
  intros [[Hr _] Hcwd]. unfold base_key, locate. simpl.
  destruct (String.eqb root ""); simpl; [now rewrite app_nil_r | exact Hr].
Qed.

Lemma locate_names w p : locate w p = base_key w (path_root p) ++ path_names p.
Proof. destruct p as [r l]. apply locate_base. Qed.

Lemma Path_mkdir_ensure p w :
  wf_world w -> clear_way (fs w) (locate w p) ->
  Path_mkdir p true true w
  = (Ok tt, with_fs w (ensure_dirs (fs w) (base_key w (path_root p))
                                   (rev (path_names p)))).
Proof.
  intros Hw Hc. unfold Path_mkdir. apply Path_mkdir_rec_ensure.
  - exact (proj1 Hw).
  - now apply base_key_dir.
  - now rewrite rev_involutive, <- locate_names.
Qed.

(** ** Commands that touch only the file system *)

Lemma fs_only_ret {A} (a : A) : fs_only (ret a).
Proof. intros w r w' H. inversion H. now rewrite with_fs_id. Qed.

Lemma fs_only_raise {A} e : fs_only (@raise A e).
Proof. intros w r w' H. inversion H. now rewrite with_fs_id. Qed.

Lemma fs_only_gets {A} (f : World -> A) : fs_only (gets f).
Proof. intros w r w' H. inversion H. now rewrite with_fs_id. Qed.

Lemma fs_only_bind {A B} (c : M A) (k : A -> M B) :
  fs_only c -> (forall a, fs_only (k a)) -> fs_only (bind c k).
Proof.
  intros Hc Hk w r w'. unfold bind.
  destruct (c w) as [[a|e] w1] eqn:Hcw; intros H.
  - apply Hk in H. apply Hc in Hcw. rewrite Hcw in H. exact H.
  - inversion H; subst. now apply Hc in Hcw.
Qed.

Lemma fs_only_try_except {A} (c : M A) (h : exn -> M A) :
  fs_only c -> (forall e, fs_only (h e)) -> fs_only (try_except c h).
Proof.
  intros Hc Hh w r w'. unfold try_except.
  destruct (c w) as [[a|e] w1] eqn:Hcw; intros H.
  - inversion H; subst. now apply Hc in Hcw.
  - apply Hh in H. apply Hc in Hcw. rewrite Hcw in H. exact H.
Qed.

Lemma fs_only_fs_op f : fs_only (fs_op f).
Proof.
  intros w r w'. unfold fs_op. destruct (f w); intros H; inversion H.
  - reflexivity.
  - now rewrite with_fs_id.
Qed.

Lemma fs_only_read_text p : fs_only (read_text p).
Proof. intros w r w' H. inversion H. now rewrite with_fs_id. Qed.

Lemma fs_only_mkdir_except self exist_ok e :
  fs_only (mkdir_except_OSError self exist_ok e).
Proof.
  unfold mkdir_except_OSError. destruct (is_OSError e); [|apply fs_only_raise].
  apply fs_only_bind; [apply fs_only_gets|]. intros d.
  destruct (negb exist_ok || negb d); [apply fs_only_raise | apply fs_only_ret].
Qed.

Lemma fs_only_Path_mkdir_single self exist_ok :
  fs_only (Path_mkdir_single self exist_ok).
Proof.
  apply fs_only_try_except; [apply fs_only_fs_op|]. intros e.
  destruct e; try apply fs_only_mkdir_except. apply fs_only_raise.
Qed.

Lemma fs_only_Path_mkdir_rec root rn parents exist_ok :
  fs_only (Path_mkdir_rec root rn parents exist_ok).
Proof.
  revert parents exist_ok. induction rn as [|x up IH]; intros parents exist_ok;
    cbn [Path_mkdir_rec]; (apply fs_only_try_except; [apply fs_only_fs_op|]);
    intros e; destruct e; try apply fs_only_mkdir_except;
    try apply fs_only_raise.
  destruct (negb parents); [apply fs_only_raise|].
  apply fs_only_bind; [apply IH|]. intros _. apply fs_only_Path_mkdir_single.
Qed.

Lemma fs_only_shutil_move src dst : fs_only (shutil_move src dst).
Proof.
  unfold shutil_move. apply fs_only_bind; [apply fs_only_gets|]. intros d.
  apply fs_only_bind.
  - destruct d; [|apply fs_only_ret].
    apply fs_only_bind; [apply fs_only_gets|]. intros e.
    destruct e; [apply fs_only_raise | apply fs_only_ret].
  - intros real_dst. apply fs_only_bind; [|intros; apply fs_only_ret].
    apply fs_only_try_except; [apply fs_only_fs_op|]. intros e.
    destruct (is_OSError e); [|apply fs_only_raise].
    apply fs_only_bind; [|intros; apply fs_only_fs_op].
    apply fs_only_bind; [apply fs_only_read_text | intros; apply fs_only_fs_op].
Qed.

Lemma resolve_destination_eq view file_path w :
  resolve_destination view file_path w = (Ok (destination view file_path w), w).
Proof.
  unfold resolve_destination, destination, bind, is_file, gets, ret.
  now destruct (isfile w (Path_of file_path)).
Qed.

Lemma fs_only_place view file_path temp : fs_only (place view file_path temp).
Proof.
  unfold place. apply fs_only_bind.
  - intros w r w' H. rewrite resolve_destination_eq in H. inversion H.
    now rewrite with_fs_id.
  - intros [base_dir svg]. apply fs_only_bind; [apply fs_only_Path_mkdir_rec|].
    intros _. apply fs_only_bind; [apply fs_only_shutil_move|].
    intros _. apply fs_only_ret.
Qed.

(** A placement that returns, returns the path that was resolved. *)
Lemma place_Ok_inv view file_path temp w p w' :
  place view file_path temp w = (Ok p, w') ->
  p = (destination view file_path w).2 /\ w' = with_fs w (fs w').
Proof.
  intros H. split; [|now apply (fs_only_place _ _ _ _ _ _ H)].
  unfold place in H. rewrite (bind_Ok _ _ _ _ _ (resolve_destination_eq _ _ _)) in H.
  destruct (destination view file_path w) as [base_dir svg]. simpl.
  apply bind_Ok_inv in H as (_ & w1 & _ & H).
  apply bind_Ok_inv in H as (_ & w2 & _ & H).
  now inversion H.
Qed.

(** ** The path of the artifact *)

Lemma lstrip_slash_join s t :
  contains_char slash t = false ->
  lstrip_slash (s +:+ String slash t)
  = let '(n, rel) := lstrip_slash s in
    if String.eqb rel "" then (S n, t) else (n, rel +:+ String slash t).
Proof.
  intros Ht. induction s as [|c s IH].
  - simpl. now rewrite (lstrip_slash_plain t Ht).
  - change (String c s +:+ String slash t) with (String c (s +:+ String slash t)).
    cbn [lstrip_slash]. destruct (Ascii.eqb c slash) eqn:Hc.
    + rewrite IH. destruct (lstrip_slash s) as [n rel].
      now destruct (String.eqb rel "").
    + reflexivity.
Qed.

Lemma lstrip_slash_all s :
  s <> "" -> (lstrip_slash s).2 = "" -> (lstrip_slash s).1 <> 0.
Proof.
  destruct s as [|c s]; [congruence|]. intros _. simpl.
  destruct (Ascii.eqb c slash).
  - destruct (lstrip_slash s). simpl. lia.
  - simpl. discriminate.
Qed.

(** [f"{s}/{n}"] lies in the directory [s], under the name [n]. *)
Lemma locate_join w s n :
  s <> "" -> plain_name n ->
  locate w (Path_of (s +:+ String slash n)) = locate w (Path_of s) ++ [n].
Proof.
  intros Hs [Hn Hc]. unfold Path_of, splitroot.
  rewrite (lstrip_slash_join s n Hn).
  pose proof (lstrip_slash_all s Hs) as Hall.
  destruct (lstrip_slash s) as [cnt rel]. simpl in Hall.
  destruct (String.eqb_spec rel "") as [-> | Hrel].
  - specialize (Hall eq_refl).
    destruct cnt as [|[|[|cnt]]]; try congruence;
      unfold locate; simpl; rewrite (split_on_plain _ n Hn); simpl;
      now rewrite Hc.
  - destruct cnt as [|[|[|cnt]]]; unfold locate; simpl;
      rewrite split_on_app, (split_on_plain _ n Hn), List.filter_app;
      simpl; rewrite Hc; now rewrite ?app_assoc.
Qed.

Lemma diagram_svg_plain : plain_name "diagram.svg".
Proof. split; reflexivity. Qed.

Lemma artifact_key w tmp :
  tmp <> "" ->
  locate w (Path_of (artifact_path tmp)) = locate w (Path_of tmp) ++ ["diagram.svg"].
Proof. intros H. apply (locate_join w tmp "diagram.svg" H diagram_svg_plain). Qed.

(** ** The renderer client *)

Lemma fs_write_Ok m k text :
  wf m -> k <> [] -> m !! removelast k = Some Dir -> m !! k <> Some Dir ->
  fs_write m k text = Ok (<[k := File text]> m).
Proof.
  intros Hwf Hne Hp Hk. unfold fs_write. destruct k; [congruence|].
  rewrite (check_parent_wf _ _ Hwf Hp).
  destruct (m !! (s :: k)) as [[c|]|]; congruence.
Qed.

Lemma fs_write_Ok_inv m k text m' :
  fs_write m k text = Ok m' -> m' = <[k := File text]> m.
Proof.
  unfold fs_write. destruct k; [discriminate|].
  destruct (check_parent m (s :: k)); [discriminate|].
  destruct (m !! (s :: k)) as [[c|]|]; congruence.
Qed.

Lemma fs_mkdir_Ok_inv m k m' :
  fs_mkdir m k = Ok m' -> m' = <[k := Dir]> m /\ m !! k = None.
Proof.
  unfold fs_mkdir. destruct k; [discriminate|].
  destruct (check_parent m (s :: k)); [discriminate|].
  destruct (m !! (s :: k)) eqn:Hk; [discriminate|]. intros H. now inversion H.
Qed.

Section Render.

Context (E : Env).

Lemma echo_eq line w : echo line w = (Ok tt, echoed w [line]).
Proof. reflexivity. Qed.

Lemma echoed_echoed w a b : echoed (echoed w a) b = echoed w (a ++ b).
Proof.
  destruct w. unfold echoed, set_stdout. simpl. now rewrite <- app_assoc.
Qed.

Lemma generate_svg_transport code tmp w e :
  client_post E kroki_url code w = Raise e ->
  generate_svg E code tmp w = (Raise e, w).
Proof. intros H. unfold generate_svg, bind. unfold kroki_url in H. now rewrite H. Qed.

Lemma generate_svg_not_200 code tmp w resp :
  client_post E kroki_url code w = Ok resp -> status_code resp <> 200%Z ->
  generate_svg E code tmp w =
    if String.eqb (content resp) "" then
      (Raise (ClickException "Failed to create diagram"),
       echoed w [Response_repr resp])
    else match bytes_decode E (content resp) with
         | Some body => (Raise (ClickException "Failed to create diagram"),
                         echoed w [Response_repr resp; body])
         | None => (Raise UnicodeDecodeError, echoed w [Response_repr resp])
         end.
Proof.
  intros Hpost Hst. unfold generate_svg, bind. unfold kroki_url in Hpost.
  rewrite Hpost. destruct (Z.eqb_spec (status_code resp) 200); [contradiction|].
  cbn [negb]. rewrite echo_eq.
  destruct (String.eqb (content resp) ""); cbn [negb]; [reflexivity|].
  unfold decode, lift.
  destruct (bytes_decode E (content resp)); [|reflexivity].
  rewrite echo_eq, echoed_echoed. reflexivity.
Qed.

Lemma generate_svg_200 code tmp w resp :
  client_post E kroki_url code w = Ok resp -> status_code resp = 200%Z ->
  generate_svg E code tmp w =
    match fs_write (fs w) (locate w (Path_of (artifact_path tmp))) (text resp) with
    | Ok m' => (Ok (artifact_path tmp), with_fs w m')
    | Raise e => (Raise e, w)
    end.
Proof.
  intros Hpost Hst. unfold generate_svg, bind. unfold kroki_url in Hpost.
  rewrite Hpost, Hst. cbn [Z.eqb Pos.eqb negb].
  unfold write_text, fs_op, artifact_path.
  destruct (fs_write _ _ _); reflexivity.
Qed.

End Render.



(** ** The temporary directory *)

Lemma fs_rmtree_below m t k : t `prefix_of` k -> fs_rmtree m t !! k = None.
Proof.
  intros Hp. unfold fs_rmtree. apply map_lookup_filter_None. right.
  intros x _ Hn. now apply Hn.
Qed.

Lemma fs_rmtree_other m t k : ~ t `prefix_of` k -> fs_rmtree m t !! k = m !! k.
Proof.
  intros Hp. unfold fs_rmtree. destruct (m !! k) as [x|] eqn:Hk.
  - now apply map_lookup_filter_Some_2.
  - apply map_lookup_filter_None. now left.
Qed.

Section Temporary.

Context (E : Env).

(** The body of the [with] block runs in a world in which the directory
    exists. *)
Lemma TemporaryDirectory_creates {A} (body : string -> M A) w :
  wf (fs w) ->
  fs w !! locate w (Path_of (mkdtemp E w)) = None ->
  fs w !! removelast (locate w (Path_of (mkdtemp E w))) = Some Dir ->
  TemporaryDirectory E body w =
    let inner := body (mkdtemp E w)
                   (with_fs w (<[locate w (Path_of (mkdtemp E w)) := Dir]> (fs w))) in
    (inner.1, with_fs inner.2
                (fs_rmtree (fs inner.2) (locate inner.2 (Path_of (mkdtemp E w))))).
Proof.
  intros Hwf Hfresh Hparent. unfold TemporaryDirectory.
  rewrite (os_mkdir_Ok _ w (<[locate w (Path_of (mkdtemp E w)) := Dir]> (fs w))).
  - now destruct (body _ _).
  - apply fs_mkdir_new; auto. intros Hnil. rewrite Hnil in Hfresh.
    destruct Hwf as [Hr _]. congruence.
Qed.

(** Whether the body returns or raises, nothing is left at the place of
    the directory or below it. *)
Lemma TemporaryDirectory_removes {A} (body : string -> M A) w r w' :
  wf (fs w) ->
  fs w !! locate w (Path_of (mkdtemp E w)) = None ->
  TemporaryDirectory E body w = (r, w') ->
  forall k, locate w' (Path_of (mkdtemp E w)) `prefix_of` k -> fs w' !! k = None.
Proof.
  intros Hwf Hfresh. unfold TemporaryDirectory, os_mkdir, fs_op.
  destruct (fs_mkdir (fs w) (locate w (Path_of (mkdtemp E w)))) as [m1|e].
  - destruct (body _ _) as [r2 w2]. intros H. inversion H; subst.
    intros k Hk. now apply fs_rmtree_below.
  - intros H. inversion H; subst. intros k Hk.
    now apply (wf_below_absent _ (locate w' (Path_of (mkdtemp E w')))).
Qed.

Lemma generate_svg_Ok_inv code tmp w a w' :
  generate_svg E code tmp w = (Ok a, w') ->
  exists resp m',
    client_post E kroki_url code w = Ok resp /\ status_code resp = 200%Z /\
    fs_write (fs w) (locate w (Path_of (artifact_path tmp))) (text resp) = Ok m' /\
    a = artifact_path tmp /\ w' = with_fs w m'.
Proof.
  intros H. destruct (client_post E kroki_url code w) as [resp|e] eqn:Hpost.
  2:{ rewrite (generate_svg_transport E _ _ _ _ Hpost) in H. discriminate. }
  destruct (Z.eq_dec (status_code resp) 200%Z) as [Hst|Hst].
  - rewrite (generate_svg_200 E _ _ _ _ Hpost Hst) in H.
    destruct (fs_write _ _ _) as [m'|e] eqn:Hw; [|discriminate].
    inversion H; subst. now exists resp, m'.
  - rewrite (generate_svg_not_200 E _ _ _ _ Hpost Hst) in H.
    destruct (String.eqb (content resp) ""); [discriminate|].
    destruct (bytes_decode E (content resp)); discriminate.
Qed.

(** What a build that returns has done. *)
Lemma build_Ok_inv view file_path w w' :
  build E view file_path w = (Ok tt, w') ->
  let tmp := mkdtemp E w in
  let t := locate w (Path_of tmp) in
  let ka := locate w (Path_of (artifact_path tmp)) in
  exists m1 m2 m3 code modules resp p,
    fs_mkdir (fs w) t = Ok m1 /\
    generate_diagram_code_in_child_process E view (with_fs w m1)
      = (Ok (code, modules), with_fs w m1) /\
    client_post E kroki_url code (with_fs w m1) = Ok resp /\
    status_code resp = 200%Z /\
    fs_write m1 ka (text resp) = Ok m2 /\
    place view file_path (artifact_path tmp) (with_fs w m2) = (Ok p, with_fs w m3) /\
    fs w' = fs_rmtree m3 t /\ cwd w' = cwd w /\
    stdout w' = stdout w ++ [str p] /\
    spawned w' = spawned w /\ uploaded w' = uploaded w /\
    ctx_obj w' = Some (<["svg_file_path" := p]> (default ∅ (ctx_obj w))).
Proof.
  intros H tmp t ka. unfold build, TemporaryDirectory, os_mkdir, fs_op in H.
  fold tmp in H. fold t in H.
  destruct (fs_mkdir (fs w) t) as [m1|e] eqn:Hmk; [|discriminate].
  destruct (build_async_behavior E view file_path tmp (with_fs w m1))
    as [r w2] eqn:Hbody.
  inversion H; subst r w'. clear H.
  unfold build_async_behavior in Hbody.
  apply bind_Ok_inv in Hbody as ([code modules] & wg & Hgen & Hbody).
  pose proof (generate_world E _ _ _ _ Hgen) as ->.
  apply bind_Ok_inv in Hbody as (a & ws & Hsvg & Hbody).
  apply generate_svg_Ok_inv in Hsvg as (resp & m2 & Hpost & Hst & Hw & -> & ->).
  apply bind_Ok_inv in Hbody as (p & wp & Hplace & Hbody).
  pose proof (place_Ok_inv _ _ _ _ _ _ Hplace) as [_ Hwp].
  exists m1, m2, (fs wp), code, modules, resp, p.
  change (with_fs (with_fs w m1) m2) with (with_fs w m2) in *.
  rewrite Hwp in Hplace. change (with_fs (with_fs w m2) (fs wp))
    with (with_fs w (fs wp)) in Hplace.
  repeat split; try assumption.
  all: unfold ensure_object_dict, ctx_obj_setitem, echo, modify, bind in Hbody;
    rewrite Hwp in Hbody; destruct w as [m c o sp up ob];
    destruct ob; simpl in Hbody; inversion Hbody; reflexivity.
Qed.

End Temporary.

(** ** The one-shot build *)

Lemma string_app_assoc s t u : (s +:+ t) +:+ u = s +:+ (t +:+ u).
Proof.
  induction s as [|c s IH]; [reflexivity|].
  change (String c ((s +:+ t) +:+ u) = String c (s +:+ (t +:+ u))).
  now rewrite IH.
Qed.

Lemma join_snoc l n : l <> [] -> join "/" (l ++ [n]) = join "/" l +:+ "/" +:+ n.
Proof.
  induction l as [|x l IH]; [congruence|]. intros _.
  destruct l as [|y l]; [reflexivity|].
  change (join "/" ((x :: y :: l) ++ [n]))
    with (x +:+ "/" +:+ join "/" ((y :: l) ++ [n])).
  rewrite IH by discriminate.
  change (join "/" (x :: y :: l)) with (x +:+ "/" +:+ join "/" (y :: l)).
  now rewrite !string_app_assoc.
Qed.

Lemma str_names r l : l <> [] -> str (mkPath r l) = r +:+ join "/" l.
Proof. intros Hl. unfold str. cbn [path_root path_names]. now destruct r, l. Qed.

(** [str(p / n)] is [str(p)], a slash and [n], unless [p] has no name. *)
Lemma str_snoc r l n :
  l <> [] -> str (mkPath r (l ++ [n])) = str (mkPath r l) +:+ "/" +:+ n.
Proof.
  intros Hl. rewrite !str_names; [|exact Hl | now destruct l].
  now rewrite (join_snoc l n Hl), string_app_assoc.
Qed.

(** C1.  For a view identifier (a dotted module path: no path separator)
    and a destination that is not a regular file, a build that completes
    has resolved the output path to the destination directory extended by
    the file name [<view with dots as underscores>.svg], has stored that
    path in the context and has printed exactly that path.  (The
    destination is not the artifact inside the fresh temporary
    directory.) *)
Theorem build_prints_resolved_path
    (E : Env) (view file_path : string) (w w' : World) :
  contains_char slash view = false ->
  isfile w (Path_of file_path) = false ->
  locate w (Path_of file_path)
    <> locate w (Path_of (artifact_path (mkdtemp E w))) ->
  build E view file_path w = (Ok tt, w') ->
  let file_name := replace_char "." "_" view +:+ ".svg" in
  let p := mkPath (path_root (Path_of file_path))
                  (path_names (Path_of file_path) ++ [file_name]) in
  parent p = Path_of file_path
  /\ name p = file_name
  /\ (path_names (Path_of file_path) <> [] ->
      str p = str (Path_of file_path) +:+ "/" +:+ file_name)
  /\ stdout w' = stdout w ++ [str p]
  /\ ctx_obj w' ≫= (.!! "svg_file_path") = Some p.
Proof.
  intros Hview Hnf Hne Hbuild file_name p.
  pose proof (diagram_file_name_plain view Hview) as Hplain.
  fold file_name in Hplain.
  assert (Hp : p = truediv (Path_of file_path) file_name)
    by (now rewrite truediv_plain).
  apply build_Ok_inv in Hbuild
    as (m1 & m2 & m3 & code & mods & resp & q & Hmk & _ & _ & _ & Hw & Hplace
        & _ & _ & Hout & _ & _ & Hctx).
  apply place_Ok_inv in Hplace as [Hq _].
  assert (Hq' : q = p).
  { rewrite Hq, Hp. unfold destination.
    replace (isfile (with_fs w m2) (Path_of file_path)) with false; [reflexivity|].
    apply fs_write_Ok_inv in Hw. apply fs_mkdir_Ok_inv in Hmk as [Hm1 _].
    unfold isfile in *. change (locate (with_fs w m2) ?x) with (locate w x).
    change (fs (with_fs w m2)) with m2. subst m2 m1.
    rewrite lookup_insert_ne by congruence.
    rewrite lookup_insert. case_decide; [reflexivity | now rewrite Hnf]. }
  clear Hq. subst q. repeat split.
  - rewrite Hp. now apply parent_truediv_plain.
  - rewrite Hp. now apply name_truediv_plain.
  - intros Hnames. unfold p. rewrite (str_snoc _ _ _ Hnames). now destruct (Path_of file_path).
  - exact Hout.
  - rewrite Hctx. simpl. now rewrite lookup_insert_eq.
Qed.

(** [build examples.single_file_example out/] with a successful render
    prints [out/examples_single_file_example.svg] and leaves the rendered
    text in that file. *)
Lemma build_prints_resolved_path_witness :
  let w := Sample.world Sample.disk in
  let w' := (build Sample.good_env Sample.view "out/" w).2 in
  build Sample.good_env Sample.view "out/" w = (Ok tt, w')
  /\ stdout w' = ["out/examples_single_file_example.svg"]
  /\ fs w' !! ["home"; "user"; "out"; "examples_single_file_example.svg"]
     = Some (File Sample.svg)
  /\ fs w' !! ["tmp"; "tmpdiagram"] = None.
Proof.
  intros w w'.
  assert (Hrun : build Sample.good_env Sample.view "out/" w = (Ok tt, w'))
    by (vm_compute; reflexivity).
  split; [exact Hrun|].
  pose proof (build_prints_resolved_path Sample.good_env Sample.view "out/" w w')
    as H.
  destruct H as (_ & _ & _ & Hout & _).
  - reflexivity.
  - vm_compute. reflexivity.
  - vm_compute. discriminate.
  - exact Hrun.
  - split; [rewrite Hout; reflexivity|].
    split; vm_compute; reflexivity.
Defined.

(** ** The output placer *)

Lemma clear_way_dir m k : wf m -> m !! k = Some Dir -> clear_way m k.
Proof.
  intros Hwf Hk p c Hp Hf.
  destruct (decide (p = k)) as [-> | Hne]; [congruence|].
  rewrite (wf_prefix m k Dir p Hwf Hk Hp Hne) in Hf. discriminate.
Qed.

Lemma locate_truediv_plain w p n :
  plain_name n -> locate w (truediv p n) = locate w p ++ [n].
Proof.
  intros Hn. rewrite (truediv_plain p n Hn), locate_base, (locate_names w p).
  now rewrite app_assoc.
Qed.

Lemma fs_rename_Ok m ks kd c :
  wf m -> m !! ks = Some (File c) -> kd <> [] ->
  m !! removelast kd = Some Dir -> m !! kd <> Some Dir ->
  fs_rename m ks kd = Ok (<[kd := File c]> (delete ks m)).
Proof.
  intros Hwf Hs Hne Hp Hd. unfold fs_rename.
  assert (Hks : ks <> []) by (intros ->; destruct Hwf; congruence).
  rewrite (check_parent_wf m ks Hwf (wf_parent m ks _ Hwf Hks Hs)), Hs.
  destruct kd as [|x kd]; [congruence|].
  rewrite (check_parent_wf _ _ Hwf Hp).
  destruct (m !! (x :: kd)) as [[c'|]|]; congruence.
Qed.

(** Onto a path that is not a directory, [shutil.move] renames: the text
    is at the destination and no longer at the source. *)
Lemma shutil_move_to_file src dst w c :
  wf (fs w) ->
  fs w !! locate w (Path_of src) = Some (File c) ->
  locate w dst <> [] ->
  fs w !! removelast (locate w dst) = Some Dir ->
  fs w !! locate w dst <> Some Dir ->
  shutil_move src dst w
  = (Ok dst, with_fs w (<[locate w dst := File c]>
                          (delete (locate w (Path_of src)) (fs w)))).
Proof.
  intros Hwf Hs Hne Hp Hd. unfold shutil_move, bind, is_dir, gets.
  replace (isdir w dst) with false
    by (unfold isdir; destruct (fs w !! locate w dst) as [[c'|]|]; congruence).
  unfold ret at 1. unfold try_except, os_rename, fs_op.
  now rewrite (fs_rename_Ok _ _ _ c Hwf Hs Hne Hp Hd).
Qed.

(** Placement into a destination that is not a regular file. *)
Lemma place_into_directory view file_path temp w c :
  wf_world w ->
  contains_char slash view = false ->
  isfile w (Path_of file_path) = false ->
  clear_way (fs w) (locate w (Path_of file_path)) ->
  fs w !! locate w (Path_of temp) = Some (File c) ->
  fs w !! (locate w (Path_of file_path) ++ [replace_char "." "_" view +:+ ".svg"])
    <> Some Dir ->
  place view file_path temp w
  = (Ok (truediv (Path_of file_path) (replace_char "." "_" view +:+ ".svg")),
     with_fs w
       (<[locate w (Path_of file_path) ++ [replace_char "." "_" view +:+ ".svg"]
          := File c]>
          (delete (locate w (Path_of temp))
             (ensure_dirs (fs w) (base_key w (path_root (Path_of file_path)))
                          (rev (path_names (Path_of file_path))))))).
Proof.
  intros Hw Hview Hnf Hclear Hart Htarget.
  pose proof (diagram_file_name_plain view Hview) as Hplain.
  remember (replace_char "." "_" view +:+ ".svg") as fn eqn:Efn.
  remember (Path_of file_path) as P eqn:EP.
  remember (ensure_dirs (fs w) (base_key w (path_root P)) (rev (path_names P)))
    as m1 eqn:Em1.
  unfold place. rewrite (bind_Ok _ _ _ _ _ (resolve_destination_eq _ _ _)).
  unfold destination. rewrite <- EP, Hnf, <- Efn.
  rewrite (bind_Ok _ _ _ _ _ (Path_mkdir_ensure P w Hw Hclear)), <- Em1.
  assert (Hb : fs w !! base_key w (path_root P) = Some Dir) by now apply base_key_dir.
  assert (Hwf1 : wf m1) by (subst m1; apply wf_ensure_dirs; [apply Hw | exact Hb]).
  assert (Hdir1 : m1 !! locate w P = Some Dir).
  { subst m1. rewrite (locate_names w P).
    apply ensure_dirs_chain; [exact Hb | now rewrite rev_involutive]. }
  assert (Hmove : shutil_move temp (truediv P fn) (with_fs w m1)
      = (Ok (truediv P fn),
         with_fs w (<[locate w P ++ [fn] := File c]>
                      (delete (locate w (Path_of temp)) m1)))).
  { rewrite (shutil_move_to_file temp (truediv P fn) (with_fs w m1) c);
      change (locate (with_fs w m1) ?x) with (locate w x);
      change (fs (with_fs w m1)) with m1;
      rewrite ?(locate_truediv_plain w P fn Hplain).
    - reflexivity.
    - exact Hwf1.
    - subst m1. apply ensure_dirs_preserved; [|exact Hart].
      now rewrite rev_involutive, <- locate_names.
    - now destruct (locate w P).
    - rewrite removelast_last. exact Hdir1.
    - subst m1. rewrite ensure_dirs_other; [exact Htarget|].
      intros p Hp Heq. rewrite (locate_names w P), <- app_assoc in Heq.
      apply app_inv_head in Heq. apply prefix_length in Hp.
      rewrite rev_involutive, <- Heq, length_app in Hp. simpl in Hp. lia. }
  now rewrite (bind_Ok _ _ _ _ _ Hmove).
Qed.

(** Placement onto a destination that is a regular file. *)
Lemma place_onto_file view file_path temp w c c0 :
  wf_world w ->
  fs w !! locate w (Path_of file_path) = Some (File c0) ->
  fs w !! locate w (Path_of temp) = Some (File c) ->
  place view file_path temp w
  = (Ok (Path_of file_path),
     with_fs w (<[locate w (Path_of file_path) := File c]>
                  (delete (locate w (Path_of temp)) (fs w)))).
Proof.
  intros Hw Hfile Hart. remember (Path_of file_path) as P eqn:EP.
  assert (Hb : fs w !! base_key w (path_root P) = Some Dir) by now apply base_key_dir.
  assert (Hnames : path_names P <> []).
  { intros Hn. rewrite (locate_names w P), Hn, app_nil_r in Hfile. congruence. }
  assert (Hkne : locate w P <> []).
  { intros Hn. rewrite Hn in Hfile. destruct Hw as [[Hr _] _]. congruence. }
  assert (Hpar : locate w (parent P) = removelast (locate w P)).
  { unfold parent. destruct (path_names P) eqn:En; [congruence|].
    rewrite locate_base, (locate_names w P), En. now rewrite removelast_app. }
  assert (Hpd : fs w !! locate w (parent P) = Some Dir).
  { rewrite Hpar. apply (wf_parent _ _ (File c0)); [apply Hw | exact Hkne | exact Hfile]. }
  unfold place. rewrite (bind_Ok _ _ _ _ _ (resolve_destination_eq _ _ _)).
  unfold destination, isfile. rewrite <- EP, Hfile.
  rewrite (bind_Ok _ _ _ _ _ (Path_mkdir_ensure (parent P) w Hw
             (clear_way_dir _ _ (proj1 Hw) Hpd))).
  rewrite ensure_dirs_id;
    [| apply Hw | now rewrite rev_involutive, <- locate_names].
  rewrite with_fs_id.
  assert (Hmove : shutil_move temp P w
      = (Ok P, with_fs w (<[locate w P := File c]>
                            (delete (locate w (Path_of temp)) (fs w))))).
  { apply shutil_move_to_file; auto.
    - apply Hw.
    - now rewrite <- Hpar.
    - congruence. }
  now rewrite (bind_Ok _ _ _ _ _ Hmove).
Qed.

Lemma ensure_dirs_all m base rn p :
  wf m -> m !! base = Some Dir -> clear_way m (base ++ rev rn) ->
  p `prefix_of` base ++ rev rn -> ensure_dirs m base rn !! p = Some Dir.
Proof.
  intros Hwf Hb Hc Hp. apply prefix_app_cases in Hp as [Hp | (q & -> & Hq)].
  - apply ensure_dirs_preserved; [exact Hc|].
    destruct (decide (p = base)) as [-> | Hne]; [exact Hb|].
    now apply (wf_prefix m base Dir).
  - now apply ensure_dirs_chain.
Qed.

(** [mkdir(parents=True, exist_ok=True)] on a way without regular files:
    it returns, the whole chain exists afterwards, nothing changes when
    the directory was there, and a second call returns without change. *)
Lemma Path_mkdir_exist_ok B w :
  wf_world w -> clear_way (fs w) (locate w B) ->
  let made := Path_mkdir B true true w in
  made.1 = Ok tt
  /\ (forall p, p `prefix_of` locate w B -> fs made.2 !! p = Some Dir)
  /\ (fs w !! locate w B = Some Dir -> made.2 = w)
  /\ Path_mkdir B true true made.2 = (Ok tt, made.2).
Proof.
  intros Hw Hclear made.
  assert (Hb : fs w !! base_key w (path_root B) = Some Dir) by now apply base_key_dir.
  remember (ensure_dirs (fs w) (base_key w (path_root B)) (rev (path_names B)))
    as m1 eqn:Em1.
  assert (Hmade : made = (Ok tt, with_fs w m1)).
  { unfold made. subst m1. now apply Path_mkdir_ensure. }
  assert (Hclear' : clear_way (fs w)
            (base_key w (path_root B) ++ rev (rev (path_names B))))
    by now rewrite rev_involutive, <- locate_names.
  assert (Hchain : forall p, p `prefix_of` locate w B -> m1 !! p = Some Dir).
  { intros p Hp. subst m1. apply ensure_dirs_all; auto; [apply Hw|].
    now rewrite rev_involutive, <- locate_names. }
  assert (Hwf1 : wf m1) by (subst m1; apply wf_ensure_dirs; [apply Hw | exact Hb]).
  rewrite Hmade. cbn [fst snd]. change (fs (with_fs w ?m)) with m.
  repeat split.
  - exact Hchain.
  - intros Hd. subst m1. rewrite ensure_dirs_id; [apply with_fs_id | apply Hw |].
    now rewrite rev_involutive, <- locate_names.
  - rewrite (Path_mkdir_ensure B (with_fs w m1)).
    + change (fs (with_fs w m1)) with m1.
      change (base_key (with_fs w m1) ?r) with (base_key w r).
      rewrite ensure_dirs_id; [reflexivity | exact Hwf1 |].
      rewrite rev_involutive, <- locate_names. apply Hchain. reflexivity.
    + split; [exact Hwf1|]. change (fs (with_fs w m1)) with m1.
      change (cwd (with_fs w m1)) with (cwd w). subst m1.
      apply ensure_dirs_preserved; [exact Hclear' | apply Hw].
    + change (fs (with_fs w m1)) with m1.
      change (locate (with_fs w m1) B) with (locate w B).
      apply clear_way_dir; [exact Hwf1 | apply Hchain; reflexivity].
Qed.

(** C6.  Let [base] be the directory that the placement resolves for the
    destination (the destination itself, or its parent when the
    destination is a regular file), with no regular file standing on the
    way to it.  The directory step succeeds whether the directory exists
    or not: it makes every missing directory of the chain, changes nothing
    when the directory is already there, and succeeds again without change
    when repeated.  The placement as a whole then returns the resolved
    path, the chain exists and the artifact lies at the resolved path
    inside that directory. *)
Theorem place_creates_directory_chain
    (view file_path temp : string) (w : World) (c : string) :
  wf_world w ->
  contains_char slash view = false ->
  let P := Path_of file_path in
  let file_name := replace_char "." "_" view +:+ ".svg" in
  let base := (destination view file_path w).1 in
  let resolved := (destination view file_path w).2 in
  clear_way (fs w) (locate w base) ->
  fs w !! locate w (Path_of temp) = Some (File c) ->
  (isfile w P = false -> fs w !! (locate w P ++ [file_name]) <> Some Dir) ->
  let made := Path_mkdir base true true w in
  let placed := place view file_path temp w in
  made.1 = Ok tt
  /\ (forall p, p `prefix_of` locate w base -> fs made.2 !! p = Some Dir)
  /\ (fs w !! locate w base = Some Dir -> made.2 = w)
  /\ Path_mkdir base true true made.2 = (Ok tt, made.2)
  /\ placed.1 = Ok resolved
  /\ (forall p, p `prefix_of` locate w base -> fs placed.2 !! p = Some Dir)
  /\ fs placed.2 !! locate w resolved = Some (File c)
  /\ parent resolved = base.
Proof.
  intros Hw Hview. cbv zeta. unfold destination.
  pose proof (diagram_file_name_plain view Hview) as Hplain.
  remember (Path_of file_path) as P eqn:EP.
  remember (replace_char "." "_" view +:+ ".svg") as file_name eqn:Efn.
  destruct (isfile w P) eqn:Hfile; cbn [fst snd]; intros Hclear Hart Htarget.
  - (* the destination is a regular file *)
    pose proof (Path_mkdir_exist_ok (parent P) w Hw Hclear) as (Hm1 & Hm2 & Hm3 & Hm4).
    do 4 (split; [assumption|]).
    assert (Hf : exists c0, fs w !! locate w P = Some (File c0)).
    { unfold isfile in Hfile.
      destruct (fs w !! locate w P) as [[c0|]|]; try discriminate. now exists c0. }
    destruct Hf as [c0 Hf].
    assert (Hplaced : place view file_path temp w
      = (Ok P, with_fs w (<[locate w P := File c]>
                            (delete (locate w (Path_of temp)) (fs w))))).
    { subst P. now apply (place_onto_file view file_path temp w c c0). }
    rewrite Hplaced. cbn [fst snd]. change (fs (with_fs w ?m)) with m.
    assert (Hnames : path_names P <> []).
    { intros Hn. rewrite (locate_names w P), Hn, app_nil_r in Hf.
      rewrite (base_key_dir w _ Hw) in Hf. discriminate. }
    assert (Hpar : locate w (parent P) = removelast (locate w P)).
    { unfold parent. destruct (path_names P) eqn:En; [congruence|].
      rewrite locate_base, (locate_names w P), En. now rewrite removelast_app. }
    assert (Hkne : locate w P <> [])
      by (intros Hn; rewrite Hn in Hf; destruct Hw as [[Hr _] _]; congruence).
    assert (Hpd : fs w !! locate w (parent P) = Some Dir).
    { rewrite Hpar.
      apply (wf_parent _ _ (File c0)); [apply Hw | exact Hkne | exact Hf]. }
    repeat split.
    + intros p Hp.
      assert (Hd : fs w !! p = Some Dir).
      { destruct (decide (p = locate w (parent P))) as [-> | Hne]; [exact Hpd|].
        apply (wf_prefix _ (locate w (parent P)) Dir); auto. apply Hw. }
      rewrite lookup_insert_ne, lookup_delete_ne; [exact Hd | |];
        intros <-; congruence.
    + apply lookup_insert_eq.
  - (* the destination is taken as a directory *)
    pose proof (Path_mkdir_exist_ok P w Hw Hclear) as (Hm1 & Hm2 & Hm3 & Hm4).
    do 4 (split; [assumption|]).
    specialize (Htarget eq_refl).
    assert (Hplaced : place view file_path temp w
      = (Ok (truediv P file_name),
         with_fs w
           (<[locate w P ++ [file_name] := File c]>
              (delete (locate w (Path_of temp))
                 (ensure_dirs (fs w) (base_key w (path_root P))
                              (rev (path_names P))))))).
    { subst P file_name. now apply place_into_directory. }
    rewrite Hplaced. cbn [fst snd]. change (fs (with_fs w ?m)) with m.
    rewrite (locate_truediv_plain w P file_name Hplain).
    rewrite (Path_mkdir_ensure P w Hw Hclear) in Hm2. cbn [snd] in Hm2.
    change (fs (with_fs w ?m)) with m in Hm2.
    repeat split.
    + intros p Hp. rewrite lookup_insert_ne, lookup_delete_ne.
      * now apply Hm2.
      * intros <-.
        assert (Hf : ensure_dirs (fs w) (base_key w (path_root P))
                       (rev (path_names P)) !! locate w (Path_of temp)
                     = Some (File c)).
        { apply ensure_dirs_preserved; [|exact Hart].
          now rewrite rev_involutive, <- locate_names. }
        rewrite (Hm2 _ Hp) in Hf. discriminate.
      * intros <-. apply prefix_length in Hp. rewrite length_app in Hp.
        simpl in Hp. lia.
    + apply lookup_insert_eq.
    + now apply parent_truediv_plain.
Qed.

(** The destination [a/b/c/] does not exist: the three directories are
    made and the artifact lands in [a/b/c]. *)
Lemma place_creates_directory_chain_witness :
  let w := Sample.world SampleRender.work_disk in
  let placed := place Sample.view "a/b/c/" "/tmp/work/diagram.svg" w in
  placed.1 = Ok (Path_of "a/b/c/examples_single_file_example.svg")
  /\ fs placed.2 !! ["home"; "user"; "a"] = Some Dir
  /\ fs placed.2 !! ["home"; "user"; "a"; "b"] = Some Dir
  /\ fs placed.2 !! ["home"; "user"; "a"; "b"; "c"] = Some Dir
  /\ fs placed.2 !! ["home"; "user"; "a"; "b"; "c"; "examples_single_file_example.svg"]
     = Some (File "<svg>old</svg>")
  /\ fs w !! ["home"; "user"; "a"] = None.
Proof.
  intros w placed.
  pose proof (place_creates_directory_chain Sample.view "a/b/c/"
                "/tmp/work/diagram.svg" w "<svg>old</svg>") as H.
  destruct H as (_ & _ & _ & _ & Hret & Hchain & Hfile & _).
  - split; [apply wfb_sound|]; vm_compute; reflexivity.
  - reflexivity.
  - apply clear_wayb_sound. vm_compute. reflexivity.
  - vm_compute. reflexivity.
  - intros _. vm_compute. discriminate.
  - fold placed in Hret, Hchain, Hfile. split; [exact Hret|].
    split; [apply Hchain; now exists ["b"; "c"]|].
    split; [apply Hchain; now exists ["c"]|].
    split; [apply Hchain; now exists []|].
    split; [exact Hfile | vm_compute; reflexivity].
Defined.

(** When the resolved path is not an existing directory, the placement
    moves: the text is at the resolved path and the temporary file is
    gone. *)
Lemma place_moves_artifact view file_path temp w c :
  wf_world w ->
  contains_char slash view = false ->
  isfile w (Path_of file_path) = false ->
  clear_way (fs w) (locate w (Path_of file_path)) ->
  fs w !! locate w (Path_of temp) = Some (File c) ->
  fs w !! (locate w (Path_of file_path) ++ [replace_char "." "_" view +:+ ".svg"])
    <> Some Dir ->
  locate w (Path_of temp)
    <> locate w (Path_of file_path) ++ [replace_char "." "_" view +:+ ".svg"] ->
  let placed := place view file_path temp w in
  let resolved := truediv (Path_of file_path) (replace_char "." "_" view +:+ ".svg") in
  placed.1 = Ok resolved
  /\ fs placed.2 !! locate w resolved = Some (File c)
  /\ fs placed.2 !! locate w (Path_of temp) = None.
Proof.
  intros Hw Hview Hnf Hclear Hart Htarget Hne placed resolved.
  unfold placed, resolved.
  rewrite (place_into_directory view file_path temp w c) by assumption.
  rewrite (locate_truediv_plain w _ _ (diagram_file_name_plain view Hview)).
  cbn [fst snd]. change (fs (with_fs w ?m)) with m. repeat split.
  - apply lookup_insert_eq.
  - rewrite lookup_insert_ne by congruence. apply lookup_delete_eq.
Qed.

(** C5, at the input where the code departs from it.  The destination
    [out] holds a directory named [examples_single_file_example.svg]:
    the build completes and reports [out/examples_single_file_example.svg]
    as the file, but [shutil.move] has put the artifact inside that
    directory, under the name [diagram.svg]; the reported path is still
    the directory. *)
Theorem build_moves_artifact_into_existing_directory :
  let w := Sample.world SamplePlace.occupied_disk in
  let w' := (build Sample.good_env Sample.view "out" w).2 in
  build Sample.good_env Sample.view "out" w = (Ok tt, w')
  /\ stdout w' = ["out/examples_single_file_example.svg"]
  /\ ctx_obj w' ≫= (.!! "svg_file_path")
     = Some (Path_of "out/examples_single_file_example.svg")
  /\ fs w' !! ["home"; "user"; "out"; "examples_single_file_example.svg"] = Some Dir
  /\ fs w' !! ["home"; "user"; "out"; "examples_single_file_example.svg"; "diagram.svg"]
     = Some (File Sample.svg).
Proof. intros w w'. repeat split; vm_compute; reflexivity. Qed.

(** C7.  For a destination that is a regular file, the placement resolves
    the output path to the destination itself, with its parent as the
    directory; the artifact replaces the file in place, so the destination
    is a regular file afterwards as well, a second resolution gives the
    same directory and the same path, and a second placement returns the
    same path. *)
Theorem place_resolution_idempotent_on_file
    (view file_path temp : string) (w : World) (c : string) :
  wf_world w ->
  isfile w (Path_of file_path) = true ->
  fs w !! locate w (Path_of temp) = Some (File c) ->
  let P := Path_of file_path in
  let placed := place view file_path temp w in
  destination view file_path w = (parent P, P)
  /\ placed.1 = Ok P
  /\ fs placed.2 !! locate w P = Some (File c)
  /\ destination view file_path placed.2 = destination view file_path w
  /\ (forall temp' c', fs placed.2 !! locate w (Path_of temp') = Some (File c') ->
      (place view file_path temp' placed.2).1 = Ok P).
Proof.
  intros Hw Hfile Hart P placed.
  assert (Hf : exists c0, fs w !! locate w P = Some (File c0)).
  { unfold isfile in Hfile. fold P in Hfile.
    destruct (fs w !! locate w P) as [[c0|]|]; try discriminate. now exists c0. }
  destruct Hf as [c0 Hf].
  assert (Hplaced : placed
    = (Ok P, with_fs w (<[locate w P := File c]>
                          (delete (locate w (Path_of temp)) (fs w)))))
    by (unfold placed; now apply (place_onto_file view file_path temp w c c0)).
  assert (Hdest : destination view file_path w = (parent P, P))
    by (unfold destination; now rewrite Hfile).
  assert (Hkne : locate w P <> [])
    by (intros Hn; rewrite Hn in Hf; destruct Hw as [[Hr _] _]; congruence).
  assert (Hpar : fs w !! removelast (locate w P) = Some Dir)
    by (apply (wf_parent _ _ (File c0)); [apply Hw | exact Hkne | exact Hf]).
  remember (<[locate w P := File c]> (delete (locate w (Path_of temp)) (fs w)))
    as m' eqn:Em'.
  assert (Hw' : wf_world (with_fs w m')).
  { split; change (fs (with_fs w m')) with m'; subst m'.
    - apply wf_insert_file; [|exact Hkne | |].
      + apply (wf_delete_file _ _ c); [apply Hw | exact Hart].
      + rewrite lookup_delete_ne; [exact Hpar | intros Heq; congruence].
      + rewrite lookup_delete. case_decide; congruence.
    - change (cwd (with_fs w ?m)) with (cwd w). destruct Hw as [_ Hcwd].
      rewrite lookup_insert_ne, lookup_delete_ne; [exact Hcwd | |];
        intros Heq; congruence. }
  assert (Hfile' : m' !! locate w P = Some (File c))
    by (subst m'; apply lookup_insert_eq).
  rewrite Hplaced. cbn [fst snd]. change (fs (with_fs w m')) with m'.
  repeat split.
  - exact Hdest.
  - exact Hfile'.
  - rewrite Hdest. unfold destination, isfile. fold P.
    change (locate (with_fs w m') P) with (locate w P).
    change (fs (with_fs w m')) with m'. now rewrite Hfile'.
  - intros temp' c' Hart'.
    now rewrite (place_onto_file view file_path temp' (with_fs w m') c' c Hw').
Qed.

(** [out/diagram.svg] is a regular file: the path resolves to it, before
    and after the placement. *)
Lemma place_resolution_idempotent_on_file_witness :
  let w := Sample.world SamplePlace.file_disk in
  let placed := place Sample.view "out/diagram.svg" "/tmp/work/diagram.svg" w in
  placed.1 = Ok (Path_of "out/diagram.svg")
  /\ fs placed.2 !! ["home"; "user"; "out"; "diagram.svg"] = Some (File "<svg>old</svg>")
  /\ destination Sample.view "out/diagram.svg" placed.2
     = (Path_of "out", Path_of "out/diagram.svg").
Proof.
  intros w placed.
  pose proof (place_resolution_idempotent_on_file Sample.view "out/diagram.svg"
                "/tmp/work/diagram.svg" w "<svg>old</svg>") as H.
  destruct H as (Hdest & Hret & Hfile & Hagain & _).
  - split; [apply wfb_sound|]; vm_compute; reflexivity.
  - vm_compute. reflexivity.
  - vm_compute. reflexivity.
  - fold placed in Hret, Hfile, Hagain. split; [exact Hret|].
    split; [exact Hfile|]. rewrite Hagain, Hdest. reflexivity.
Defined.

(** ** The scope of the temporary directory *)

Lemma dev_eq E view w :
  dev E view w = TemporaryDirectory E (dev_body E view) (echoed w [dev_banner view]).
Proof. reflexivity. Qed.

(** C8.  [build] and [dev] make their working directory first: when the
    name that [tempfile] picks is fresh and its parent exists, the body of
    the [with] block starts in a world in which the directory exists.
    Whatever the body does and however it ends, with a result or with an
    exception, nothing is left at the place of the directory or below it
    when the command ends.  ([dev] ends only when its watcher does, by
    cancellation or by an exception.) *)
Theorem build_and_dev_scope_temporary_directory
    (E : Env) (view file_path : string) (w : World) :
  wf (fs w) ->
  let w0 := echoed w [dev_banner view] in
  let tb := mkdtemp E w in
  let td := mkdtemp E w0 in
  fs w !! locate w (Path_of tb) = None ->
  fs w !! locate w (Path_of td) = None ->
  let built := build E view file_path w in
  let served := dev E view w in
  (fs w !! removelast (locate w (Path_of tb)) = Some Dir ->
   let inner := build_async_behavior E view file_path tb
                  (with_fs w (<[locate w (Path_of tb) := Dir]> (fs w))) in
   built = (inner.1, with_fs inner.2
                       (fs_rmtree (fs inner.2) (locate inner.2 (Path_of tb)))))
  /\ (forall k, locate built.2 (Path_of tb) `prefix_of` k -> fs built.2 !! k = None)
  /\ (fs w !! removelast (locate w (Path_of td)) = Some Dir ->
      let inner := dev_body E view td
                     (with_fs w0 (<[locate w (Path_of td) := Dir]> (fs w))) in
      served = (inner.1, with_fs inner.2
                           (fs_rmtree (fs inner.2) (locate inner.2 (Path_of td)))))
  /\ (forall k, locate served.2 (Path_of td) `prefix_of` k -> fs served.2 !! k = None).
Proof.
  intros Hwf w0 tb td Hfb Hfd built served. repeat split.
  - intros Hpar. unfold built, build.
    now rewrite (TemporaryDirectory_creates E _ w Hwf Hfb Hpar).
  - intros k Hk. unfold built in *.
    destruct (build E view file_path w) as [r w'] eqn:Hb.
    now apply (TemporaryDirectory_removes E _ w r w' Hwf Hfb Hb).
  - intros Hpar. unfold served. rewrite dev_eq.
    now rewrite (TemporaryDirectory_creates E _ w0 Hwf Hfd Hpar).
  - intros k Hk.
    apply (TemporaryDirectory_removes E (dev_body E view) w0 served.1 served.2
             Hwf Hfd); [|exact Hk].
    unfold served. rewrite dev_eq. apply surjective_pairing.
Qed.

(** The rendering fails: [build] raises, and [/tmp/tmpdiagram] is gone;
    [dev] raises as well, and the directory with the page of the preview
    is gone. *)
Lemma build_and_dev_scope_temporary_directory_witness :
  let w := Sample.world Sample.disk in
  let built := build SampleRender.failing_env Sample.view "out" w in
  let served := dev SampleRender.failing_env Sample.view w in
  built.1 = Raise (ClickException "Failed to create diagram")
  /\ fs built.2 !! ["tmp"; "tmpdiagram"] = None
  /\ fs built.2 !! ["tmp"; "tmpdiagram"; "diagram.svg"] = None
  /\ is_Ok served.1 = false
  /\ fs served.2 !! ["tmp"; "tmpdiagram"] = None
  /\ fs served.2 !! ["tmp"; "tmpdiagram"; "index.html"] = None.
Proof.
  intros w built served.
  pose proof (build_and_dev_scope_temporary_directory
                SampleRender.failing_env Sample.view "out" w) as H.
  destruct H as (_ & Hb & _ & Hd).
  - apply wfb_sound. vm_compute. reflexivity.
  - vm_compute. reflexivity.
  - vm_compute. reflexivity.
  - fold built in Hb. fold served in Hd.
    split; [vm_compute; reflexivity|].
    split; [apply Hb; now exists []|].
    split; [apply Hb; now exists ["diagram.svg"]|].
    split; [vm_compute; reflexivity|].
    split; [apply Hd; now exists [] | apply Hd; now exists ["index.html"]].
Defined.

(** ** The chained upload *)

Section Upload.

Context (E : Env).

Lemma upload_found p creds b o w :
  ctx_obj w ≫= (.!! "svg_file_path") = Some p ->
  upload E creds b o w = upload_from E p creds b o w.
Proof.
  intros H. unfold upload, upload_from, bind, ctx_obj_getitem.
  destruct (ctx_obj w) as [d|]; [|discriminate]. simpl in H. rewrite H.
  rewrite echo_eq. destruct (create_cloud_storage E "GCS" creds _); [|reflexivity].
  unfold upload_file, bind, modify.
  destruct (cloud_upload_file E _ _); reflexivity.
Qed.


End Upload.



(** ** The generator behind the bridge *)

Lemma is_module_list_strings l : is_module_list (JArr (List.map JStr l)) = true.
Proof. simpl. induction l as [|x l IH]; simpl; [reflexivity | exact IH]. Qed.

(** C4.  With the generator of the specification behind the bridge, and
    text functions that read its record back, a call that returns has
    returned the diagram description as the code and a list of module
    identifiers that is well formed, not empty, and has the view module in
    it. *)
Theorem generate_includes_view_module
    (E : Env) (G : Generator) (view : string) (w w' : World)
    (code modules : JSON) :
  run_child E (generator_argv E view) w = generator_child G view ->
  (forall c, workspace_of G view = Some c ->
     reads_back E (json_dumps G (generator_record G view c) +:+ newline)
                (generator_record G view c)) ->
  generate_diagram_code_in_child_process E view w = (Ok (code, modules), w') ->
  exists c items,
    workspace_of G view = Some c
    /\ code = JStr c
    /\ modules = JArr items
    /\ In (JStr view) items
    /\ items <> []
    /\ is_module_list modules = true.
Proof.
  intros Hrun Hback Hgen. unfold generator_child in Hrun.
  destruct (workspace_of G view) as [c|] eqn:Hc.
  - destruct (Hback c eq_refl) as (s & Hd & Hj).
    assert (Hrec : record_of E (json_dumps G (generator_record G view c) +:+ newline)
                     (JStr c) (JArr (List.map JStr (view :: touched G view)))).
    { exists s, [("code", JStr c);
                 ("imported_modules", JArr (List.map JStr (view :: touched G view)))].
      repeat split; [exact Hd | exact Hj]. }
    rewrite (generate_record E view w _ _ _ Hrun Hrec) in Hgen.
    inversion Hgen; subst.
    exists c, (List.map JStr (view :: touched G view)).
    repeat split.
    + now left.
    + discriminate.
    + apply is_module_list_strings.
  - rewrite (generate_nonzero_exit E view w 1 "" Hrun) in Hgen; [discriminate|].
    discriminate.
Qed.

(** The view [examples.single_file_example], whose generation also touches
    the package [examples]. *)
Lemma generate_includes_view_module_witness :
  let E := SampleGenerator.generator_env in
  let w := Sample.world Sample.disk in
  generate_diagram_code_in_child_process E Sample.view w
  = (Ok (JStr "workspace { }", JArr [JStr Sample.view; JStr "examples"]), w)
  /\ In (JStr Sample.view) [JStr Sample.view; JStr "examples"].
Proof.
  intros E w.
  assert (Hrun : generate_diagram_code_in_child_process E Sample.view w
                 = (Ok (JStr "workspace { }",
                        JArr [JStr Sample.view; JStr "examples"]), w))
    by (vm_compute; reflexivity).
  split; [exact Hrun|].
  destruct (generate_includes_view_module E SampleGenerator.generator
              Sample.view w w (JStr "workspace { }")
              (JArr [JStr Sample.view; JStr "examples"]))
    as (c & items & _ & _ & Hitems & Hin & _).
  - reflexivity.
  - intros c Hc. vm_compute in Hc. injection Hc as <-.
    exists (Text.dumps (generator_record SampleGenerator.generator Sample.view
                          "workspace { }") +:+ newline).
    split; vm_compute; reflexivity.
  - exact Hrun.
  - injection Hitems as <-. exact Hin.
Defined.

(* ===================================================================== *)
(** * Further properties of the commands *)
(* ===================================================================== *)

(** ** The bridge: which exception for which output *)

(** X1.  When the bridge raises, the world is unchanged and the exception
    tells what was wrong, in the order in which the code looks:
    [CalledProcessError] for a non-zero exit status, [UnicodeDecodeError]
    for output that does not decode, [JSONDecodeError] for text that does
    not parse, [TypeError] for a value that is not an object,
    [KeyError("code")] when [code] is missing (whether or not
    [imported_modules] is there), and [KeyError("imported_modules")] when
    only that member is missing. *)
Theorem generate_error_kinds
    (E : Env) (view : string) (w w' : World) (rc : Z) (out : string) (e : exn) :
  run_child E (generator_argv E view) w = (rc, out) ->
  generate_diagram_code_in_child_process E view w = (Raise e, w') ->
  w' = w /\
  ((rc <> 0%Z /\ e = CalledProcessError rc)
   \/ (rc = 0%Z /\ bytes_decode E out = None /\ e = UnicodeDecodeError)
   \/ (rc = 0%Z /\ exists s, bytes_decode E out = Some s /\
         json_loads E (str_strip E s) = None /\ e = JSONDecodeError)
   \/ (rc = 0%Z /\ exists s j, bytes_decode E out = Some s /\
         json_loads E (str_strip E s) = Some j /\
         (forall members, j <> JObj members) /\ e = TypeError)
   \/ (rc = 0%Z /\ exists s members, bytes_decode E out = Some s /\
         json_loads E (str_strip E s) = Some (JObj members) /\
         dict_get members "code" = None /\ e = KeyError "code")
   \/ (rc = 0%Z /\ exists s members code, bytes_decode E out = Some s /\
         json_loads E (str_strip E s) = Some (JObj members) /\
         dict_get members "code" = Some code /\
         dict_get members "imported_modules" = None /\
         e = KeyError "imported_modules")).
Proof.
  intros Hrun Hgen. split; [exact (generate_world E _ _ _ _ Hgen)|].
  unfold generate_diagram_code_in_child_process, bind, check_output, decode,
    loads, lift, ret, getitem, raise in Hgen.
  unfold generator_argv in Hrun. rewrite Hrun in Hgen.
  destruct (Z.eqb_spec rc 0) as [-> | Hrc].
  2:{ left. inversion Hgen. now split. }
  right. destruct (bytes_decode E out) as [s|] eqn:Hd.
  2:{ left. inversion Hgen. now repeat split. }
  right. destruct (json_loads E (str_strip E s)) as [j|] eqn:Hj.
  2:{ left. inversion Hgen. split; [reflexivity|]. now exists s. }
  right. destruct j;
    try (left; inversion Hgen; split; [reflexivity|]; eexists s, _;
         repeat split; [exact Hj | discriminate]).
  right. destruct (dict_get members "code") as [c|] eqn:Hc.
  2:{ left. inversion Hgen. split; [reflexivity|]. now exists s, members. }
  right. destruct (dict_get members "imported_modules") eqn:Hm; [discriminate|].
  inversion Hgen. split; [reflexivity|]. now exists s, members, c.
Qed.

(** An empty object has neither member: the bridge reports [code]. *)
Lemma generate_error_kinds_witness :
  let w := Sample.world Sample.disk in
  generate_diagram_code_in_child_process SampleDump.empty_env Sample.view w
  = (Raise (KeyError "code"), w).
Proof.
  intros w.
  destruct (generate_diagram_code_in_child_process SampleDump.empty_env
              Sample.view w) as [r w'] eqn:Hg.
  assert (Hr : exists e, r = Raise e) by (vm_compute in Hg; inversion Hg; eauto).
  destruct Hr as [e ->].
  destruct (generate_error_kinds SampleDump.empty_env Sample.view w w' 0%Z "{}" e
              eq_refl Hg) as [-> Hkind].
  f_equal. f_equal.
  destruct Hkind as [[H _] | [(_ & H & _) | [(_ & s & Hd & H & _) |
    [(_ & s & j & Hd & Hj & H & _) | [(_ & s & ms & Hd & Hj & Hc & ->) |
    (_ & s & ms & c & Hd & Hj & Hc & _)]]]]].
  - congruence.
  - vm_compute in H. discriminate.
  - vm_compute in Hd. injection Hd as <-. vm_compute in H. discriminate.
  - vm_compute in Hd. injection Hd as <-. vm_compute in Hj. injection Hj as <-.
    now destruct (H []).
  - reflexivity.
  - vm_compute in Hd. injection Hd as <-. vm_compute in Hj. injection Hj as <-.
    vm_compute in Hc. discriminate.
Defined.

(** ** The name of the output file *)

Lemma replace_char_idempotent a b s :
  a <> b -> replace_char a b (replace_char a b s) = replace_char a b s.
Proof.
  intros Hab. induction s as [|c s IH]; simpl; [reflexivity|]. rewrite IH.
  destruct (Ascii.eqb c a) eqn:Hc; [|now rewrite Hc].
  destruct (Ascii.eqb_spec b a); [congruence | reflexivity].
Qed.

(** X2.  The file name keeps no trace of where the dots of the view were:
    a view and the same view with its dots written as underscores resolve
    to the same directory and the same output path, for every destination
    and in every world, so the output of one overwrites the output of the
    other.  The derived stem itself has no dot. *)
Theorem destination_merges_dots_and_underscores
    (view file_path : string) (w : World) :
  destination (replace_char "." "_" view) file_path w = destination view file_path w
  /\ contains_char "." (replace_char "." "_" view) = false.
Proof.
  split.
  - unfold destination. now rewrite replace_char_idempotent.
  - induction view as [|c s IH]; simpl; [reflexivity|]. rewrite IH.
    destruct (Ascii.eqb c ".") eqn:Hc; [reflexivity | now rewrite Hc].
Qed.

(** ** The [dump] command *)



(** X4.  When the bridge has returned, [dump] without the flag always
    succeeds, while [dump --as-json] succeeds exactly when
    [imported_modules] is a list, an object or a string: for a number, a
    boolean or [null], which the bridge lets through, [list()] raises
    [TypeError] and nothing is printed. *)
Theorem dump_as_json_needs_iterable_modules
    (E : Env) (T : PyText) (view : string) (w : World) (code modules : JSON) :
  generate_diagram_code_in_child_process E view w = (Ok (code, modules), w) ->
  (dump E T view false w).1 = Ok tt
  /\ ((dump E T view true w).1 = Ok tt <-> iterable modules = true)
  /\ (iterable modules = false -> dump E T view true w = (Raise TypeError, w)).
Proof.
  intros Hg. unfold dump. rewrite !(bind_Ok _ _ _ _ _ Hg).
  split; [reflexivity|].
  destruct modules; simpl; unfold bind, raise, ret; simpl;
    (split; [split; intros H; first [reflexivity | discriminate]
            | intros H; first [reflexivity | discriminate]]).
Qed.

Lemma dump_as_json_needs_iterable_modules_witness :
  let w := Sample.world Sample.disk in
  dump SampleDump.number_env SampleDump.pytext Sample.view true w
  = (Raise TypeError, w)
  /\ (dump SampleDump.number_env SampleDump.pytext Sample.view false w).1 = Ok tt.
Proof.
  intros w.
  destruct (dump_as_json_needs_iterable_modules SampleDump.number_env
              SampleDump.pytext Sample.view w (JStr "workspace { }") (JInt 7))
    as (Hplain & _ & Hjson).
  - vm_compute. reflexivity.
  - split; [now apply Hjson | exact Hplain].
Defined.

(** X5.  [dump --as-json] prints a record with exactly the two members
    that the bridge looks up: for a list of modules it prints
    [{"code": code, "imported_modules": modules}], and a bridge whose child
    prints that line, under text functions that read the record back,
    returns the same code and the same modules. *)
Theorem dump_as_json_feeds_the_bridge
    (E : Env) (T : PyText) (view : string) (w : World)
    (code : JSON) (items : list JSON) :
  generate_diagram_code_in_child_process E view w = (Ok (code, JArr items), w) ->
  let line := json_dumps_of T (dumped_record code items) in
  dump E T view true w = (Ok tt, echoed w [line])
  /\ forall E' view' w',
       run_child E' (generator_argv E' view') w' = (0%Z, line +:+ newline) ->
       reads_back E' (line +:+ newline) (dumped_record code items) ->
       generate_diagram_code_in_child_process E' view' w'
       = (Ok (code, JArr items), w').
Proof.
  intros Hg line. split.
  - unfold dump. now rewrite (bind_Ok _ _ _ _ _ Hg).
  - intros E' view' w' Hrun (s & Hd & Hj).
    apply (generate_record E' view' w' _ _ _ Hrun).
    now exists s, [("code", code); ("imported_modules", JArr items)].
Qed.

(** What [dump --as-json] prints for the sample view is read back by the
    bridge of the sample environment. *)
Lemma dump_as_json_feeds_the_bridge_witness :
  let w := Sample.world Sample.disk in
  let printed := stdout (dump Sample.good_env SampleDump.pytext Sample.view true w).2 in
  let E' := Sample.env (Sample.child 0 (List.last printed "" +:+ newline))
                       (Sample.service Sample.ok_response) in
  generate_diagram_code_in_child_process E' "another.view" w
  = generate_diagram_code_in_child_process Sample.good_env Sample.view w.
Proof.
  intros w printed E'.
  destruct (dump_as_json_feeds_the_bridge Sample.good_env SampleDump.pytext
              Sample.view w (JStr "workspace { }")
              [JStr Sample.view; JStr "examples"]) as [Hdump Hback].
  - vm_compute. reflexivity.
  - rewrite (Hback E' "another.view" w).
    + vm_compute. reflexivity.
    + unfold E', printed. rewrite Hdump. vm_compute. reflexivity.
    + eexists. split; vm_compute; reflexivity.
Defined.

(** ** The stages of a build *)

Lemma fs_rmtree_restores m m' t :
  wf m -> m !! t = None ->
  (forall k, ~ t `prefix_of` k -> m' !! k = m !! k) ->
  fs_rmtree m' t = m.
Proof.
  intros Hwf Ht Hsame. apply map_eq. intros k.
  destruct (decide (t `prefix_of` k)) as [Hp | Hp].
  - rewrite (fs_rmtree_below _ _ _ Hp). symmetry.
    now apply (wf_below_absent m t k).
  - rewrite (fs_rmtree_other _ _ _ Hp). now apply Hsame.
Qed.


Lemma tmp_name_nonempty E w :
  wf_world w -> fs w !! tmp_key E w = None -> mkdtemp E w <> "".
Proof.
  intros [_ Hcwd] Hfresh Hempty. unfold tmp_key in Hfresh.
  rewrite Hempty in Hfresh. unfold Path_of, locate in Hfresh. simpl in Hfresh.
  rewrite app_nil_r in Hfresh. congruence.
Qed.

Section Stages.

Context (E : Env).

(** Up to the placement: the directory is made, the code generated and
    rendered, and the artifact written; outside the temporary directory
    the file system is as it was. *)
Lemma build_reaches_place view file_path w code modules resp :
  wf_world w ->
  fs w !! tmp_key E w = None ->
  fs w !! removelast (tmp_key E w) = Some Dir ->
  generate_diagram_code_in_child_process E view (started_world E w)
    = (Ok (code, modules), started_world E w) ->
  client_post E kroki_url code (started_world E w) = Ok resp ->
  status_code resp = 200%Z ->
  let w2 := rendered_world E w (text resp) in
  wf_world w2
  /\ (forall k, ~ tmp_key E w `prefix_of` k -> fs w2 !! k = fs w !! k)
  /\ fs w2 !! locate w2 (Path_of (artifact_path (mkdtemp E w))) = Some (File (text resp))
  /\ tmp_key E w `prefix_of` artifact_key_of E w
  /\ build E view file_path w =
       let placed := place view file_path (artifact_path (mkdtemp E w)) w2 in
       match placed.1 with
       | Ok p => (Ok tt, finished_world E w (fs placed.2) p)
       | Raise e => (Raise e, with_fs w (fs_rmtree (fs placed.2) (tmp_key E w)))
       end.
Proof.
  intros Hw Hfresh Hparent Hgen Hpost Hst w2.
  pose proof (tmp_name_nonempty E w Hw Hfresh) as Htmp.
  assert (Hka : artifact_key_of E w = tmp_key E w ++ ["diagram.svg"])
    by (apply artifact_key; exact Htmp).
  assert (Htne : tmp_key E w <> []).
  { intros Hn. rewrite Hn in Hfresh. destruct Hw as [[Hr _] _]. congruence. }
  assert (Hwf1 : wf (<[tmp_key E w := Dir]> (fs w)))
    by (apply wf_insert_dir; [apply Hw | exact Htne | exact Hparent]).
  assert (Hkaabs : fs w !! artifact_key_of E w = None).
  { apply (wf_below_absent _ (tmp_key E w)); [apply Hw | exact Hfresh|].
    rewrite Hka. now exists ["diagram.svg"]. }
  assert (Hne : tmp_key E w <> artifact_key_of E w).
  { rewrite Hka. intros Heq. apply (f_equal length) in Heq.
    rewrite length_app in Heq. simpl in Heq. lia. }
  assert (Hwrite : fs_write (<[tmp_key E w := Dir]> (fs w)) (artifact_key_of E w)
                     (text resp) = Ok (fs w2)).
  { apply fs_write_Ok; [exact Hwf1 | | |].
    - rewrite Hka. now destruct (tmp_key E w).
    - rewrite Hka, removelast_last. apply lookup_insert_eq.
    - rewrite lookup_insert_ne by exact Hne. congruence. }
  assert (Hsame : forall k, ~ tmp_key E w `prefix_of` k -> fs w2 !! k = fs w !! k).
  { intros k Hk. unfold w2, rendered_world. change (fs (with_fs w ?m)) with m.
    rewrite !lookup_insert_ne; [reflexivity | |].
    - intros <-. now apply Hk.
    - intros <-. apply Hk. rewrite Hka. now exists ["diagram.svg"]. }
  split; [|split; [exact Hsame | split; [|split]]].
  - split.
    + unfold w2, rendered_world. change (fs (with_fs w ?m)) with m.
      apply wf_insert_file; [exact Hwf1 | | |].
      * rewrite Hka. now destruct (tmp_key E w).
      * rewrite Hka, removelast_last. apply lookup_insert_eq.
      * rewrite lookup_insert_ne by exact Hne. congruence.
    + change (cwd w2) with (cwd w). rewrite Hsame; [apply Hw|].
      intros Hp. destruct Hw as [Hwf Hcwd].
      rewrite (wf_below_absent _ _ _ Hwf Hfresh Hp) in Hcwd. discriminate.
  - apply lookup_insert_eq.
  - rewrite Hka. now exists ["diagram.svg"].
  - unfold build.
    rewrite (TemporaryDirectory_creates E _ w (proj1 Hw) Hfresh Hparent).
    fold (tmp_key E w). fold (started_world E w).
    unfold build_async_behavior.
    rewrite (bind_Ok _ _ _ _ _ Hgen).
    assert (Hsvg : generate_svg E code (mkdtemp E w) (started_world E w)
                   = (Ok (artifact_path (mkdtemp E w)), w2)).
    { rewrite (generate_svg_200 E _ _ _ _ Hpost Hst).
      change (locate (started_world E w) ?p) with (locate w p).
      fold (artifact_key_of E w).
      change (fs (started_world E w)) with (<[tmp_key E w := Dir]> (fs w)).
      now rewrite Hwrite. }
    rewrite (bind_Ok _ _ _ _ _ Hsvg).
    destruct (place view file_path (artifact_path (mkdtemp E w)) w2)
      as [[p|e] w3] eqn:Hplace;
      pose proof (fs_only_place _ _ _ _ _ _ Hplace) as Hw3.
    + rewrite (bind_Ok _ _ _ _ _ Hplace). cbn [fst snd].
      rewrite Hw3. unfold ensure_object_dict, ctx_obj_setitem, echo, modify, bind.
      unfold finished_world, tmp_key. destruct w as [m c o sp up ob].
      destruct ob; reflexivity.
    + rewrite (bind_Raise _ _ _ _ _ Hplace). cbn [fst snd].
      rewrite Hw3. reflexivity.
Qed.

End Stages.

(** ** Builds that fail *)

Lemma restored_world w m1 lines :
  with_fs (echoed (with_fs w m1) lines) (fs w) = echoed w lines.
Proof. now destruct w. Qed.

(** X6.  A build that fails before the placement leaves no trace.  When
    the generation fails, or the rendering service cannot be reached, the
    build raises the same exception and the world is what it was.  When
    the service answers with a status other than 200, the build raises,
    the file system and the context are what they were, and only the
    diagnostics of the renderer have been printed. *)
Theorem build_failure_leaves_no_trace
    (E : Env) (view file_path : string) (w : World) :
  wf_world w ->
  fs w !! tmp_key E w = None ->
  fs w !! removelast (tmp_key E w) = Some Dir ->
  let w1 := started_world E w in
  (forall e, generate_diagram_code_in_child_process E view w1 = (Raise e, w1) ->
     build E view file_path w = (Raise e, w))
  /\ (forall code modules e,
        generate_diagram_code_in_child_process E view w1 = (Ok (code, modules), w1) ->
        client_post E kroki_url code w1 = Raise e ->
        build E view file_path w = (Raise e, w))
  /\ (forall code modules resp,
        generate_diagram_code_in_child_process E view w1 = (Ok (code, modules), w1) ->
        client_post E kroki_url code w1 = Ok resp ->
        status_code resp <> 200%Z ->
        let run := build E view file_path w in
        is_Ok run.1 = false
        /\ fs run.2 = fs w
        /\ ctx_obj run.2 = ctx_obj w
        /\ exists lines, run.2 = echoed w (Response_repr resp :: lines)).
Proof.
  intros Hw Hfresh Hparent w1.
  assert (Hrestore : fs_rmtree (fs w1) (tmp_key E w) = fs w).
  { apply fs_rmtree_restores; [apply Hw | exact Hfresh|]. intros k Hk.
    unfold w1, started_world. change (fs (with_fs w ?m)) with m.
    rewrite lookup_insert_ne; [reflexivity|]. intros <-. now apply Hk. }
  assert (Hbuild : build E view file_path w =
    let inner := build_async_behavior E view file_path (mkdtemp E w) w1 in
    (inner.1, with_fs inner.2 (fs_rmtree (fs inner.2) (locate inner.2 (Path_of (mkdtemp E w)))))).
  { unfold build. now rewrite (TemporaryDirectory_creates E _ w (proj1 Hw) Hfresh Hparent). }
  split; [|split].
  - intros e Hg. rewrite Hbuild. unfold build_async_behavior.
    rewrite (bind_Raise _ _ _ _ _ Hg). cbn [fst snd].
    change (locate w1 ?p) with (locate w p). fold (tmp_key E w).
    rewrite Hrestore. change (with_fs w1 (fs w)) with (with_fs w (fs w)).
    now rewrite with_fs_id.
  - intros code modules e Hg Hp. rewrite Hbuild. unfold build_async_behavior.
    rewrite (bind_Ok _ _ _ _ _ Hg).
    rewrite (bind_Raise _ _ _ _ _ (generate_svg_transport E _ _ _ _ Hp)).
    cbn [fst snd]. change (locate w1 ?p) with (locate w p). fold (tmp_key E w).
    rewrite Hrestore. change (with_fs w1 (fs w)) with (with_fs w (fs w)).
    now rewrite with_fs_id.
  - intros code modules resp Hg Hp Hst run. unfold run. rewrite Hbuild.
    unfold build_async_behavior. rewrite (bind_Ok _ _ _ _ _ Hg).
    pose proof (generate_svg_not_200 E code (mkdtemp E w) w1 resp Hp Hst) as Hsvg.
    destruct (String.eqb (content resp) "");
      [|destruct (bytes_decode E (content resp))];
      rewrite (bind_Raise _ _ _ _ _ Hsvg); cbn [fst snd];
      change (fs (echoed w1 ?l)) with (fs w1);
      change (locate (echoed w1 ?l) ?p) with (locate w p);
      fold (tmp_key E w); rewrite Hrestore; unfold w1, started_world;
      rewrite restored_world; repeat split; eauto.
Qed.

(** The child exits with status 1: the build raises
    [CalledProcessError], and the world is what it was. *)
Lemma build_failure_leaves_no_trace_witness :
  let w := Sample.world Sample.disk in
  build SampleBuild.crashing_env Sample.view "out" w = (Raise (CalledProcessError 1), w).
Proof.
  intros w.
  destruct (build_failure_leaves_no_trace SampleBuild.crashing_env Sample.view
              "out" w) as (Hgen & _ & _).
  - split; [apply wfb_sound|]; vm_compute; reflexivity.
  - vm_compute. reflexivity.
  - vm_compute. reflexivity.
  - apply Hgen. vm_compute. reflexivity.
Defined.

Lemma check_dirs_file m cur q rest c :
  wf m -> m !! (cur ++ q) = Some (File c) -> q `prefix_of` rest ->
  check_dirs m cur rest = Some NotADirectoryError.
Proof.
  intros Hwf. revert cur rest. induction q as [|x q IH]; intros cur rest Hf Hp.
  - rewrite app_nil_r in Hf. destruct rest; simpl; now rewrite Hf.
  - destruct rest as [|y rest]; [now apply prefix_nil_not in Hp|].
    pose proof (prefix_cons_inv_1 _ _ _ _ Hp) as ->.
    apply prefix_cons_inv_2 in Hp.
    assert (Hd : m !! cur = Some Dir).
    { apply (wf_prefix m (cur ++ y :: q) (File c)); auto.
      - now exists (y :: q).
      - intros Heq. apply (f_equal length) in Heq. rewrite length_app in Heq.
        simpl in Heq. lia. }
    simpl. rewrite Hd. apply IH; [|exact Hp]. now rewrite <- app_assoc.
Qed.

Lemma fs_mkdir_blocked m k f c :
  wf m -> f `prefix_of` k -> f <> k -> m !! f = Some (File c) ->
  fs_mkdir m k = Raise NotADirectoryError.
Proof.
  intros Hwf [rest ->] Hne Hf. unfold fs_mkdir, check_parent.
  destruct rest as [|x rest]; [now rewrite app_nil_r in Hne|].
  destruct (f ++ x :: rest) eqn:Hk; [now destruct f|]. rewrite <- Hk.
  rewrite removelast_app by discriminate.
  rewrite (check_dirs_file m [] f _ c Hwf Hf); [reflexivity|].
  now exists (removelast (x :: rest)).
Qed.

(** A regular file on the way to the destination: the placement raises
    [NotADirectoryError] and changes nothing. *)
Lemma place_blocked view file_path temp w f c :
  wf_world w ->
  f `prefix_of` locate w (Path_of file_path) ->
  f <> locate w (Path_of file_path) ->
  fs w !! f = Some (File c) ->
  place view file_path temp w = (Raise NotADirectoryError, w).
Proof.
  intros Hw Hp Hne Hf. remember (Path_of file_path) as P eqn:EP.
  assert (Habs : fs w !! locate w P = None).
  { destruct (fs w !! locate w P) as [n|] eqn:Hk; [|reflexivity].
    rewrite (wf_prefix _ _ n f (proj1 Hw) Hk Hp Hne) in Hf. discriminate. }
  unfold place. rewrite (bind_Ok _ _ _ _ _ (resolve_destination_eq _ _ _)).
  unfold destination, isfile. rewrite <- EP, Habs.
  assert (Hmk : Path_mkdir P true true w = (Raise NotADirectoryError, w)).
  { unfold Path_mkdir. destruct (rev (path_names P)) as [|x up] eqn:Hrev.
    - exfalso. apply (f_equal (@rev string)) in Hrev. rewrite rev_involutive in Hrev.
      simpl in Hrev. rewrite (locate_names w P), Hrev, app_nil_r in Habs.
      rewrite (base_key_dir w _ Hw) in Habs. discriminate.
    - assert (Hself : mkPath (path_root P) (rev (x :: up)) = P).
      { rewrite <- Hrev, rev_involutive. now destruct P. }
      cbn [Path_mkdir_rec]. rewrite Hself. unfold try_except.
      rewrite (os_mkdir_Raise _ w NotADirectoryError).
      + unfold mkdir_except_OSError, bind, is_dir, gets, isdir. cbn [is_OSError].
        now rewrite Habs.
      + now apply (fs_mkdir_blocked _ _ f c (proj1 Hw)). }
  now rewrite (bind_Raise _ _ _ _ _ Hmk).
Qed.

(** X7.  When a regular file stands on the way to the destination
    directory, the build raises [NotADirectoryError] after the rendering:
    no directory has been made, nothing has been printed, the temporary
    directory is gone, and the world is what it was. *)
Theorem build_blocked_by_regular_file
    (E : Env) (view file_path : string) (w : World)
    (code modules : JSON) (resp : Response) (f : list string) (c : string) :
  wf_world w ->
  fs w !! tmp_key E w = None ->
  fs w !! removelast (tmp_key E w) = Some Dir ->
  generate_diagram_code_in_child_process E view (started_world E w)
    = (Ok (code, modules), started_world E w) ->
  client_post E kroki_url code (started_world E w) = Ok resp ->
  status_code resp = 200%Z ->
  f `prefix_of` locate w (Path_of file_path) ->
  f <> locate w (Path_of file_path) ->
  fs w !! f = Some (File c) ->
  build E view file_path w = (Raise NotADirectoryError, w).
Proof.
  intros Hw Hfresh Hparent Hgen Hpost Hst Hp Hne Hf.
  destruct (build_reaches_place E view file_path w code modules resp
              Hw Hfresh Hparent Hgen Hpost Hst) as (Hw2 & Hsame & _ & _ & ->).
  assert (Hf2 : fs (rendered_world E w (text resp)) !! f = Some (File c)).
  { rewrite Hsame; [exact Hf|]. intros Ht.
    rewrite (wf_below_absent _ _ _ (proj1 Hw) Hfresh Ht) in Hf. discriminate. }
  rewrite (place_blocked view file_path _ (rendered_world E w (text resp)) f c
             Hw2 Hp Hne Hf2).
  cbn [fst snd]. rewrite (fs_rmtree_restores (fs w)); auto; [|apply Hw].
  apply f_equal, with_fs_id.
Qed.

(** The destination [notes/out] lies below the regular file [notes]. *)
Lemma build_blocked_by_regular_file_witness :
  let w := Sample.world SampleBuild.notes_disk in
  build Sample.good_env Sample.view "notes/out" w = (Raise NotADirectoryError, w).
Proof.
  intros w.
  apply (build_blocked_by_regular_file Sample.good_env Sample.view "notes/out" w
           (JStr "workspace { }") (JArr [JStr Sample.view; JStr "examples"])
           Sample.ok_response ["home"; "user"; "notes"] "to do").
  - split; [apply wfb_sound|]; vm_compute; reflexivity.
  - vm_compute. reflexivity.
  - vm_compute. reflexivity.
  - vm_compute. reflexivity.
  - reflexivity.
  - reflexivity.
  - now exists ["out"].
  - vm_compute. discriminate.
  - vm_compute. reflexivity.
Defined.

(** ** Builds that succeed *)




(** X9.  A build onto a destination that is a regular file: it succeeds,
    prints the destination and stores it in the context; the file holds
    the text of the response, the temporary directory is gone, and every
    other entry of the file system is what it was. *)
Theorem build_onto_file
    (E : Env) (view file_path : string) (w : World)
    (code modules : JSON) (resp : Response) (c0 : string) :
  wf_world w ->
  fs w !! tmp_key E w = None ->
  fs w !! removelast (tmp_key E w) = Some Dir ->
  generate_diagram_code_in_child_process E view (started_world E w)
    = (Ok (code, modules), started_world E w) ->
  client_post E kroki_url code (started_world E w) = Ok resp ->
  status_code resp = 200%Z ->
  let P := Path_of file_path in
  fs w !! locate w P = Some (File c0) ->
  build E view file_path w
  = (Ok tt,
     mkWorld (<[locate w P := File (text resp)]> (fs w))
             (cwd w) (stdout w ++ [str P]) (spawned w) (uploaded w)
             (Some (<["svg_file_path" := P]> (default ∅ (ctx_obj w))))).
Proof.
  intros Hw Hfresh Hparent Hgen Hpost Hst P Hfile.
  destruct (build_reaches_place E view file_path w code modules resp
              Hw Hfresh Hparent Hgen Hpost Hst) as (Hw2 & Hsame & Hart & Hpre & ->).
  unfold P in *. clear P. remember (Path_of file_path) as P eqn:EP.
  assert (HoutD : ~ tmp_key E w `prefix_of` locate w P).
  { intros Ht. rewrite (wf_below_absent _ _ _ (proj1 Hw) Hfresh Ht) in Hfile.
    discriminate. }
  remember (rendered_world E w (text resp)) as w2 eqn:Ew2.
  assert (Hloc : forall p, locate w2 p = locate w p) by (now subst w2).
  assert (Hplace : place view file_path (artifact_path (mkdtemp E w)) w2
    = (Ok P, with_fs w2 (<[locate w P := File (text resp)]>
         (delete (locate w2 (Path_of (artifact_path (mkdtemp E w)))) (fs w2))))).
  { subst P. rewrite (place_onto_file view file_path _ w2 (text resp) c0); auto.
    - now rewrite Hloc.
    - rewrite Hloc, (Hsame _ HoutD). exact Hfile. }
  rewrite Hplace. cbn [fst snd]. unfold finished_world. f_equal. f_equal.
  change (fs (with_fs w2 ?m)) with m. rewrite Hloc. fold (artifact_key_of E w).
  apply map_eq. intros k.
  destruct (decide (tmp_key E w `prefix_of` k)) as [Hk | Hk].
  - rewrite (fs_rmtree_below _ _ _ Hk). symmetry.
    rewrite lookup_insert_ne by (intros <-; contradiction).
    now apply (wf_below_absent _ (tmp_key E w) k (proj1 Hw)).
  - rewrite (fs_rmtree_other _ _ _ Hk), !lookup_insert. case_decide; [reflexivity|].
    rewrite lookup_delete_ne by (intros <-; contradiction).
    now apply Hsame.
Qed.

(** [build examples.single_file_example out/diagram.svg], where the file
    exists. *)
Lemma build_onto_file_witness :
  let w := Sample.world SampleBuild.target_disk in
  let w' := (build Sample.good_env Sample.view "out/diagram.svg" w).2 in
  fs w' = <[["home"; "user"; "out"; "diagram.svg"] := File Sample.svg]>
            SampleBuild.target_disk
  /\ stdout w' = ["out/diagram.svg"].
Proof.
  intros w w'. unfold w'.
  rewrite (build_onto_file Sample.good_env Sample.view "out/diagram.svg" w
             (JStr "workspace { }") (JArr [JStr Sample.view; JStr "examples"])
             Sample.ok_response "<svg>first</svg>").
  - split; reflexivity.
  - split; [apply wfb_sound|]; vm_compute; reflexivity.
  - vm_compute. reflexivity.
  - vm_compute. reflexivity.
  - vm_compute. reflexivity.
  - reflexivity.
  - reflexivity.
  - vm_compute. reflexivity.
Defined.

(** ** Rendering again *)

Lemma generate_svg_Raise_fs E code tmp w e w' :
  generate_svg E code tmp w = (Raise e, w') -> fs w' = fs w.
Proof.
  intros H. destruct (client_post E kroki_url code w) as [resp|e0] eqn:Hpost.
  2:{ rewrite (generate_svg_transport E _ _ _ _ Hpost) in H. now inversion H. }
  destruct (Z.eq_dec (status_code resp) 200%Z) as [Hst|Hst].
  - rewrite (generate_svg_200 E _ _ _ _ Hpost Hst) in H.
    destruct (fs_write _ _ _); [discriminate | now inversion H].
  - rewrite (generate_svg_not_200 E _ _ _ _ Hpost Hst) in H.
    destruct (String.eqb (content resp) "");
      [|destruct (bytes_decode E (content resp))]; now inversion H.
Qed.

(** X10.  Rendering twice into the same directory keeps one artifact: a
    second response with status 200 replaces the text of the first, so
    that the file system is as if only the second rendering had happened,
    and a second response with another status leaves the text of the
    first in place. *)
Theorem generate_svg_overwrites_in_place
    (E : Env) (code1 code2 : JSON) (tmp_folder : string) (w : World)
    (resp1 resp2 : Response) :
  wf (fs w) ->
  tmp_folder <> "" ->
  fs w !! locate w (Path_of tmp_folder) = Some Dir ->
  fs w !! (locate w (Path_of tmp_folder) ++ ["diagram.svg"]) <> Some Dir ->
  client_post E kroki_url code1 w = Ok resp1 ->
  status_code resp1 = 200%Z ->
  let w1 := (generate_svg E code1 tmp_folder w).2 in
  let ka := locate w (Path_of tmp_folder) ++ ["diagram.svg"] in
  client_post E kroki_url code2 w1 = Ok resp2 ->
  fs w1 !! ka = Some (File (text resp1))
  /\ (status_code resp2 = 200%Z ->
      generate_svg E code2 tmp_folder w1
      = (Ok (artifact_path tmp_folder), with_fs w (<[ka := File (text resp2)]> (fs w))))
  /\ (status_code resp2 <> 200%Z ->
      fs (generate_svg E code2 tmp_folder w1).2 !! ka = Some (File (text resp1))).
Proof.
  intros Hwf Htmp Hdir Hnodir Hpost1 Hst1 w1 ka Hpost2.
  assert (Hkne : ka <> []) by (unfold ka; now destruct (locate w (Path_of tmp_folder))).
  assert (Hpar : removelast ka = locate w (Path_of tmp_folder))
    by (unfold ka; now rewrite removelast_last).
  assert (Hw1 : w1 = with_fs w (<[ka := File (text resp1)]> (fs w))).
  { unfold w1. rewrite (generate_svg_200 E _ _ _ _ Hpost1 Hst1).
    rewrite (artifact_key w tmp_folder Htmp). fold ka.
    rewrite fs_write_Ok; auto. now rewrite Hpar. }
  rewrite Hw1 in *. change (fs (with_fs w ?m)) with m. split; [|split].
  - apply lookup_insert_eq.
  - intros Hst2. rewrite (generate_svg_200 E _ _ _ _ Hpost2 Hst2).
    change (locate (with_fs w ?m) ?p) with (locate w p).
    change (fs (with_fs w ?m)) with m.
    rewrite (artifact_key w tmp_folder Htmp). fold ka.
    rewrite fs_write_Ok.
    + now rewrite insert_insert_eq.
    + apply wf_insert_file; auto. now rewrite Hpar.
    + exact Hkne.
    + rewrite Hpar, lookup_insert_ne; [exact Hdir|].
      intros Heq. rewrite <- Heq in Hdir. unfold ka in Heq.
      apply (f_equal length) in Heq. rewrite length_app in Heq. simpl in Heq. lia.
    + rewrite lookup_insert_eq. discriminate.
  - intros Hst2.
    destruct (generate_svg E code2 tmp_folder
                (with_fs w (<[ka := File (text resp1)]> (fs w)))) as [r w2] eqn:Hg.
    destruct r as [a|e].
    + apply generate_svg_Ok_inv in Hg as (resp & m' & Hp & Hs & _).
      rewrite Hpost2 in Hp. injection Hp as <-. contradiction.
    + cbn [snd]. rewrite (generate_svg_Raise_fs E _ _ _ _ _ Hg).
      apply lookup_insert_eq.
Qed.

(** The working directory [/tmp/work] holds an older artifact; two
    renderings with status 200 leave the text of the second. *)
Lemma generate_svg_overwrites_in_place_witness :
  let w := Sample.world SampleRender.work_disk in
  let w1 := (generate_svg Sample.good_env (JStr "first") SampleRender.work w).2 in
  (generate_svg Sample.good_env (JStr "second") SampleRender.work w1).2
  = with_fs w (<[["tmp"; "work"; "diagram.svg"] := File Sample.svg]>
                 SampleRender.work_disk).
Proof.
  intros w w1.
  destruct (generate_svg_overwrites_in_place Sample.good_env (JStr "first")
              (JStr "second") SampleRender.work w Sample.ok_response
              Sample.ok_response) as (_ & Hok & _).
  - apply wfb_sound. vm_compute. reflexivity.
  - discriminate.
  - vm_compute. reflexivity.
  - vm_compute. discriminate.
  - reflexivity.
  - reflexivity.
  - reflexivity.
  - fold w1 in Hok. now rewrite Hok.
Defined.

(** ** The live preview *)

(** X11.  One cycle of the live preview, as the watcher calls it: it
    prints [Generating diagram...]; when it fails, in the generation or in
    the rendering, the file system is what it was, so the artifact that
    the preview serves keeps its last text; when it returns, it returns
    the modules that the bridge reported for this very generation, and
    the artifact holds the text of the response, nothing else having
    changed in the file system. *)
Theorem rebuild_keeps_last_good_artifact
    (E : Env) (view tmp_folder : string) (w : World) :
  let run := dev_async_behavior E view tmp_folder w in
  let w0 := echoed w ["Generating diagram..."] in
  match run.1 with
  | Raise _ =>
      fs run.2 = fs w
      /\ exists lines, stdout run.2 = stdout w ++ "Generating diagram..." :: lines
  | Ok modules =>
      exists code resp,
        generate_diagram_code_in_child_process E view w0 = (Ok (code, modules), w0)
        /\ client_post E kroki_url code w0 = Ok resp
        /\ status_code resp = 200%Z
        /\ run.2 = with_fs w0 (<[locate w (Path_of (artifact_path tmp_folder))
                                 := File (text resp)]> (fs w))
  end.
Proof.
  intros run w0. unfold run, dev_async_behavior.
  rewrite (bind_Ok _ _ _ _ _ (echo_eq _ w)). fold w0.
  destruct (generate_diagram_code_in_child_process E view w0)
    as [[[code modules]|e] wg] eqn:Hg;
    pose proof (generate_world E _ _ _ _ Hg) as ->.
  2:{ rewrite (bind_Raise _ _ _ _ _ Hg). cbn [fst snd]. split; [reflexivity|].
      now exists []. }
  rewrite (bind_Ok _ _ _ _ _ Hg).
  destruct (generate_svg E code tmp_folder w0) as [[a|e] ws] eqn:Hs.
  - rewrite (bind_Ok _ _ _ _ _ Hs). cbn [fst snd].
    apply generate_svg_Ok_inv in Hs as (resp & m' & Hp & Hst & Hw & _ & ->).
    apply fs_write_Ok_inv in Hw. exists code, resp. now subst m'.
  - rewrite (bind_Raise _ _ _ _ _ Hs). cbn [fst snd].
    split; [exact (generate_svg_Raise_fs E _ _ _ _ _ Hs)|].
    destruct (client_post E kroki_url code w0) as [resp|e0] eqn:Hpost.
    2:{ rewrite (generate_svg_transport E _ _ _ _ Hpost) in Hs. inversion Hs.
        now exists []. }
    destruct (Z.eq_dec (status_code resp) 200%Z) as [Hst|Hst].
    + rewrite (generate_svg_200 E _ _ _ _ Hpost Hst) in Hs.
      destruct (fs_write _ _ _); [discriminate|]. inversion Hs. now exists [].
    + rewrite (generate_svg_not_200 E _ _ _ _ Hpost Hst) in Hs.
      destruct (String.eqb (content resp) "");
        [|destruct (bytes_decode E (content resp))]; inversion Hs;
        unfold w0, echoed, set_stdout; simpl; rewrite <- app_assoc; eauto.
Qed.

Lemma fs_read_Ok m k c : wf m -> m !! k = Some (File c) -> fs_read m k = Ok c.
Proof.
  intros Hwf Hk. unfold fs_read.
  assert (Hne : k <> []) by (intros ->; destruct Hwf; congruence).
  rewrite (check_parent_wf m k Hwf (wf_parent m k _ Hwf Hne Hk)). now rewrite Hk.
Qed.

Lemma index_html_plain : plain_name "index.html".
Proof. split; reflexivity. Qed.

Lemma snoc_ne {A} (l : list A) x : l <> l ++ [x].
Proof.
  intros Heq. apply (f_equal length) in Heq. rewrite length_app in Heq.
  simpl in Heq. lia.
Qed.

Lemma snoc_ne_sym {A} (l : list A) x : l ++ [x] <> l.
Proof. intros Heq. symmetry in Heq. now apply snoc_ne in Heq. Qed.

Section Preview.

Context (E : Env).

(** Up to the first cycle: the banner is printed, the directory made and
    the page copied into it. *)
Lemma dev_reaches_first_cycle view w page :
  wf_world w ->
  fs w !! dev_tmp_key E view w = None ->
  fs w !! removelast (dev_tmp_key E view w) = Some Dir ->
  fs w !! locate w (index_html_path E w) = Some (File page) ->
  wf_world (served_world E view w page)
  /\ (forall k, ~ dev_tmp_key E view w `prefix_of` k ->
        fs (served_world E view w page) !! k = fs w !! k)
  /\ dev_tmp E view w <> ""
  /\ dev E view w =
       let inner := observe_loop E view (dev_tmp E view w) (served_world E view w page) in
       (inner.1, with_fs inner.2
                   (fs_rmtree (fs inner.2) (locate inner.2 (Path_of (dev_tmp E view w))))).
Proof.
  intros Hw Hfresh Hparent Hpage.
  set (w0 := echoed w [dev_banner view]).
  assert (Hw0 : wf_world w0) by exact Hw.
  assert (Hloc0 : forall p, locate w0 p = locate w p) by reflexivity.
  assert (Hfs0 : fs w0 = fs w) by reflexivity.
  assert (Htk : tmp_key E w0 = dev_tmp_key E view w)
    by reflexivity.
  assert (Htmp : dev_tmp E view w <> "").
  { unfold dev_tmp. fold w0. apply tmp_name_nonempty; [exact Hw0|].
    now rewrite Htk, Hfs0. }
  assert (Htne : dev_tmp_key E view w <> []).
  { intros Hn. rewrite Hn in Hfresh. destruct Hw as [[Hr _] _]. congruence. }
  set (t := dev_tmp_key E view w) in *.
  assert (Hwf1 : wf (<[t := Dir]> (fs w)))
    by (apply wf_insert_dir; [apply Hw | exact Htne | exact Hparent]).
  assert (Hki : locate w (Path_of (dev_tmp E view w +:+ "/index.html")) = t ++ ["index.html"])
    by (apply (locate_join w _ "index.html" Htmp index_html_plain)).
  assert (Hkiabs : fs w !! (t ++ ["index.html"]) = None).
  { apply (wf_below_absent _ t); [apply Hw | exact Hfresh|]. now exists ["index.html"]. }
  assert (Hsame : forall k, ~ t `prefix_of` k ->
            fs (served_world E view w page) !! k = fs w !! k).
  { intros k Hk. unfold served_world. change (fs (with_fs ?x ?m)) with m. fold t.
    rewrite !lookup_insert_ne; [reflexivity | |].
    - intros <-. now apply Hk.
    - intros <-. apply Hk. now exists ["index.html"]. }
  split; [|split; [exact Hsame | split; [exact Htmp|]]].
  - split.
    + unfold served_world. change (fs (with_fs ?x ?m)) with m. fold t.
      apply wf_insert_file; [exact Hwf1 | now destruct t | |].
      * rewrite removelast_last. apply lookup_insert_eq.
      * rewrite lookup_insert_ne by apply snoc_ne. congruence.
    + change (cwd (served_world E view w page)) with (cwd w).
      rewrite Hsame; [apply Hw|]. intros Hp. destruct Hw as [Hwf Hcwd].
      rewrite (wf_below_absent _ _ _ Hwf Hfresh Hp) in Hcwd. discriminate.
  - rewrite dev_eq. fold w0.
    rewrite (TemporaryDirectory_creates E _ w0 (proj1 Hw0)).
    2:{ fold (tmp_key E w0). now rewrite Htk, Hfs0. }
    2:{ fold (tmp_key E w0). now rewrite Htk, Hfs0. }
    fold (tmp_key E w0). rewrite Htk, Hfs0. fold t.
    assert (Hname : mkdtemp E w0 = dev_tmp E view w) by reflexivity.
    rewrite Hname.
    assert (Hbody : dev_body E view (dev_tmp E view w) (with_fs w0 (<[t := Dir]> (fs w)))
                    = observe_loop E view (dev_tmp E view w) (served_world E view w page)).
    { unfold dev_body, bind at 1, absolute, gets.
      change (cwd (with_fs w0 (<[t := Dir]> (fs w)))) with (cwd w).
      fold (index_html_path E w).
      unfold shutil_copy, bind at 1, bind at 1, is_dir, gets, isdir.
      change (locate (with_fs w0 ?m) ?p) with (locate w0 p).
      change (fs (with_fs w0 ?m)) with m.
      rewrite !Hloc0, Hki.
      rewrite lookup_insert_ne by apply snoc_ne. rewrite Hkiabs.
      unfold bind at 1, read_text.
      change (locate (with_fs w0 ?m) ?p) with (locate w0 p).
      change (fs (with_fs w0 ?m)) with m. rewrite Hloc0.
      rewrite (fs_read_Ok _ _ page Hwf1).
      2:{ rewrite lookup_insert_ne; [exact Hpage|]. intros Heq.
          rewrite <- Heq in Hpage. congruence. }
      unfold write_text, fs_op.
      change (locate (with_fs w0 ?m) ?p) with (locate w0 p).
      change (fs (with_fs w0 ?m)) with m. rewrite Hloc0, Hki.
      rewrite fs_write_Ok; [| exact Hwf1 | now destruct t | |].
      - reflexivity.
      - rewrite removelast_last. apply lookup_insert_eq.
      - rewrite lookup_insert_ne by apply snoc_ne. congruence. }
    now rewrite Hbody.
Qed.

End Preview.

(** X12.  The start of the live preview, when the first cycle succeeds:
    the banner is printed, the page of the preview is copied into the new
    directory, the diagram is generated and rendered into the same
    directory, and the preview server is started once, on that directory.
    Only then does the watcher run, with the modules of the first
    generation and with the cycle as its callback; when it ends, the
    directory is removed. *)
Theorem dev_starts_watcher_after_first_render
    (E : Env) (view : string) (w : World) (page : string)
    (code modules : JSON) (resp : Response) :
  wf_world w ->
  fs w !! dev_tmp_key E view w = None ->
  fs w !! removelast (dev_tmp_key E view w) = Some Dir ->
  fs w !! locate w (index_html_path E w) = Some (File page) ->
  let w_gen := echoed (served_world E view w page) ["Generating diagram..."] in
  generate_diagram_code_in_child_process E view w_gen = (Ok (code, modules), w_gen) ->
  client_post E kroki_url code w_gen = Ok resp ->
  status_code resp = 200%Z ->
  dev E view w =
    let inner := observe_modules E modules
                   (dev_async_behavior E view (dev_tmp E view w))
                   (watched_world E view w page (text resp)) in
    (inner.1, with_fs inner.2
                (fs_rmtree (fs inner.2) (locate inner.2 (Path_of (dev_tmp E view w))))).
Proof.
  intros Hw Hfresh Hparent Hpage w_gen Hgen Hpost Hst.
  destruct (dev_reaches_first_cycle E view w page Hw Hfresh Hparent Hpage)
    as (Hws & Hsame & Htmp & ->).
  assert (Hloop : observe_loop E view (dev_tmp E view w) (served_world E view w page)
    = observe_modules E modules (dev_async_behavior E view (dev_tmp E view w))
        (watched_world E view w page (text resp))); [|now rewrite Hloop].
  unfold observe_loop, bind at 1, dev_async_behavior at 1, bind at 1.
  rewrite echo_eq. fold w_gen. unfold bind at 1. rewrite Hgen.
  unfold bind at 1. rewrite (generate_svg_200 E _ _ _ _ Hpost Hst).
  change (locate w_gen ?p) with (locate w p).
  change (fs w_gen) with (fs (served_world E view w page)).
  rewrite (artifact_key w _ Htmp). fold (dev_tmp_key E view w).
  set (t := dev_tmp_key E view w) in *.
  assert (Hkaabs : fs w !! (t ++ ["diagram.svg"]) = None).
  { apply (wf_below_absent _ t); [apply Hw | exact Hfresh|]. now exists ["diagram.svg"]. }
  rewrite fs_write_Ok.
  - unfold ret, bind, echo, Popen, modify. f_equal.
    unfold watched_world, w_gen, served_world. fold t.
    destruct w as [m c o sp up ob]. unfold echoed, with_fs, set_fs, set_stdout,
      set_spawned. simpl. now rewrite <- !app_assoc.
  - apply Hws.
  - now destruct t.
  - rewrite removelast_last. unfold served_world. change (fs (with_fs ?x ?m)) with m.
    fold t. rewrite lookup_insert_ne by apply snoc_ne_sym. apply lookup_insert_eq.
  - unfold served_world. change (fs (with_fs ?x ?m)) with m. fold t.
    rewrite lookup_insert_ne by (intros Heq; apply app_inv_head in Heq; discriminate).
    rewrite lookup_insert_ne by apply snoc_ne. congruence.
Qed.

(** On the sample machine the watcher finds the page and the artifact in
    [/tmp/tmpdiagram] and the server started; after it, the directory is
    gone. *)
Lemma dev_starts_watcher_after_first_render_witness :
  let w := Sample.world Sample.disk in
  let seen := watched_world SampleDev.idle_env Sample.view w "<html></html>" Sample.svg in
  dev SampleDev.idle_env Sample.view w
  = (Ok tt, with_fs seen Sample.disk)
  /\ fs seen !! ["tmp"; "tmpdiagram"; "index.html"] = Some (File "<html></html>")
  /\ fs seen !! ["tmp"; "tmpdiagram"; "diagram.svg"] = Some (File Sample.svg)
  /\ spawned seen = ["httpwatcher --root /tmp/tmpdiagram --watch /tmp/tmpdiagram"].
Proof.
  intros w seen.
  split; [|repeat split; vm_compute; reflexivity].
  rewrite (dev_starts_watcher_after_first_render SampleDev.idle_env Sample.view w
             "<html></html>" (JStr "workspace { }")
             (JArr [JStr Sample.view; JStr "examples"]) Sample.ok_response).
  - vm_compute. reflexivity.
  - split; [apply wfb_sound|]; vm_compute; reflexivity.
  - vm_compute. reflexivity.
  - vm_compute. reflexivity.
  - vm_compute. reflexivity.
  - vm_compute. reflexivity.
  - reflexivity.
  - reflexivity.
Defined.

(** X13.  A live preview that fails in its first cycle never starts the
    preview server nor the watcher, and removes its directory.  Without
    the page of the preview in the package, [dev] raises
    [FileNotFoundError] right after the banner, before anything is
    generated.  When the generation fails, [dev] raises the same
    exception after [Generating diagram...]; in both cases the rest of
    the world is what it was. *)
Theorem dev_fails_before_preview
    (E : Env) (view : string) (w : World) :
  wf_world w ->
  fs w !! dev_tmp_key E view w = None ->
  fs w !! removelast (dev_tmp_key E view w) = Some Dir ->
  (fs w !! locate w (index_html_path E w) = None ->
   fs w !! removelast (locate w (index_html_path E w)) = Some Dir ->
   locate w (index_html_path E w) <> dev_tmp_key E view w ->
   dev E view w = (Raise FileNotFoundError, echoed w [dev_banner view]))
  /\ (forall page e,
        fs w !! locate w (index_html_path E w) = Some (File page) ->
        let w_gen := echoed (served_world E view w page) ["Generating diagram..."] in
        generate_diagram_code_in_child_process E view w_gen = (Raise e, w_gen) ->
        dev E view w
        = (Raise e, echoed w [dev_banner view; "Generating diagram..."])).
Proof.
  intros Hw Hfresh Hparent. split.
  - intros Habs Hpkg Hne.
    set (w0 := echoed w [dev_banner view]).
    set (t := dev_tmp_key E view w) in *.
    assert (Htne : t <> []).
    { intros Hn. rewrite Hn in Hfresh. destruct Hw as [[Hr _] _]. congruence. }
    assert (Hwf1 : wf (<[t := Dir]> (fs w)))
      by (apply wf_insert_dir; [apply Hw | exact Htne | exact Hparent]).
    assert (Htmp : dev_tmp E view w <> "").
    { unfold dev_tmp. fold w0. apply tmp_name_nonempty; [exact Hw | exact Hfresh]. }
    assert (Hki : locate w (Path_of (dev_tmp E view w +:+ "/index.html"))
                  = t ++ ["index.html"])
      by (apply (locate_join w _ "index.html" Htmp index_html_plain)).
    assert (Hkiabs : fs w !! (t ++ ["index.html"]) = None).
    { apply (wf_below_absent _ t); [apply Hw | exact Hfresh|]. now exists ["index.html"]. }
    rewrite dev_eq. fold w0.
    rewrite (TemporaryDirectory_creates E _ w0 (proj1 Hw) Hfresh Hparent).
    change (locate w0 (Path_of (mkdtemp E w0))) with t.
    change (mkdtemp E w0) with (dev_tmp E view w).
    assert (Hbody : dev_body E view (dev_tmp E view w) (with_fs w0 (<[t := Dir]> (fs w0)))
                    = (Raise FileNotFoundError, with_fs w0 (<[t := Dir]> (fs w0)))).
    { unfold dev_body, bind at 1, absolute, gets.
      change (cwd (with_fs w0 ?m)) with (cwd w). fold (index_html_path E w).
      unfold shutil_copy, bind at 1, bind at 1, is_dir, gets, isdir.
      change (locate (with_fs w0 ?m) ?p) with (locate w p).
      change (fs (with_fs w0 ?m)) with m. change (fs w0) with (fs w).
      rewrite Hki. rewrite lookup_insert_ne by apply snoc_ne. rewrite Hkiabs.
      unfold bind at 1, read_text, fs_read.
      change (locate (with_fs w0 ?m) ?p) with (locate w p).
      change (fs (with_fs w0 ?m)) with m.
      rewrite check_parent_wf; [| exact Hwf1 |].
      - rewrite lookup_insert_ne by congruence. now rewrite Habs.
      - rewrite lookup_insert. case_decide; [reflexivity | exact Hpkg]. }
    rewrite Hbody. cbn [fst snd]. change (fs (with_fs w0 ?m)) with m.
    change (locate (with_fs w0 ?m) ?p) with (locate w p).
    change (locate w (Path_of (dev_tmp E view w))) with t.
    rewrite (fs_rmtree_restores (fs w)); [| apply Hw | exact Hfresh |].
    + reflexivity.
    + intros k Hk. change (fs w0) with (fs w).
      rewrite lookup_insert_ne; [reflexivity|]. intros <-. now apply Hk.
  - intros page e Hpage w_gen Hgen.
    destruct (dev_reaches_first_cycle E view w page Hw Hfresh Hparent Hpage)
      as (Hws & Hsame & Htmp & ->).
    assert (Hcycle : dev_async_behavior E view (dev_tmp E view w)
                       (served_world E view w page) = (Raise e, w_gen)).
    { unfold dev_async_behavior. rewrite (bind_Ok _ _ _ _ _ (echo_eq _ _)).
      fold w_gen. now rewrite (bind_Raise _ _ _ _ _ Hgen). }
    unfold observe_loop. rewrite (bind_Raise _ _ _ _ _ Hcycle). cbn [fst snd].
    change (fs w_gen) with (fs (served_world E view w page)).
    change (locate w_gen ?p) with (locate w p). fold (dev_tmp_key E view w).
    rewrite (fs_rmtree_restores (fs w)); [| apply Hw | exact Hfresh | exact Hsame].
    f_equal. unfold w_gen, served_world. destruct w as [m c o sp up ob].
    unfold echoed, with_fs, set_fs, set_stdout. simpl. now rewrite <- !app_assoc.
Qed.

(** The package has no [index.html]: [dev] prints its banner and
    raises. *)
Lemma dev_fails_before_preview_witness :
  let w := Sample.world SampleDev.bare_disk in
  dev Sample.good_env Sample.view w
  = (Raise FileNotFoundError, echoed w [dev_banner Sample.view]).
Proof.
  intros w.
  destruct (dev_fails_before_preview Sample.good_env Sample.view w) as [Hpage _].
  - split; [apply wfb_sound|]; vm_compute; reflexivity.
  - vm_compute. reflexivity.
  - vm_compute. reflexivity.
  - apply Hpage.
    + vm_compute. reflexivity.
    + vm_compute. reflexivity.
    + vm_compute. discriminate.
Defined.

(** ** Chains of uploads *)

(** X14.  In a chain of [upload] subcommands behind a stored path, the
    uploader is called for the subcommands in the order given, each time
    with that same path, and the chain stops at the first subcommand that
    raises: the calls made are those of a prefix of the chain, the whole
    chain when it returns.  The chain changes neither the context nor the
    file system. *)
Theorem invoke_chain_uploads_in_order
    (E : Env) (subcommands : list (string * string * string)) (w : World) (p : Path) :
  ctx_obj w ≫= (.!! "svg_file_path") = Some p ->
  let run := invoke_chain E subcommands w in
  exists n,
    n <= length subcommands
    /\ uploaded run.2 = uploaded w ++ List.map (upload_call p) (take n subcommands)
    /\ ctx_obj run.2 = ctx_obj w
    /\ fs run.2 = fs w
    /\ (run.1 = Ok tt -> n = length subcommands)
    /\ (n < length subcommands -> is_Ok run.1 = false).
Proof.
  revert w. induction subcommands as [|[[c b] o] rest IH]; intros w Hp run.
  - exists 0. unfold run. simpl. rewrite app_nil_r. repeat split; auto; lia.
  - unfold run. clear run.
    assert (Hstep : invoke_chain E ((c, b, o) :: rest) w
              = match upload_from E p c b o w with
                | (Ok _, w') => invoke_chain E rest w'
                | (Raise e, w') => (Raise e, w')
                end).
    { cbn [invoke_chain]. unfold bind. now rewrite (upload_found E p c b o w Hp). }
    rewrite Hstep. clear Hstep. unfold upload_from.
    destruct (create_cloud_storage E "GCS" c _) as [[]|e].
    2:{ exists 0. cbn [fst snd take List.map length]. rewrite app_nil_r.
        repeat split; try reflexivity; try lia; intros; discriminate. }
    destruct (cloud_upload_file E _ _) as [url|e].
    2:{ exists 1. cbn [fst snd take List.map length].
        repeat split; try reflexivity; try lia; intros; discriminate. }
    match goal with |- context [invoke_chain E rest ?w1] => set (w' := w1) end.
    destruct (IH w' Hp) as (n & Hn & Hup & Hctx & Hfs & Hok & Hstop).
    exists (S n). cbn [length take List.map]. repeat split.
    + lia.
    + rewrite Hup. unfold w'. simpl. now rewrite <- app_assoc.
    + exact Hctx.
    + exact Hfs.
    + intros Hr. now rewrite (Hok Hr).
    + intros Hlt. apply Hstop. lia.
Qed.

(** Two uploads behind a build: two calls, in order, with the path that
    the build stored. *)
Lemma invoke_chain_uploads_in_order_witness :
  let built := (build Sample.good_env Sample.view "out/" (Sample.world Sample.disk)).2 in
  let p := Path_of "out/examples_single_file_example.svg" in
  uploaded (invoke_chain Sample.good_env
              [("credentials.json", "diagrams", "first.svg");
               ("credentials.json", "archive", "second.svg")] built).2
  = [mkUploadCall "credentials.json" p "diagrams" "first.svg";
     mkUploadCall "credentials.json" p "archive" "second.svg"].
Proof.
  intros built p.
  destruct (invoke_chain_uploads_in_order Sample.good_env
              [("credentials.json", "diagrams", "first.svg");
               ("credentials.json", "archive", "second.svg")] built p)
    as (n & Hn & Hup & _ & _ & Hok & _).
  - vm_compute. reflexivity.
  - rewrite Hup, Hok; [reflexivity | vm_compute; reflexivity].
Defined.

(** ** Rendering without a working directory *)

(** X15.  A response with status 200 is not enough for [generate_svg] to
    return: when the working directory does not exist the call raises
    [FileNotFoundError], and when a regular file stands at its place or on
    the way to it the call raises [NotADirectoryError]; in both cases
    nothing is written and nothing is printed. *)
Theorem generate_svg_needs_work_directory
    (E : Env) (diagram_code : JSON) (tmp_folder : string) (w : World)
    (resp : Response) :
  wf (fs w) ->
  tmp_folder <> "" ->
  client_post E kroki_url diagram_code w = Ok resp ->
  status_code resp = 200%Z ->
  (fs w !! locate w (Path_of tmp_folder) = None ->
   clear_way (fs w) (locate w (Path_of tmp_folder)) ->
   generate_svg E diagram_code tmp_folder w = (Raise FileNotFoundError, w))
  /\ (forall f c, f `prefix_of` locate w (Path_of tmp_folder) ->
        fs w !! f = Some (File c) ->
        generate_svg E diagram_code tmp_folder w = (Raise NotADirectoryError, w)).
Proof.
  intros Hwf Htmp Hpost Hst.
  pose proof (generate_svg_200 E _ tmp_folder _ _ Hpost Hst) as Hsvg.
  rewrite (artifact_key w tmp_folder Htmp) in Hsvg.
  remember (locate w (Path_of tmp_folder)) as kd eqn:Ekd.
  assert (Hshape : forall e, check_dirs (fs w) [] kd = Some e ->
            fs_write (fs w) (kd ++ ["diagram.svg"]) (text resp) = Raise e).
  { intros e He. unfold fs_write, check_parent.
    destruct (kd ++ ["diagram.svg"]) eqn:Hk; [now destruct kd|].
    rewrite <- Hk, removelast_last. now rewrite He. }
  split.
  - intros Habs Hclear. rewrite Hsvg, (Hshape FileNotFoundError); [reflexivity|].
    destruct (check_dirs_clear (fs w) [] kd) as [H | H]; [now apply Hclear | | exact H].
    pose proof (proj1 (check_dirs_None _ _ _) H kd (reflexivity _)) as Hd.
    simpl in Hd. congruence.
  - intros f c Hp Hf. rewrite Hsvg, (Hshape NotADirectoryError); [reflexivity|].
    now apply (check_dirs_file (fs w) [] f kd c).
Qed.

(** The working directory [/tmp/gone] does not exist. *)
Lemma generate_svg_needs_work_directory_witness :
  let w := Sample.world Sample.disk in
  generate_svg Sample.good_env (JStr "workspace { }") "/tmp/gone" w
  = (Raise FileNotFoundError, w).
Proof.
  intros w.
  destruct (generate_svg_needs_work_directory Sample.good_env
              (JStr "workspace { }") "/tmp/gone" w Sample.ok_response) as [Hgone _].
  - apply wfb_sound. vm_compute. reflexivity.
  - discriminate.
  - reflexivity.
  - reflexivity.
  - apply Hgone; [vm_compute; reflexivity|].
    apply clear_wayb_sound. vm_compute. reflexivity.
Defined.
